(** * Aura API: a shallow embedding of the request handlers

    The handlers of the service (src/src/auth, src/src/social, src/src/images,
    src/src/gemini) are sequences of awaited calls to the ORM and to hosted
    services.  They are embedded here as programs of a small resumption monad
    whose operations are exactly those awaited calls; the relational schema of
    src/prisma/schema.prisma is embedded as an in-memory database whose insert
    primitives check the schema's key constraints.

    Conventions.
    - A [DateTime] is a number of milliseconds (as [Date.now()] returns it).
    - A [Float] is kept as the rational it denotes ([Q]).  The arithmetic of
      the leaderboard on floats rounds every result to the nearest binary64
      value, as JavaScript does ([double]); the scaling of [Math.random()] in
      sendOtp is exact.  NaN, infinities, overflow and underflow are outside
      the model.
    - An [Int] column is an unbounded integer ([Z]).
    - [console.log] and the logger are not modelled. *)

From Stdlib Require Import ZArith QArith Qround Qabs Qpower String Ascii List Lia.
From Stdlib Require Import Permutation Sorted.
From Stdlib Require Import DecimalString DecimalPos DecimalZ Lqa.
From stdpp Require Import base tactics option list.
Import ListNotations.

Local Open Scope string_scope.
Local Open Scope list_scope.
Local Open Scope Z_scope.

(** ** JavaScript helpers *)

(** [s.includes(sub)] *)
Fixpoint includes_from (fuel : nat) (sub s : string) : bool :=
  if String.prefix sub s then true
  else match fuel, s with
       | S fuel', String _ s' => includes_from fuel' sub s'
       | _, _ => false
       end.

Definition includes (s sub : string) : bool :=
  includes_from (String.length s) sub s.

(** [xs.includes(x)] on an array of strings *)
Definition array_includes (xs : list string) (x : string) : bool :=
  existsb (String.eqb x) xs.

(** [Math.round(x)]: the nearest integer, halves rounded up. *)
Definition Math_round (x : Q) : Z := Qfloor (x + (1 # 2)).

(** [Math.floor(x)] *)
Definition Math_floor (x : Q) : Z := Qfloor x.

(** *** Arithmetic on numbers

    A JavaScript number is a binary64 float: a sign, 53 significant bits and
    an exponent.  [a + b], [a - b], [a * b] and [a / b] are the exact result
    rounded to the nearest such value, the one with an even last bit when two
    are equally near. *)

(** The integer nearest to [y], the even one of two that are equally near. *)
Definition round_half_even (y : Q) : Z :=
  let f := Qfloor y in
  match (y - inject_Z f ?= 1 # 2)%Q with
  | Lt => f
  | Gt => f + 1
  | Eq => if Z.even f then f else f + 1
  end.

(** For [0 < x], the exponent [e] with [2^e <= x < 2^(e+1)]: it is the
    difference of the sizes of the numerator and the denominator, or one
    less. *)
Definition ilog2 (x : Q) : Z :=
  let e := Z.log2 (Qnum x) - Z.log2 (Zpos (Qden x)) in
  if Qle_bool (2 ^ e) x then e else e - 1.

(** The binary64 value nearest to [x]: [x] is rounded to a multiple of
    [2^(e-52)], where [2^e <= |x| < 2^(e+1)]. *)
Definition double (x : Q) : Q :=
  if Qeq_bool x 0 then 0%Q
  else
    let ulp := (2 ^ (ilog2 (Qabs x) - 52))%Q in
    Qred (inject_Z (round_half_even (x / ulp)) * ulp).

Definition fadd (a b : Q) : Q := double (a + b).
Definition fsub (a b : Q) : Q := double (a - b).
Definition fmul (a b : Q) : Q := double (a * b).
Definition fdiv (a b : Q) : Q := double (a / b).

(** ** Exceptions

    The framework's exception classes, the plain [Error], and the errors the
    ORM and the SDKs raise.  Every thrown value is an object with a [message]
    (possibly empty). *)

Inductive ExnClass :=
| BadRequestException
| UnauthorizedException
| NotFoundException
| ConflictException
| PlainError
| PrismaClientKnownRequestError
| TwilioRestException.

Record exn := mkExn {
  exn_class : ExnClass;
  exn_message : string;
  exn_code : option string         (* [error.code], where the SDK sets one *)
}.

(** [new C(message)] *)
Definition Exn (c : ExnClass) (message : string) : exn := mkExn c message None.

Definition is_BadRequestException (e : exn) : bool :=
  match exn_class e with BadRequestException => true | _ => false end.

(** ** Data model (src/prisma/schema.prisma) *)

Module User.
Record t := mk {
  id : string;
  firstName : string;
  lastName : string;
  phoneNumber : string;          (* @unique *)
  birthday : Z;
  isVerified : bool;
  profilePictureUrl : option string;
  profilePublicId : option string;
  createdAt : Z;
  updatedAt : Z
}.
End User.

Module OTP.
Record t := mk {
  id : string;
  phoneNumber : string;
  code : string;
  expiresAt : Z;
  isUsed : bool;
  createdAt : Z;
  userId : option string
}.
End OTP.

Module Image.
Record t := mk {
  id : string;
  originalUrl : string;
  processedUrl : option string;
  publicId : string;
  fileName : string;
  fileSize : Z;
  mimeType : string;
  width : option Z;
  height : option Z;
  isProcessed : bool;
  processingStatus : string;
  croppedUrl : option string;
  backgroundRemovedUrl : option string;
  faceDetectedUrl : option string;
  createdAt : Z;
  updatedAt : Z;
  userId : string
}.
End Image.

Module Aura.
Record t := mk {
  id : string;
  title : string;
  description : string;
  mood : option string;
  colors : list string;
  keywords : list string;
  confidence : option Q;
  likes : Z;
  shares : Z;
  mysteriousAuraUrl : option string;
  vibrantAuraUrl : option string;
  calmingAuraUrl : option string;
  energeticAuraUrl : option string;
  createdAt : Z;
  updatedAt : Z;
  imageId : string;              (* @unique *)
  userId : string
}.
End Aura.

Module Follow.
Record t := mk {
  id : string;
  followerId : string;
  followingId : string;          (* @@unique([followerId, followingId]) *)
  createdAt : Z
}.
End Follow.

(** The database: one list of rows per table, in insertion order. *)
Record DB := mkDB {
  users : list User.t;
  otps : list OTP.t;
  images : list Image.t;
  auras : list Aura.t;
  follows : list Follow.t
}.

Definition empty_db : DB := mkDB [] [] [] [] [].

Definition set_users (d : DB) (x : list User.t) : DB :=
  mkDB x (otps d) (images d) (auras d) (follows d).
Definition set_otps (d : DB) (x : list OTP.t) : DB :=
  mkDB (users d) x (images d) (auras d) (follows d).
Definition set_images (d : DB) (x : list Image.t) : DB :=
  mkDB (users d) (otps d) x (auras d) (follows d).
Definition set_auras (d : DB) (x : list Aura.t) : DB :=
  mkDB (users d) (otps d) (images d) x (follows d).
Definition set_follows (d : DB) (x : list Follow.t) : DB :=
  mkDB (users d) (otps d) (images d) (auras d) x.

(** The [LeaderboardEntry] table of the schema is never read or written by the
    service and is left out. *)

(** ** Query arguments of the ORM calls the service makes *)

Definition holds {A} (c : option A) (p : A -> bool) : bool :=
  match c with None => true | Some x => p x end.

Module OtpWhere.
(** A [where] object over the OTP table; an absent key is [None]. *)
Record t := mk {
  phoneNumber : option string;
  code : option string;
  isUsed : option bool;
  expiresAt_gt : option Z;
  createdAt_lt : option Z
}.
Definition matches (w : t) (o : OTP.t) : bool :=
  holds (phoneNumber w) (String.eqb (OTP.phoneNumber o)) &&
  holds (code w) (String.eqb (OTP.code o)) &&
  holds (isUsed w) (Bool.eqb (OTP.isUsed o)) &&
  holds (expiresAt_gt w) (fun t => t <? OTP.expiresAt o) &&
  holds (createdAt_lt w) (fun t => OTP.createdAt o <? t).
End OtpWhere.

Inductive UserUnique :=
| ById (id : string)
| ByPhoneNumber (phoneNumber : string).

Module UserCreateInput.
Record t := mk {
  id : option string;            (* @default(cuid()) when absent *)
  firstName : string;
  lastName : string;
  phoneNumber : string;
  birthday : Z;
  isVerified : bool;
  profilePictureUrl : option string;
  profilePublicId : option string
}.
End UserCreateInput.

Module ImageCreateInput.
Record t := mk {
  originalUrl : string;
  publicId : string;
  fileName : string;
  fileSize : Z;
  mimeType : string;
  width : option Z;
  height : option Z;
  isProcessed : bool;
  processingStatus : string;
  userId : string
}.
End ImageCreateInput.

Module AuraCreateInput.
Record t := mk {
  title : string;
  description : string;
  mood : option string;
  keywords : list string;
  confidence : option Q;
  colors : list string;
  imageId : string;
  userId : string
}.
End AuraCreateInput.

Inductive AuraUpdateInput :=
| LikesIncrement (n : Z)
| LikesDecrement (n : Z)
| SharesIncrement (n : Z).

(** One element of [prisma.user.findMany({select: {..., images: {include:
    {aura: {select: {confidence}}}}, _count: {select: {followers}}}})]. *)
Record AuraConfidence := { confidence : option Q }.
Record ImageWithAura := { image : Image.t; aura : option AuraConfidence }.
Module UserWithStats.
Record t := mk {
  id : string;
  firstName : string;
  lastName : string;
  profilePictureUrl : option string;
  images : list ImageWithAura;
  _count_followers : Z
}.
End UserWithStats.

(** The [select]ed public columns of a user. *)
Record UserBrief := {
  ub_id : string;
  ub_firstName : string;
  ub_lastName : string;
  ub_profilePictureUrl : option string
}.

(** ** Hosted services *)

(** What [cloudinary.uploader.upload] resolves to (the fields read). *)
Record UploadApiResponse := {
  secure_url : string;
  public_id : string;
  up_width : Z;
  up_height : Z;
  format : string;
  bytes : Z
}.

(** What [fetch] resolves to (the fields read). *)
Record Response := { ok : bool; status : Z; statusText : string }.

(** ** The operations

    [Op R] is a call that yields an [R] or fails: an awaited call to the ORM
    or to a hosted service, or a call into the runtime. *)
Inductive Op : Type -> Type :=
(* runtime *)
| DateNow : Op Z
| MathRandom : Op Q
| Sleep (ms : Z) : Op unit
| JwtSign (sub phoneNumber : string) : Op string
(* prisma.oTP *)
| OtpCreate (phoneNumber code : string) (expiresAt : Z) : Op OTP.t
| OtpFindFirst (w : OtpWhere.t) : Op (option OTP.t)
| OtpUpdate (id : string) (isUsed : bool) : Op OTP.t
| OtpDeleteMany (w : OtpWhere.t) : Op Z
(* prisma.user *)
| UserFindUnique (w : UserUnique) : Op (option User.t)
| UserCreate (data : UserCreateInput.t) : Op User.t
| UserUpdate (id : string) (profilePictureUrl : string) : Op User.t
| UserFindManyWithStats : Op (list UserWithStats.t)
| UserFindUniqueBrief (id : string) : Op (option UserBrief)
(* prisma.follow *)
| FollowFindUnique (followerId followingId : string) : Op (option Follow.t)
| FollowCreate (followerId followingId : string) : Op Follow.t
| FollowDelete (followerId followingId : string) : Op Follow.t
| FollowCountFollowers (followingId : string) : Op Z
| FollowFindManyFollowing (followerId : string) : Op (list string)
(* prisma.aura, prisma.image *)
| AuraFindUnique (id : string) : Op (option Aura.t)
| AuraUpdate (id : string) (data : AuraUpdateInput) : Op Aura.t
| AuraCreate (data : AuraCreateInput.t) : Op Aura.t
| ImageCreate (data : ImageCreateInput.t) : Op Image.t
| ImageFindFirst (id userId : string) : Op (option Image.t)
| ImageDelete (id : string) : Op Image.t
(* SDKs *)
| GeminiGenerateContent (data mimeType : string) : Op string
| CloudinaryUpload (file public_id : string) : Op UploadApiResponse
| CloudinaryDestroy (public_id : string) : Op unit
| TwilioMessagesCreate (body from to : string) : Op unit
| Fetch (url : string) : Op Response
| ResponseBuffer (url : string) : Op (list Byte.byte).

Definition Event : Type := { R : Type & Op R }.
Definition ev {R} (op : Op R) : Event := existT R op.

(** ** Handlers as programs

    A handler either returns, throws, or does an operation and continues with
    its outcome (a value, or the reason of the rejection). *)
Inductive prog (A : Type) : Type :=
| Ret (a : A)
| Throw (e : exn)
| Do {R : Type} (op : Op R) (k : exn + R -> prog A).
Arguments Ret {A} a.
Arguments Throw {A} e.
Arguments Do {A R} op k.

Fixpoint bind {A B} (p : prog A) (f : A -> prog B) : prog B :=
  match p with
  | Ret a => f a
  | Throw e => Throw e
  | Do op k => Do op (fun r => bind (k r) f)
  end.

(** [await op]: a rejection is thrown at the point of the [await]. *)
Definition await {R} (op : Op R) : prog R :=
  Do op (fun r => match r with inl e => Throw e | inr v => Ret v end).

(** A call that returns at once ([Date.now()], [Math.random()],
    [jwtService.sign]): what it returns comes from outside all the same. *)
Definition call {R} (op : Op R) : prog R := await op.

(** [try { p } catch (error) { h error }] *)
Fixpoint try_catch {A} (p : prog A) (h : exn -> prog A) : prog A :=
  match p with
  | Ret a => Ret a
  | Throw e => h e
  | Do op k => Do op (fun r => try_catch (k r) h)
  end.

#[global] Instance prog_ret : MRet prog := @Ret.
#[global] Instance prog_bind : MBind prog := fun A B f p => bind p f.

(** ** The database engine

    Each function is one ORM call, atomic on the database.  Inserts check the
    keys the schema declares: the primary key [@id], the [@unique] and
    [@@unique] columns, and the foreign keys of the relations. *)
Module Prisma.

(** The errors of the ORM.  Their message texts follow the templates of
    Prisma's error reference; a real message carries more (the call that
    failed), so nothing below relies on the text of a message. *)
Definition P2002 (fields : string) : exn :=
  Exn PrismaClientKnownRequestError
      ("Unique constraint failed on the fields: (" ++ fields ++ ")").
Definition P2003 (field : string) : exn :=
  Exn PrismaClientKnownRequestError
      ("Foreign key constraint failed on the field: " ++ field).
Definition P2025 : exn :=
  Exn PrismaClientKnownRequestError "Record to update or delete does not exist.".

Definition user_exists (d : DB) (id : string) : bool :=
  existsb (fun u => String.eqb (User.id u) id) (users d).
Definition image_exists (d : DB) (id : string) : bool :=
  existsb (fun i => String.eqb (Image.id i) id) (images d).
Definition follow_pair (a b : string) (f : Follow.t) : bool :=
  String.eqb (Follow.followerId f) a && String.eqb (Follow.followingId f) b.

(* prisma.oTP *)
Definition otp_create (newId : string) (now : Z)
           (phoneNumber code : string) (expiresAt : Z) (d : DB)
  : exn + OTP.t * DB :=
  if existsb (fun o => String.eqb (OTP.id o) newId) (otps d) then inl (P2002 "id")
  else
    let row := OTP.mk newId phoneNumber code expiresAt false now None in
    inr (row, set_otps d (otps d ++ [row])).

Definition otp_findFirst (w : OtpWhere.t) (d : DB) : option OTP.t :=
  find (OtpWhere.matches w) (otps d).

Definition otp_set_isUsed (b : bool) (o : OTP.t) : OTP.t :=
  OTP.mk (OTP.id o) (OTP.phoneNumber o) (OTP.code o) (OTP.expiresAt o) b
         (OTP.createdAt o) (OTP.userId o).

Definition otp_update (id : string) (isUsed : bool) (d : DB) : exn + OTP.t * DB :=
  match find (fun o => String.eqb (OTP.id o) id) (otps d) with
  | None => inl P2025
  | Some o =>
      inr (otp_set_isUsed isUsed o,
           set_otps d (map (fun o => if String.eqb (OTP.id o) id
                                     then otp_set_isUsed isUsed o else o) (otps d)))
  end.

Definition otp_deleteMany (w : OtpWhere.t) (d : DB) : Z * DB :=
  (Z.of_nat (length (List.filter (OtpWhere.matches w) (otps d))),
   set_otps d (List.filter (fun o => negb (OtpWhere.matches w o)) (otps d))).

(* prisma.user *)
Definition user_findUnique (w : UserUnique) (d : DB) : option User.t :=
  match w with
  | ById id => find (fun u => String.eqb (User.id u) id) (users d)
  | ByPhoneNumber p => find (fun u => String.eqb (User.phoneNumber u) p) (users d)
  end.

Definition user_create (newId : string) (now : Z) (data : UserCreateInput.t) (d : DB)
  : exn + User.t * DB :=
  let id := default newId (UserCreateInput.id data) in
  if user_exists d id then inl (P2002 "id")
  else if existsb (fun u => String.eqb (User.phoneNumber u)
                                       (UserCreateInput.phoneNumber data)) (users d)
  then inl (P2002 "phoneNumber")
  else
    let row := User.mk id (UserCreateInput.firstName data)
                       (UserCreateInput.lastName data)
                       (UserCreateInput.phoneNumber data)
                       (UserCreateInput.birthday data)
                       (UserCreateInput.isVerified data)
                       (UserCreateInput.profilePictureUrl data)
                       (UserCreateInput.profilePublicId data) now now in
    inr (row, set_users d (users d ++ [row])).

Definition user_set_picture (url : string) (now : Z) (u : User.t) : User.t :=
  User.mk (User.id u) (User.firstName u) (User.lastName u) (User.phoneNumber u)
          (User.birthday u) (User.isVerified u) (Some url)
          (User.profilePublicId u) (User.createdAt u) now.

Definition user_update (now : Z) (id url : string) (d : DB) : exn + User.t * DB :=
  match find (fun u => String.eqb (User.id u) id) (users d) with
  | None => inl P2025
  | Some u =>
      inr (user_set_picture url now u,
           set_users d (map (fun u => if String.eqb (User.id u) id
                                      then user_set_picture url now u else u) (users d)))
  end.

Definition brief (u : User.t) : UserBrief :=
  {| ub_id := User.id u; ub_firstName := User.firstName u;
     ub_lastName := User.lastName u;
     ub_profilePictureUrl := User.profilePictureUrl u |}.

(* prisma.follow *)
Definition follow_findUnique (a b : string) (d : DB) : option Follow.t :=
  find (follow_pair a b) (follows d).

Definition follow_create (newId : string) (now : Z) (a b : string) (d : DB)
  : exn + Follow.t * DB :=
  if existsb (fun f => String.eqb (Follow.id f) newId) (follows d) then inl (P2002 "id")
  else if existsb (follow_pair a b) (follows d)
  then inl (P2002 "followerId,followingId")
  else if negb (user_exists d a) then inl (P2003 "followerId")
  else if negb (user_exists d b) then inl (P2003 "followingId")
  else
    let row := Follow.mk newId a b now in
    inr (row, set_follows d (follows d ++ [row])).

Definition follow_delete (a b : string) (d : DB) : exn + Follow.t * DB :=
  match find (follow_pair a b) (follows d) with
  | None => inl P2025
  | Some f =>
      inr (f, set_follows d (List.filter (fun f => negb (follow_pair a b f)) (follows d)))
  end.

Definition follow_count_followers (b : string) (d : DB) : Z :=
  Z.of_nat (length (List.filter (fun f => String.eqb (Follow.followingId f) b) (follows d))).

Definition follow_findMany_following (a : string) (d : DB) : list string :=
  map Follow.followingId
      (List.filter (fun f => String.eqb (Follow.followerId f) a) (follows d)).

(* prisma.aura *)
Definition aura_findUnique (id : string) (d : DB) : option Aura.t :=
  find (fun a => String.eqb (Aura.id a) id) (auras d).

Definition aura_with (likes shares now : Z) (a : Aura.t) : Aura.t :=
  Aura.mk (Aura.id a) (Aura.title a) (Aura.description a) (Aura.mood a)
          (Aura.colors a) (Aura.keywords a) (Aura.confidence a) likes shares
          (Aura.mysteriousAuraUrl a) (Aura.vibrantAuraUrl a)
          (Aura.calmingAuraUrl a) (Aura.energeticAuraUrl a)
          (Aura.createdAt a) now (Aura.imageId a) (Aura.userId a).

Definition aura_apply (data : AuraUpdateInput) (now : Z) (a : Aura.t) : Aura.t :=
  match data with
  | LikesIncrement n => aura_with (Aura.likes a + n) (Aura.shares a) now a
  | LikesDecrement n => aura_with (Aura.likes a - n) (Aura.shares a) now a
  | SharesIncrement n => aura_with (Aura.likes a) (Aura.shares a + n) now a
  end.

Definition aura_update (now : Z) (id : string) (data : AuraUpdateInput) (d : DB)
  : exn + Aura.t * DB :=
  match find (fun a => String.eqb (Aura.id a) id) (auras d) with
  | None => inl P2025
  | Some a =>
      inr (aura_apply data now a,
           set_auras d (map (fun a => if String.eqb (Aura.id a) id
                                      then aura_apply data now a else a) (auras d)))
  end.

Definition aura_create (newId : string) (now : Z) (data : AuraCreateInput.t) (d : DB)
  : exn + Aura.t * DB :=
  if existsb (fun a => String.eqb (Aura.id a) newId) (auras d) then inl (P2002 "id")
  else if existsb (fun a => String.eqb (Aura.imageId a) (AuraCreateInput.imageId data))
                  (auras d)
  then inl (P2002 "imageId")
  else if negb (image_exists d (AuraCreateInput.imageId data)) then inl (P2003 "imageId")
  else if negb (user_exists d (AuraCreateInput.userId data)) then inl (P2003 "userId")
  else
    let row := Aura.mk newId (AuraCreateInput.title data)
                       (AuraCreateInput.description data)
                       (AuraCreateInput.mood data)
                       (AuraCreateInput.colors data)
                       (AuraCreateInput.keywords data)
                       (AuraCreateInput.confidence data)
                       0 0 None None None None now now
                       (AuraCreateInput.imageId data)
                       (AuraCreateInput.userId data) in
    inr (row, set_auras d (auras d ++ [row])).

(* prisma.image *)
Definition image_create (newId : string) (now : Z) (data : ImageCreateInput.t) (d : DB)
  : exn + Image.t * DB :=
  if image_exists d newId then inl (P2002 "id")
  else if negb (user_exists d (ImageCreateInput.userId data)) then inl (P2003 "userId")
  else
    let row := Image.mk newId (ImageCreateInput.originalUrl data) None
                        (ImageCreateInput.publicId data)
                        (ImageCreateInput.fileName data)
                        (ImageCreateInput.fileSize data)
                        (ImageCreateInput.mimeType data)
                        (ImageCreateInput.width data)
                        (ImageCreateInput.height data)
                        (ImageCreateInput.isProcessed data)
                        (ImageCreateInput.processingStatus data)
                        None None None now now
                        (ImageCreateInput.userId data) in
    inr (row, set_images d (images d ++ [row])).

Definition image_findFirst (id userId : string) (d : DB) : option Image.t :=
  find (fun i => String.eqb (Image.id i) id && String.eqb (Image.userId i) userId)
       (images d).

(** [onDelete: Cascade] on [Aura.image]: the image's aura goes with it. *)
Definition image_delete (id : string) (d : DB) : exn + Image.t * DB :=
  match find (fun i => String.eqb (Image.id i) id) (images d) with
  | None => inl P2025
  | Some i =>
      inr (i, mkDB (users d) (otps d)
                   (List.filter (fun i => negb (String.eqb (Image.id i) id)) (images d))
                   (List.filter (fun a => negb (String.eqb (Aura.imageId a) id)) (auras d))
                   (follows d))
  end.

(** The leaderboard query: every user with their images, each image with
    its aura's confidence, and the number of followers. *)
Definition with_aura (d : DB) (i : Image.t) : ImageWithAura :=
  {| image := i;
     aura := option_map (fun a => {| confidence := Aura.confidence a |})
               (find (fun a => String.eqb (Aura.imageId a) (Image.id i)) (auras d)) |}.

Definition user_with_stats (d : DB) (u : User.t) : UserWithStats.t :=
  UserWithStats.mk (User.id u) (User.firstName u) (User.lastName u)
    (User.profilePictureUrl u)
    (map (with_aura d)
         (List.filter (fun i => String.eqb (Image.userId i) (User.id u)) (images d)))
    (follow_count_followers (User.id u) d).

Definition user_findMany_with_stats (d : DB) : list UserWithStats.t :=
  map (user_with_stats d) (users d).

End Prisma.

(** ** The world a handler runs in *)

(** The outcomes of everything outside the service: generated identifiers,
    [Math.random()], and what the hosted services answer.  The [nat] is the
    number of operations performed so far, so that two calls with the same
    arguments may be answered differently. *)
Record Oracle := {
  cuid : nat -> string;
  random : nat -> Q;
  jwt_sign : string -> string -> string;
  gemini_generate : nat -> string -> string -> exn + string;
  cloudinary_upload : nat -> string -> string -> exn + UploadApiResponse;
  cloudinary_destroy : nat -> string -> exn + unit;
  twilio_send : nat -> string -> string -> string -> exn + unit;
  fetch : nat -> string -> exn + Response;
  response_buffer : nat -> string -> exn + list Byte.byte
}.

Record World := mkWorld {
  db : DB;
  clock : Z;                       (* Date.now() *)
  tick : nat;                      (* operations performed so far *)
  log : list Event                 (* the awaited operations, oldest first *)
}.

Definition read {R} (w : World) (v : R) : (exn + R) * DB * Z :=
  (inr v, db w, clock w).
Definition external {R} (w : World) (r : exn + R) : (exn + R) * DB * Z :=
  (r, db w, clock w).
Definition write {R} (w : World) (r : exn + R * DB) : (exn + R) * DB * Z :=
  match r with
  | inl e => (inl e, db w, clock w)
  | inr (v, d) => (inr v, d, clock w)
  end.

Definition perform (o : Oracle) {R} (op : Op R) (w : World) : (exn + R) * DB * Z :=
  let d := db w in
  let now := clock w in
  let n := tick w in
  match op in Op R return (exn + R) * DB * Z with
  | DateNow => read w now
  | MathRandom => read w (random o n)
  | Sleep ms => (inr tt, d, now + Z.max 0 ms)
  | JwtSign sub phone => read w (jwt_sign o sub phone)
  | OtpCreate phone code expiresAt =>
      write w (Prisma.otp_create (cuid o n) now phone code expiresAt d)
  | OtpFindFirst wh => read w (Prisma.otp_findFirst wh d)
  | OtpUpdate id isUsed => write w (Prisma.otp_update id isUsed d)
  | OtpDeleteMany wh => write w (inr (Prisma.otp_deleteMany wh d))
  | UserFindUnique wh => read w (Prisma.user_findUnique wh d)
  | UserCreate data => write w (Prisma.user_create (cuid o n) now data d)
  | UserUpdate id url => write w (Prisma.user_update now id url d)
  | UserFindManyWithStats => read w (Prisma.user_findMany_with_stats d)
  | UserFindUniqueBrief id =>
      read w (option_map Prisma.brief (Prisma.user_findUnique (ById id) d))
  | FollowFindUnique a b => read w (Prisma.follow_findUnique a b d)
  | FollowCreate a b => write w (Prisma.follow_create (cuid o n) now a b d)
  | FollowDelete a b => write w (Prisma.follow_delete a b d)
  | FollowCountFollowers b => read w (Prisma.follow_count_followers b d)
  | FollowFindManyFollowing a => read w (Prisma.follow_findMany_following a d)
  | AuraFindUnique id => read w (Prisma.aura_findUnique id d)
  | AuraUpdate id data => write w (Prisma.aura_update now id data d)
  | AuraCreate data => write w (Prisma.aura_create (cuid o n) now data d)
  | ImageCreate data => write w (Prisma.image_create (cuid o n) now data d)
  | ImageFindFirst id userId => read w (Prisma.image_findFirst id userId d)
  | ImageDelete id => write w (Prisma.image_delete id d)
  | GeminiGenerateContent data mime => external w (gemini_generate o n data mime)
  | CloudinaryUpload file pid => external w (cloudinary_upload o n file pid)
  | CloudinaryDestroy pid => external w (cloudinary_destroy o n pid)
  | TwilioMessagesCreate body from to => external w (twilio_send o n body from to)
  | Fetch url => external w (fetch o n url)
  | ResponseBuffer url => external w (response_buffer o n url)
  end.

(** [Date.now()], [Math.random()] and [jwtService.sign] return at once; every
    other operation returns a promise that the handler awaits. *)
Definition synchronous {R} (op : Op R) : bool :=
  match op with
  | DateNow | MathRandom | JwtSign _ _ => true
  | _ => false
  end.

(** Performing one operation: its outcome, and the world after it.  The log
    records the awaited operations. *)
Definition exec (o : Oracle) {R} (op : Op R) (w : World) : (exn + R) * World :=
  let '(r, d, c) := perform o op w in
  (r, mkWorld d c (S (tick w))
              (if synchronous op then log w else log w ++ [ev op])).

(** A handler run from start to end with no other request in between. *)
Fixpoint run (o : Oracle) {A} (p : prog A) (w : World) : (exn + A) * World :=
  match p with
  | Ret a => (inr a, w)
  | Throw e => (inl e, w)
  | Do op k => let '(r, w') := exec o op w in run o (k r) w'
  end.

(** Several requests in flight.  The event loop resumes one of them at a
    time, up to its next [await]; [sched] says which. *)
Definition resume (o : Oracle) {A} (p : prog A) (w : World) : prog A * World :=
  match p with
  | Do op k => let '(r, w') := exec o op w in (k r, w')
  | _ => (p, w)
  end.

Fixpoint interleave (o : Oracle) {A} (sched : list nat) (pool : list (prog A)) (w : World)
  : list (prog A) * World :=
  match sched with
  | [] => (pool, w)
  | i :: sched' =>
      match nth_error pool i with
      | None => interleave o sched' pool w
      | Some p =>
          let '(p', w') := resume o p w in
          interleave o sched' (firstn i pool ++ p' :: skipn (S i) pool) w'
      end
  end.

(** ** src/src/social/social.service.ts: follow, unfollow, like, unlike *)

Module FollowResult.
Record t := mk { message : string; following : bool }.
End FollowResult.

Module LikeResult.
Record t := mk { message : string; liked : bool; totalLikes : Z }.
End LikeResult.

Definition followUser (followerId followingId : string) : prog FollowResult.t :=
  if String.eqb followerId followingId
  then Throw (Exn BadRequestException "You cannot follow yourself")
  else
    userToFollow ← await (UserFindUnique (ById followingId));
    match userToFollow with
    | None => Throw (Exn NotFoundException "User not found")
    | Some _ =>
        existingFollow ← await (FollowFindUnique followerId followingId);
        match existingFollow with
        | Some _ => Throw (Exn ConflictException "Already following this user")
        | None =>
            _ ← await (FollowCreate followerId followingId);
            mret (FollowResult.mk "User followed successfully" true)
        end
    end.

Definition unfollowUser (followerId followingId : string) : prog FollowResult.t :=
  existingFollow ← await (FollowFindUnique followerId followingId);
  match existingFollow with
  | None => Throw (Exn NotFoundException "You are not following this user")
  | Some _ =>
      _ ← await (FollowDelete followerId followingId);
      mret (FollowResult.mk "User unfollowed successfully" false)
  end.

Definition likeAura (userId auraId : string) : prog LikeResult.t :=
  aura ← await (AuraFindUnique auraId);
  match aura with
  | None => Throw (Exn NotFoundException "Aura not found")
  | Some _ =>
      updatedAura ← await (AuraUpdate auraId (LikesIncrement 1));
      mret (LikeResult.mk "Aura liked successfully" true (Aura.likes updatedAura))
  end.

Definition unlikeAura (userId auraId : string) : prog LikeResult.t :=
  aura ← await (AuraFindUnique auraId);
  match aura with
  | None => Throw (Exn NotFoundException "Aura not found")
  | Some aura =>
      updatedAura ← await (AuraUpdate auraId
                             (LikesDecrement (if 0 <? Aura.likes aura then 1 else 0)));
      mret (LikeResult.mk "Aura unliked successfully" false (Aura.likes updatedAura))
  end.

Module ShareResult.
Record t := mk { message : string; totalShares : Z }.
End ShareResult.

Definition shareAura (userId auraId : string) : prog ShareResult.t :=
  aura ← await (AuraFindUnique auraId);
  match aura with
  | None => Throw (Exn NotFoundException "Aura not found")
  | Some _ =>
      updatedAura ← await (AuraUpdate auraId (SharesIncrement 1));
      mret (ShareResult.mk "Aura shared successfully" (Aura.shares updatedAura))
  end.

(** ** Configuration ([ConfigService], and what the constructors set up) *)
Record Config := {
  nodeEnv : string;
  twilioClient : bool;             (* [this.twilioClient] is not null *)
  twilio_phoneNumber : string;
  upload_allowedMimeTypes : list string;
  upload_maxFileSize : Z;
  cloudinary_folder : string;
  genAI : bool                     (* [this.genAI] is set *)
}.

(** [a || b] on strings: the empty string is falsy. *)
Definition or_else (a b : string) : string :=
  if String.eqb a "" then b else a.

(** [n.toString()] of an integer *)
Definition toString (n : Z) : string := NilZero.string_of_int (Z.to_int n).

Definition is_alnum (c : ascii) : bool :=
  let n := nat_of_ascii c in
  ((48 <=? n) && (n <=? 57) || (65 <=? n) && (n <=? 90) || (97 <=? n) && (n <=? 122))%nat.

(** [s.replace(/[^a-zA-Z0-9]/g, '')] *)
Fixpoint strip_non_alnum (s : string) : string :=
  match s with
  | EmptyString => EmptyString
  | String c s' => if is_alnum c then String c (strip_non_alnum s') else strip_non_alnum s'
  end.

(** ** src/src/auth/auth.service.ts: sendOtp, verifyOtp *)

Module SendOtpResult.
Record t := mk { message : string; code : option string }.
End SendOtpResult.

Definition sendOtp (cfg : Config) (phoneNumber : string) : prog SendOtpResult.t :=
  r ← call MathRandom;
  let code := toString (Math_floor (100000 + r * 900000)) in
  now ← call DateNow;
  let expiresAt := now + 10 * 60 * 1000 in
  _ ← await (OtpCreate phoneNumber code expiresAt);
  _ ← (if twilioClient cfg then
         try_catch
           (await (TwilioMessagesCreate ("Your Aura verification code is: " ++ code)
                                        (twilio_phoneNumber cfg) phoneNumber))
           (fun error =>
              if String.eqb (nodeEnv cfg) "production"
              then Throw (Exn BadRequestException
                              ("Failed to send OTP: " ++
                               or_else (exn_message error)
                                       (or_else (default "" (exn_code error))
                                                "Unknown error")))
              else mret tt)
       else mret tt);
  mret (SendOtpResult.mk "OTP sent successfully"
          (if String.eqb (nodeEnv cfg) "development" then Some code else None)).

Module VerifiedUser.
Record t := mk {
  id : string;
  firstName : string;
  lastName : string;
  phoneNumber : string;
  birthday : Z;
  isVerified : bool;
  profilePictureUrl : string
}.
End VerifiedUser.

Inductive VerifyOtpResult :=
| ExistingUser (accessToken : string) (user : VerifiedUser.t)    (* isNewUser: false *)
| NewUser (message : string) (phoneNumber : string).             (* isNewUser: true *)

Definition dicebear (phoneNumber : string) : string :=
  let seed := strip_non_alnum phoneNumber in
  ("https://api.dicebear.com/9.x/fun-emoji/svg?seed=" ++ seed ++
   "&size=400&radius=50&backgroundColor=b6e3f4,c0aede,d1d4f9,ffd5dc,ffdfbf")%string.

Definition verifyOtp (phoneNumber code : string) : prog VerifyOtpResult :=
  now ← call DateNow;
  otp ← await (OtpFindFirst
                 (OtpWhere.mk (Some phoneNumber) (Some code) (Some false) (Some now) None));
  match otp with
  | None => Throw (Exn UnauthorizedException "Invalid or expired OTP")
  | Some otp =>
      _ ← await (OtpUpdate (OTP.id otp) true);
      existingUser ← await (UserFindUnique (ByPhoneNumber phoneNumber));
      match existingUser with
      | Some existingUser =>
          accessToken ← call (JwtSign (User.id existingUser)
                                       (User.phoneNumber existingUser));
          profilePictureUrl ←
            (match User.profilePictureUrl existingUser with
             | Some url =>
                 if String.eqb url "" then
                   _ ← await (UserUpdate (User.id existingUser) (dicebear phoneNumber));
                   mret (dicebear phoneNumber)
                 else mret url
             | None =>
                 _ ← await (UserUpdate (User.id existingUser) (dicebear phoneNumber));
                 mret (dicebear phoneNumber)
             end);
          mret (ExistingUser accessToken
                  (VerifiedUser.mk (User.id existingUser) (User.firstName existingUser)
                     (User.lastName existingUser) (User.phoneNumber existingUser)
                     (User.birthday existingUser) (User.isVerified existingUser)
                     profilePictureUrl))
      | None => mret (NewUser "OTP verified. Please complete registration." phoneNumber)
      end
  end.

(** ** src/src/auth/otp-cleanup.service.ts *)

Module CleanupResult.
Record t := mk {
  verifiedOtpsDeleted : Z;
  expiredUnusedOtpsDeleted : Z;
  totalDeleted : Z
}.
End CleanupResult.

Definition performCleanup : prog CleanupResult.t :=
  now ← call DateNow;
  let thirtyMinutesAgo := now - 30 * 60 * 1000 in
  verifiedOtpsDeleted ←
    await (OtpDeleteMany (OtpWhere.mk None None (Some true) None None));
  expiredUnusedOtpsDeleted ←
    await (OtpDeleteMany (OtpWhere.mk None None (Some false) None (Some thirtyMinutesAgo)));
  let totalDeleted := verifiedOtpsDeleted + expiredUnusedOtpsDeleted in
  mret (CleanupResult.mk verifiedOtpsDeleted expiredUnusedOtpsDeleted totalDeleted).

(** The scheduled job returns nothing; its result here is what it hands to the
    logger: the three counts, or the error it caught. *)
Inductive CleanupLog :=
| CleanupCompleted (verified expiredUnused total : Z)
| CleanupFailed (error : exn).

Definition cleanupOtps : prog CleanupLog :=
  try_catch
    (now ← call DateNow;
     let thirtyMinutesAgo := now - 30 * 60 * 1000 in
     verifiedOtpsDeleted ←
       await (OtpDeleteMany (OtpWhere.mk None None (Some true) None None));
     expiredUnusedOtpsDeleted ←
       await (OtpDeleteMany (OtpWhere.mk None None (Some false) None (Some thirtyMinutesAgo)));
     mret (CleanupCompleted verifiedOtpsDeleted expiredUnusedOtpsDeleted
                            (verifiedOtpsDeleted + expiredUnusedOtpsDeleted)))
    (fun error => mret (CleanupFailed error)).

(** ** src/src/gemini/gemini.service.ts *)

Definition base64_alphabet : string :=
  "ABCDEFGHIJKLMNOPQRSTUVWXYZabcdefghijklmnopqrstuvwxyz0123456789+/".

Definition base64_digit (n : N) : ascii :=
  default "="%char (String.get (N.to_nat n) base64_alphabet).

(** [buffer.toString('base64')] *)
Fixpoint base64 (bs : list Byte.byte) : string :=
  let d := base64_digit in
  match bs with
  | [] => ""
  | [a] =>
      let a := Byte.to_N a in
      String (d (a / 4)) (String (d (a mod 4 * 16)) "==")
  | [a; b] =>
      let a := Byte.to_N a in
      let b := Byte.to_N b in
      String (d (a / 4)) (String (d (a mod 4 * 16 + b / 16))
                                 (String (d (b mod 16 * 4)) "="))
  | a :: b :: c :: rest =>
      let a := Byte.to_N a in
      let b := Byte.to_N b in
      let c := Byte.to_N c in
      String (d (a / 4)) (String (d (a mod 4 * 16 + b / 16))
        (String (d (b mod 16 * 4 + c / 64)) (String (d (c mod 64)) (base64 rest))))
  end%N.

(** The object [JSON.parse] yields from the model's answer, as far as the
    service reads it; an absent or falsy property is [None]. *)
Record GeminiJson := {
  j_title : option string;
  j_description : option string;
  j_mood : option string;
  j_keywords : option (list string);
  j_confidence : option Q
}.

Module AiAura.
Record t := mk {
  title : string;
  description : string;
  mood : string;
  keywords : list string;
  confidence : Q
}.
End AiAura.

(** [!s] for an optional string *)
Definition falsy (s : option string) : bool :=
  match s with
  | None => true
  | Some s => String.eqb s ""
  end.

Section Gemini.
Variable cfg : Config.
(** The clean-up of the answer's text followed by [JSON.parse]. *)
Variable JSON_parse : string -> exn + GeminiJson.

Definition parse_response (text : string) : prog AiAura.t :=
  try_catch
    (match JSON_parse text with
     | inl e => Throw e
     | inr parsed =>
         if falsy (j_title parsed) || falsy (j_description parsed) || falsy (j_mood parsed)
         then Throw (Exn PlainError "Invalid response structure from Gemini")
         else
           mret (AiAura.mk (default "" (j_title parsed))
                           (default "" (j_description parsed))
                           (default "" (j_mood parsed))
                           (default [] (j_keywords parsed))
                           (match j_confidence parsed with
                            | Some c => if Qeq_bool c 0 then 75 # 100 else c
                            | None => 75 # 100
                            end))
     end)
    (fun parseError =>
       Throw (Exn BadRequestException
                  ("Gemini returned invalid response format: " ++ exn_message parseError))).

(** [model.generateContent], [result.response] and [response.text()] are one
    operation, whose outcome is the text of the answer. *)
Definition generateAuraFromBuffer (imageBuffer : list Byte.byte) (mimeType : string)
  : prog AiAura.t :=
  if negb (genAI cfg)
  then Throw (Exn BadRequestException
         "Gemini AI is not configured. Please check GEMINI_API_KEY environment variable.")
  else
    try_catch
      (text ← await (GeminiGenerateContent (base64 imageBuffer) mimeType);
       parse_response text)
      (fun error =>
         if is_BadRequestException error then Throw error
         else Throw (Exn BadRequestException
                         ("Gemini AI analysis failed: " ++ exn_message error))).






End Gemini.

(** ** src/src/cloudinary/cloudinary.service.ts: uploadImage *)

Module CloudinaryUploadResult.
Record t := mk {
  originalUrl : string;
  publicId : string;
  width : Z;
  height : Z;
  format : string;
  bytes : Z
}.
End CloudinaryUploadResult.

Definition is_filename_char (c : ascii) : bool :=
  is_alnum c || Ascii.eqb c "." || Ascii.eqb c "_" || Ascii.eqb c "-".

(** [filename.replace(/[^a-zA-Z0-9._-]/g, '_')] *)
Fixpoint clean_filename (s : string) : string :=
  match s with
  | EmptyString => EmptyString
  | String c s' => String (if is_filename_char c then c else "_"%char) (clean_filename s')
  end.

Definition cloudinary_uploadImage (cfg : Config)
           (buffer : list Byte.byte) (filename userId : string)
  : prog CloudinaryUploadResult.t :=
  try_catch
    (let folder := cloudinary_folder cfg in
     timestamp ← call DateNow;
     let cleanFilename := clean_filename filename in
     let publicId := (folder ++ "/users/" ++ userId ++ "/" ++ toString timestamp ++ "_"
                             ++ cleanFilename)%string in
     result ← await (CloudinaryUpload ("data:image/jpeg;base64," ++ base64 buffer) publicId);
     mret (CloudinaryUploadResult.mk (secure_url result) (public_id result)
             (up_width result) (up_height result) (format result) (bytes result)))
    (fun error => Throw (Exn BadRequestException "Failed to upload image")).

(** ** src/src/images/images.service.ts: uploadImage *)

(** [Express.Multer.File], as far as the service reads it. *)
Record File := {
  buffer : list Byte.byte;
  originalname : string;
  mimetype : string;
  size : Z
}.

Module UploadedAura.
Record t := mk {
  id : string;
  title : string;
  description : string;
  mood : option string;
  colors : list string;
  keywords : list string;
  confidence : option Q;
  likes : Z;
  shares : Z
}.
End UploadedAura.

Module UploadedImage.
Record t := mk {
  id : string;
  originalUrl : string;
  publicId : string;
  fileName : string;
  fileSize : Z;
  mimeType : string;
  width : Z;
  height : Z;
  aura : UploadedAura.t
}.
End UploadedImage.

Section Images.
Variable cfg : Config.
Variable JSON_parse : string -> exn + GeminiJson.

(** The four awaited steps of [uploadImage], inside its [try]. *)
Definition upload_pipeline (file : File) (userId : string) : prog UploadedImage.t :=
  (* STEP 1: analyze with Gemini first *)
  aiAura ← generateAuraFromBuffer cfg JSON_parse (buffer file) (mimetype file);
  (* STEP 2: upload to Cloudinary *)
  uploadResult ← cloudinary_uploadImage cfg (buffer file) (originalname file) userId;
  (* STEP 3: save the image *)
  image ← await (ImageCreate
                   (ImageCreateInput.mk
                      (CloudinaryUploadResult.originalUrl uploadResult)
                      (CloudinaryUploadResult.publicId uploadResult)
                      (originalname file) (size file) (mimetype file)
                      (Some (CloudinaryUploadResult.width uploadResult))
                      (Some (CloudinaryUploadResult.height uploadResult))
                      true "completed" userId));
  (* STEP 4: save the aura *)
  aura ← await (AuraCreate
                  (AuraCreateInput.mk (AiAura.title aiAura) (AiAura.description aiAura)
                     (Some (AiAura.mood aiAura)) (AiAura.keywords aiAura)
                     (Some (AiAura.confidence aiAura)) [] (Image.id image) userId));
  mret (UploadedImage.mk (Image.id image) (Image.originalUrl image)
          (Image.publicId image) (Image.fileName image) (Image.fileSize image)
          (Image.mimeType image)
          (default 0 (Image.width image)) (default 0 (Image.height image))
          (UploadedAura.mk (Aura.id aura) (Aura.title aura) (Aura.description aura)
             (Aura.mood aura) (Aura.colors aura) (Aura.keywords aura)
             (Aura.confidence aura) (Aura.likes aura) (Aura.shares aura))).

(** The three checks before the [try]; [None] when the file passes. *)
Definition validate (file : option File) : option exn :=
  match file with
  | None => Some (Exn BadRequestException "No file provided")
  | Some file =>
      if negb (array_includes (upload_allowedMimeTypes cfg) (mimetype file))
      then Some (Exn BadRequestException
                     "Invalid file type. Only JPEG, PNG, WebP are allowed")
      else if upload_maxFileSize cfg <? size file
      then Some (Exn BadRequestException
                     ("File size exceeds " ++ toString (upload_maxFileSize cfg) ++ " bytes"))
      else None
  end.

Definition uploadImage (file : option File) (userId : string) : prog UploadedImage.t :=
  match validate file, file with
  | Some e, _ => Throw e
  | None, None => Throw (Exn BadRequestException "No file provided")
  | None, Some file =>
      try_catch
        (upload_pipeline file userId)
        (fun error =>
           if includes (exn_message error) "Gemini" || includes (exn_message error) "AI"
           then Throw (Exn BadRequestException
                           ("AI aura analysis failed: " ++ exn_message error))
           else Throw (Exn BadRequestException
                           ("Failed to process image: " ++ exn_message error)))
  end.

End Images.

(** [cloudinaryService.deleteImage] swallows the errors of the SDK. *)
Definition cloudinary_deleteImage (publicId : string) : prog unit :=
  try_catch (await (CloudinaryDestroy publicId)) (fun error => mret tt).

Definition deleteImage (imageId userId : string) : prog unit :=
  image ← await (ImageFindFirst imageId userId);
  match image with
  | None => Throw (Exn NotFoundException "Image not found")
  | Some image =>
      _ ← cloudinary_deleteImage (Image.publicId image);
      (* the database deletes the aura with the image *)
      _ ← await (ImageDelete imageId);
      mret tt
  end.

(** ** src/src/social/social.service.ts: getLeaderboard *)

Module Stats.
Record t := mk {
  totalScans : Z;
  totalConfidence : Q;
  averageConfidence : Q;
  followers : Z
}.
End Stats.

(** An element of the array before ranks are assigned. *)
Record Scored := { user : UserBrief; stats : Stats.t }.

(** [{rank, ...user}]; the default entry of a user with no scans has
    [user: null] when the user does not exist. *)
Module Ranked.
Record t := mk { rank : Z; user : option UserBrief; stats : Stats.t }.
End Ranked.

(** [Math.round(x * 100) / 100] *)
Definition round2 (x : Q) : Q := fdiv (inject_Z (Math_round (fmul x 100))) 100.

(** [image.aura?.confidence || 0]; the number read from a [Float] column is
    the binary64 value of what the column holds. *)
Definition confidence_or_0 (i : ImageWithAura) : Q :=
  match aura i with
  | Some a => double (default 0%Q (confidence a))
  | None => 0%Q
  end.

Definition score (u : UserWithStats.t) : Scored :=
  let totalScans := Z.of_nat (length (UserWithStats.images u)) in
  let totalConfidence :=
    fold_left (fun sum image => fadd sum (confidence_or_0 image)) (UserWithStats.images u) 0%Q in
  let averageConfidence :=
    if 0 <? totalScans then fdiv totalConfidence (inject_Z totalScans) else 0%Q in
  let followers := UserWithStats._count_followers u in
  {| user := {| ub_id := UserWithStats.id u;
                ub_firstName := UserWithStats.firstName u;
                ub_lastName := UserWithStats.lastName u;
                ub_profilePictureUrl := UserWithStats.profilePictureUrl u |};
     stats := Stats.mk totalScans (round2 totalConfidence) (round2 averageConfidence)
                       followers |}.

(** The comparator passed to [sort]. *)
Definition by_confidence (a b : Scored) : Q :=
  if negb (Qeq_bool (Stats.totalConfidence (stats b)) (Stats.totalConfidence (stats a)))
  then fsub (Stats.totalConfidence (stats b)) (Stats.totalConfidence (stats a))
  else if negb (Qeq_bool (Stats.averageConfidence (stats b))
                         (Stats.averageConfidence (stats a)))
  then fsub (Stats.averageConfidence (stats b)) (Stats.averageConfidence (stats a))
  else inject_Z (Stats.totalScans (stats b) - Stats.totalScans (stats a)).

(** [Array.prototype.sort(compare)]: a stable sort; [a] is placed after [b]
    exactly when [compare(a, b) > 0].  The stable sort of an array under a
    consistent comparator is unique; it is computed here by insertion. *)
Fixpoint sort_insert {A} (compare : A -> A -> Q) (x : A) (l : list A) : list A :=
  match l with
  | [] => [x]
  | y :: l' =>
      if Qlt_le_dec 0 (compare x y) then y :: sort_insert compare x l'
      else x :: y :: l'
  end.

Fixpoint Array_sort {A} (compare : A -> A -> Q) (l : list A) : list A :=
  match l with
  | [] => []
  | x :: l' => sort_insert compare x (Array_sort compare l')
  end.

(** [.map((user, index) => ({rank: index + 1, ...user}))], from [index] on *)
Fixpoint assign_ranks (index : Z) (l : list Scored) : list Ranked.t :=
  match l with
  | [] => []
  | u :: l' => Ranked.mk (index + 1) (Some (user u)) (stats u) :: assign_ranks (index + 1) l'
  end.

Definition sortedUsers (usersWithStats : list UserWithStats.t) : list Scored :=
  Array_sort by_confidence
    (List.filter (fun u => 0 <? Stats.totalScans (stats u)) (map score usersWithStats)).

Definition rankedUsers (usersWithStats : list UserWithStats.t) : list Ranked.t :=
  assign_ranks 0 (sortedUsers usersWithStats).


Module Leaderboard.
Record t := mk {
  topTen : list Ranked.t;
  currentUser : Ranked.t;
  followingRankings : list Ranked.t;
  totalUsers : Z
}.
End Leaderboard.


(** ** src/src/auth/auth.service.ts: register *)

Definition cloudinary_uploadProfilePicture (cfg : Config) (file : File)
  : prog UploadApiResponse :=
  try_catch
    (let folder := cloudinary_folder cfg in
     timestamp ← call DateNow;
     let cleanFilename := clean_filename (originalname file) in
     let publicId := (folder ++ "/profile_pictures/" ++ toString timestamp ++ "_"
                             ++ cleanFilename)%string in
     await (CloudinaryUpload ("data:" ++ mimetype file ++ ";base64," ++ base64 (buffer file))
                             publicId))
    (fun error => Throw (Exn BadRequestException "Failed to upload profile picture")).

Module RegisterUserDto.
Record t := mk {
  phoneNumber : string;
  firstName : string;
  lastName : string;
  birthday : Z                   (* [new Date(birthday)] *)
}.
End RegisterUserDto.

Module RegisteredUser.
Record t := mk {
  id : string;
  firstName : string;
  lastName : string;
  phoneNumber : string;
  birthday : Z;
  isVerified : bool;
  profilePictureUrl : option string
}.
End RegisteredUser.

Module RegisterResult.
Record t := mk { accessToken : string; user : RegisteredUser.t }.
End RegisterResult.

Definition register (cfg : Config) (dto : RegisterUserDto.t) (profilePicture : option File)
  : prog RegisterResult.t :=
  let phoneNumber := RegisterUserDto.phoneNumber dto in
  existingUser ← await (UserFindUnique (ByPhoneNumber phoneNumber));
  match existingUser with
  | Some _ => Throw (Exn ConflictException "User already exists")
  | None =>
      uploaded ←
        (match profilePicture with
         | Some file =>
             try_catch
               (uploadResult ← cloudinary_uploadProfilePicture cfg file;
                mret (Some (secure_url uploadResult), Some (public_id uploadResult)))
               (fun error => mret (None, None))
         | None => mret (None, None)
         end);
      let profilePublicId := snd uploaded in
      let profilePictureUrl :=
        if falsy (fst uploaded) then dicebear phoneNumber else default "" (fst uploaded) in
      user ← await (UserCreate
                      (UserCreateInput.mk None (RegisterUserDto.firstName dto)
                         (RegisterUserDto.lastName dto) phoneNumber
                         (RegisterUserDto.birthday dto) true
                         (Some profilePictureUrl) profilePublicId));
      accessToken ← call (JwtSign (User.id user) (User.phoneNumber user));
      mret (RegisterResult.mk accessToken
              (RegisteredUser.mk (User.id user) (User.firstName user) (User.lastName user)
                 (User.phoneNumber user) (User.birthday user) (User.isVerified user)
                 (User.profilePictureUrl user)))
  end.

(** ** src/src/images/images.controller.ts: testUploadImage

    The handler [return]s the promise of [uploadImage] without awaiting it, so
    its [catch] covers the look-up and the creation of the test user only. *)
Definition testUploadImage (cfg : Config) (JSON_parse : string -> exn + GeminiJson)
           (file : option File) : prog UploadedImage.t :=
  let testUserId := "test-user-123" in
  _ ← try_catch
        (testUser ← await (UserFindUnique (ById testUserId));
         match testUser with
         | Some _ => mret tt
         | None =>
             _ ← await (UserCreate
                          (UserCreateInput.mk (Some testUserId) "Test" "User" "+1234567890"
                                              631152000000 true None None));
             mret tt
         end)
        (fun error =>
           Throw (Exn BadRequestException ("Test upload failed: " ++ exn_message error)));
  uploadImage cfg JSON_parse file testUserId.

(** ** A sample deployment, for concrete runs *)
Module Sample.

Definition cfg : Config :=
  {| nodeEnv := "development";
     twilioClient := false;
     twilio_phoneNumber := "+15005550006";
     upload_allowedMimeTypes := ["image/jpeg"; "image/png"; "image/webp"; "image/jpg"];
     upload_maxFileSize := 10485760;
     cloudinary_folder := "aura-api";
     genAI := true |}.

Definition JSON_parse (text : string) : exn + GeminiJson :=
  inr {| j_title := Some "Snack Goblin Energy";
         j_description := Some "Crumbs everywhere. No regrets. Ten out of ten.";
         j_mood := Some "Cheeky";
         j_keywords := Some ["snacks"; "chaos"];
         j_confidence := Some (85 # 100) |}.

Definition oracle : Oracle :=
  {| cuid := fun n => String "c" (toString (Z.of_nat n));
     random := fun _ => 1 # 2;
     jwt_sign := fun sub phone => ("jwt." ++ sub)%string;
     gemini_generate := fun _ _ _ => inr "{}";
     cloudinary_upload := fun _ _ pid =>
       inr {| secure_url := ("https://res.cloudinary.com/demo/" ++ pid)%string;
              public_id := pid; up_width := 640; up_height := 480;
              format := "png"; bytes := 4 |};
     cloudinary_destroy := fun _ _ => inr tt;
     twilio_send := fun _ _ _ _ => inr tt;
     fetch := fun _ _ => inr {| ok := true; status := 200; statusText := "OK" |};
     response_buffer := fun _ _ => inr (repeat Byte.x00 100) |}.

Definition file : File :=
  {| buffer := [Byte.x89; Byte.x50; Byte.x4e; Byte.x47];
     originalname := "me.png"; mimetype := "image/png"; size := 4 |}.

Definition start : World := mkWorld empty_db 1700000000000 0 [].

(** The test user uploads one image. *)
Definition uploaded : World :=
  snd (run oracle (testUploadImage cfg JSON_parse (Some file)) start).

(** Somebody likes its aura. *)
Definition liked_once : World :=
  snd (run oracle (likeAura "test-user-123" "c6") uploaded).

(** Two requests to unlike that aura arrive together: each reads the aura
    before the other has written. *)
Definition two_unlikes : list (prog LikeResult.t) :=
  [unlikeAura "test-user-123" "c6"; unlikeAura "somebody-else" "c6"].

Definition after_two_unlikes : list (prog LikeResult.t) * World :=
  interleave oracle [0; 1; 0; 1]%nat two_unlikes liked_once.

(** Two users register. *)
Definition alice : RegisterUserDto.t :=
  RegisterUserDto.mk "+15550001" "Alice" "Liddell" 631152000000.
Definition bob : RegisterUserDto.t :=
  RegisterUserDto.mk "+15550002" "Bob" "Dobbs" 662688000000.

Definition two_users : World :=
  snd (run oracle (register cfg bob None) (snd (run oracle (register cfg alice None) start))).

(** A fetched user whose images carry the given confidences. *)
Definition scans (id : string) (confidences : list (option Q)) : UserWithStats.t :=
  UserWithStats.mk id id "" None
    (map (fun c => {| image := Image.mk id "" None "" "" 0 "" None None true "completed"
                                        None None None 0 0 id;
                      aura := Some {| confidence := c |} |}) confidences)
    0.

Definition fetched : list UserWithStats.t :=
  [scans "a" [Some (1 # 2)];
   scans "b" [];
   scans "c" [Some (1 # 2); Some (1 # 2)];
   scans "d" [Some (1 # 2)];
   scans "e" [Some (1 # 1); None];
   scans "f" [Some (1 # 4); Some (3 # 4)]].

(** Two codes are requested for one phone number, and [Math.random()]
    comes out the same both times. *)
Definition two_otps : World :=
  snd (run oracle (sendOtp cfg "+15550001")
           (snd (run oracle (sendOtp cfg "+15550001") start))).

(** One code is requested. *)
Definition one_otp : World :=
  snd (run oracle (sendOtp cfg "+15550001") start).

(** Alice and Bob follow each other and upload one image each. *)
Definition busy : World :=
  snd (run oracle (uploadImage cfg JSON_parse (Some file) "c4")
    (snd (run oracle (uploadImage cfg JSON_parse (Some file) "c1")
      (snd (run oracle (followUser "c4" "c1")
        (snd (run oracle (followUser "c1" "c4") two_users))))))).

End Sample.

(** ** Reading the log *)




(** The four steps of the upload pipeline, as they show in the log. *)
Inductive Step :=
| StepGemini
| StepCloudinary
| StepImageCreate
| StepAuraCreate
| StepOther.

Definition step_of (e : Event) : Step :=
  match projT2 e with
  | GeminiGenerateContent _ _ => StepGemini
  | CloudinaryUpload _ _ => StepCloudinary
  | ImageCreate _ => StepImageCreate
  | AuraCreate _ => StepAuraCreate
  | _ => StepOther
  end.

Definition pipeline_steps : list Step :=
  [StepGemini; StepCloudinary; StepImageCreate; StepAuraCreate].

(** ** The order of the leaderboard *)



(** The confidences that count for a fetched user, one per image. *)
Definition confidences (u : UserWithStats.t) : list Q :=
  map confidence_or_0 (UserWithStats.images u).






(** ** What [verifyOtp] looks for *)

(** An OTP row that [verifyOtp] accepts at time [now]. *)
Definition valid_otp (phoneNumber code : string) (now : Z) (x : OTP.t) : Prop :=
  OTP.phoneNumber x = phoneNumber /\ OTP.code x = code /\
  OTP.isUsed x = false /\ now < OTP.expiresAt x.

Definition verify_where (phoneNumber code : string) (now : Z) : OtpWhere.t :=
  OtpWhere.mk (Some phoneNumber) (Some code) (Some false) (Some now) None.

(** [prisma.oTP.update({where: {id}, data: {isUsed: true}})] on the rows. *)
Definition mark_used (id : string) (l : list OTP.t) : list OTP.t :=
  map (fun o => if String.eqb (OTP.id o) id then Prisma.otp_set_isUsed true o else o) l.

(** ** Worlds the service can be in *)

(** Time passes between requests. *)
Definition later (dt : Z) (w : World) : World :=
  mkWorld (db w) (clock w + Z.max 0 dt) (tick w) (log w).

(** The identifier generator does not hand out an identifier in use. *)
Definition ids_in_use (d : DB) : list string :=
  map User.id (users d) ++ map OTP.id (otps d) ++ map Image.id (images d) ++
  map Aura.id (auras d) ++ map Follow.id (follows d).

Definition cuid_fresh (o : Oracle) (w : World) : Prop :=
  forall n, (tick w <= n)%nat -> ~ In (cuid o n) (ids_in_use (db w)).

(** The states the database goes through: from the empty database, any
    request in flight is resumed up to its next [await], in any order, and
    time passes. *)
Inductive reachable (o : Oracle) : World -> Prop :=
| reachable_start (now : Z) :
    reachable o (mkWorld empty_db now 0 [])
| reachable_resume {A} (p : prog A) (w : World) :
    reachable o w -> reachable o (snd (resume o p w))
| reachable_later (dt : Z) (w : World) :
    reachable o w -> reachable o (later dt w).

(** The uniqueness constraints of the schema. *)
Definition follow_key (f : Follow.t) : string * string :=
  (Follow.followerId f, Follow.followingId f).

Record unique_keys (d : DB) : Prop := {
  unique_phoneNumber : NoDup (map User.phoneNumber (users d));
  unique_follow : NoDup (map follow_key (follows d));
  unique_imageId : NoDup (map Aura.imageId (auras d))
}.

(** The primary keys. *)
Record unique_ids (d : DB) : Prop := {
  unique_user_id : NoDup (map User.id (users d));
  unique_otp_id : NoDup (map OTP.id (otps d));
  unique_image_id : NoDup (map Image.id (images d));
  unique_aura_id : NoDup (map Aura.id (auras d));
  unique_follow_id : NoDup (map Follow.id (follows d))
}.

(** What holds of the database whatever the handlers do. *)
Record consistent (d : DB) : Prop := {
  consistent_keys : unique_keys d;
  consistent_ids : unique_ids d
}.

(** Every likes counter is at 0 or above. *)
Definition likes_nonnegative (d : DB) : Prop :=
  Forall (fun a => 0 <= Aura.likes a) (auras d).

(** The rows the clean-up is after. *)
Definition used (x : OTP.t) : bool := OTP.isUsed x.

(** Unused, and created more than 30 minutes before [now]. *)
Definition stale (now : Z) (x : OTP.t) : bool :=
  negb (OTP.isUsed x) && (30 * 60 * 1000 <? now - OTP.createdAt x).

(** ** The relations of the schema *)

(** Every foreign key of src/prisma/schema.prisma points at a row: an image
    at its user, an aura at its image and at its user, a follow row at both
    of its users, an OTP row at its user when it has one. *)
Record referential (d : DB) : Prop := {
  image_user :
    forall i, In i (images d) -> Prisma.user_exists d (Image.userId i) = true;
  aura_image :
    forall a, In a (auras d) -> Prisma.image_exists d (Aura.imageId a) = true;
  aura_user :
    forall a, In a (auras d) -> Prisma.user_exists d (Aura.userId a) = true;
  follow_users :
    forall f, In f (follows d) ->
              Prisma.user_exists d (Follow.followerId f) = true /\
              Prisma.user_exists d (Follow.followingId f) = true;
  otp_user :
    forall x u, In x (otps d) -> OTP.userId x = Some u -> Prisma.user_exists d u = true
}.

(** ** The sample deployment with a hosted service down *)
Module Outage.

(** Every upload to Cloudinary is refused. *)
Definition cloudinary : Oracle :=
  {| cuid := cuid Sample.oracle;
     random := random Sample.oracle;
     jwt_sign := jwt_sign Sample.oracle;
     gemini_generate := gemini_generate Sample.oracle;
     cloudinary_upload := fun _ _ _ => inl (Exn PlainError "connect ECONNREFUSED");
     cloudinary_destroy := fun _ _ => inl (Exn PlainError "connect ECONNREFUSED");
     twilio_send := twilio_send Sample.oracle;
     fetch := fetch Sample.oracle;
     response_buffer := response_buffer Sample.oracle |}.

End Outage.

(** ** Decimal digits *)

(** The decimal numeral with the digit [k] (0 to 9) in front of [rest]. *)
Definition digit (k : Z) (rest : Decimal.uint) : Decimal.uint :=
  match k with
  | 0 => Decimal.D0 rest
  | 1 => Decimal.D1 rest
  | 2 => Decimal.D2 rest
  | 3 => Decimal.D3 rest
  | 4 => Decimal.D4 rest
  | 5 => Decimal.D5 rest
  | 6 => Decimal.D6 rest
  | 7 => Decimal.D7 rest
  | 8 => Decimal.D8 rest
  | _ => Decimal.D9 rest
  end.

(** The last six decimal digits of [n], the most significant first. *)
Definition six_digits (n : Z) : Decimal.uint :=
  digit (n / 10 / 10 / 10 / 10 / 10 mod 10)
    (digit (n / 10 / 10 / 10 / 10 mod 10)
       (digit (n / 10 / 10 / 10 mod 10)
          (digit (n / 10 / 10 mod 10)
             (digit (n / 10 mod 10)
                (digit (n mod 10) Decimal.Nil))))).

(** * Verification *)

(** ** Concrete values *)

Example base64_Man :
  base64 [Byte.x4d; Byte.x61; Byte.x6e] = "TWFu" /\
  base64 [Byte.x4d; Byte.x61] = "TWE=" /\
  base64 [Byte.x4d] = "TQ==".
Proof. repeat split. Qed.

Example includes_Gemini :
  includes "Gemini AI analysis failed: quota" "Gemini" = true /\
  includes "Failed to upload image" "AI" = false /\
  includes "Failed to upload image" "Gemini" = false.
Proof. repeat split. Qed.

Example double_values :
  double (1 # 10) = 3602879701896397 # 36028797018963968 /\
  fadd (double (1 # 10)) (double (2 # 10)) = 1351079888211149 # 4503599627370496 /\
  double (3 # 10) = 5404319552844595 # 18014398509481984 /\
  double 9007199254740993 = 9007199254740992%Q /\
  double 9007199254740995 = 9007199254740996%Q /\
  double (- (1 # 4)) = (- (1 # 4))%Q.
Proof. repeat split; vm_compute; reflexivity. Qed.

(** [Math.round(0.285 * 100) / 100] is 0.28, since [0.285 * 100] is
    28.499999999999996; [Math.round(1.005 * 100) / 100] is 1. *)
Example round2_values :
  round2 (double (12345 # 10000)) = double (123 # 100) /\
  round2 (double (5 # 1000)) = double (1 # 100) /\
  round2 (double (- (5 # 1000))) = 0%Q /\
  round2 (double (285 # 1000)) = double (28 # 100) /\
  round2 (double (1005 # 1000)) = 1%Q /\
  fmul (double (285 # 1000)) 100 = (8022036836253695 # 281474976710656)%Q.
Proof. repeat split; vm_compute; reflexivity. Qed.

Example toString_values : toString 550000 = "550000" /\ toString 0 = "0".
Proof. split; reflexivity. Qed.

Example clean_filename_value : clean_filename "my photo (1).png" = "my_photo__1_.png".
Proof. reflexivity. Qed.

Example dicebear_seed : strip_non_alnum "+1 (555) 000-1" = "15550001".
Proof. reflexivity. Qed.

(** Six fetched users: [b] has no scan; [c], [e], [f] tie on all three keys,
    and so do [a] and [d]. *)
Example ranking_of_fetched :
  map (fun r => (Ranked.rank r, option_map ub_id (Ranked.user r)))
      (rankedUsers Sample.fetched)
  = [(1, Some "c"); (2, Some "e"); (3, Some "f"); (4, Some "a"); (5, Some "d")].
Proof. vm_compute. reflexivity. Qed.

Example upload_log :
  map step_of (log Sample.uploaded)
  = [StepOther; StepOther; StepGemini; StepCloudinary; StepImageCreate; StepAuraCreate].
Proof. vm_compute. reflexivity. Qed.

(** ** Running programs *)

#[local] Arguments Prisma.otp_create : simpl never.
#[local] Arguments Prisma.otp_findFirst : simpl never.
#[local] Arguments Prisma.otp_update : simpl never.
#[local] Arguments Prisma.otp_deleteMany : simpl never.
#[local] Arguments Prisma.user_findUnique : simpl never.
#[local] Arguments Prisma.user_create : simpl never.
#[local] Arguments Prisma.user_update : simpl never.
#[local] Arguments Prisma.follow_findUnique : simpl never.
#[local] Arguments Prisma.follow_create : simpl never.
#[local] Arguments Prisma.follow_delete : simpl never.
#[local] Arguments Prisma.follow_count_followers : simpl never.
#[local] Arguments Prisma.follow_findMany_following : simpl never.
#[local] Arguments Prisma.aura_findUnique : simpl never.
#[local] Arguments Prisma.aura_update : simpl never.
#[local] Arguments Prisma.aura_create : simpl never.
#[local] Arguments Prisma.image_create : simpl never.
#[local] Arguments Prisma.image_findFirst : simpl never.
#[local] Arguments Prisma.image_delete : simpl never.
#[local] Arguments Prisma.user_findMany_with_stats : simpl never.
#[local] Arguments Prisma.user_exists : simpl never.
#[local] Arguments Prisma.image_exists : simpl never.
#[local] Arguments String.eqb : simpl never.
#[local] Arguments String.append : simpl never.

Lemma run_bind o {A B} (p : prog A) (f : A -> prog B) w :
  run o (bind p f) w =
  match run o p w with
  | (inl e, w') => (inl e, w')
  | (inr a, w') => run o (f a) w'
  end.
Proof.
  revert w. induction p as [a|e|R op k IH]; intros w; simpl; try reflexivity.
  destruct (exec o op w) as [r w']. apply IH.
Qed.

Lemma run_mbind o {A B} (p : prog A) (f : A -> prog B) w :
  run o (p ≫= f) w =
  match run o p w with
  | (inl e, w') => (inl e, w')
  | (inr a, w') => run o (f a) w'
  end.
Proof. apply run_bind. Qed.

Lemma run_try_catch o {A} (p : prog A) (h : exn -> prog A) w :
  run o (try_catch p h) w =
  match run o p w with
  | (inl e, w') => run o (h e) w'
  | (inr a, w') => (inr a, w')
  end.
Proof.
  revert w. induction p as [a|e|R op k IH]; intros w; simpl; try reflexivity.
  destruct (exec o op w) as [r w']. apply IH.
Qed.

Lemma run_await o {R} (op : Op R) w : run o (await op) w = exec o op w.
Proof.
  unfold await. simpl. destruct (exec o op w) as [[e|v] w']; reflexivity.
Qed.

(** ** Lists of rows *)

Lemma find_none_existsb {A} (f : A -> bool) (l : list A) :
  find f l = None <-> existsb f l = false.
Proof.
  induction l as [|x l IH]; simpl; [tauto|].
  destruct (f x); simpl; [split; discriminate | exact IH].
Qed.

Lemma filter_negb_none {A} (f : A -> bool) (l : list A) :
  existsb f l = false -> List.filter (fun x => negb (f x)) l = l.
Proof.
  induction l as [|x l IH]; simpl; [reflexivity|].
  destruct (f x); simpl; [discriminate|]. intros H. f_equal. auto.
Qed.

Lemma existsb_In_map {A} (g : A -> string) (s : string) (l : list A) :
  existsb (fun x => String.eqb (g x) s) l = true <-> In s (map g l).
Proof.
  rewrite existsb_exists, in_map_iff. split.
  - intros (x & Hx & Heq). apply String.eqb_eq in Heq. eauto.
  - intros (x & Heq & Hx). exists x. split; [assumption|]. now apply String.eqb_eq.
Qed.

Lemma not_In_existsb {A} (g : A -> string) (s : string) (l : list A) :
  ~ In s (map g l) -> existsb (fun x => String.eqb (g x) s) l = false.
Proof.
  intros H. destruct (existsb _ l) eqn:E; [|reflexivity].
  apply existsb_In_map in E. contradiction.
Qed.

(** One operation of a running handler.  [exec_step] exposes the database
    call of the operation at the head of the program. *)
Ltac exec_step :=
  repeat (cbn [perform db clock tick log write read external synchronous run bind await call
               mbind mret prog_bind prog_ret try_catch negb];
          progress unfold exec);
  cbn [perform db clock tick log write read external synchronous run bind await call
       mbind mret prog_bind prog_ret try_catch negb].

(** ** Follow and unfollow *)

Lemma follow_create_ok newId now a b d :
  existsb (fun f => String.eqb (Follow.id f) newId) (follows d) = false ->
  existsb (Prisma.follow_pair a b) (follows d) = false ->
  Prisma.user_exists d a = true ->
  Prisma.user_exists d b = true ->
  Prisma.follow_create newId now a b d
  = inr (Follow.mk newId a b now, set_follows d (follows d ++ [Follow.mk newId a b now])).
Proof.
  intros Hid Hpair Ha Hb. unfold Prisma.follow_create.
  now rewrite Hid, Hpair, Ha, Hb.
Qed.

Lemma follow_pair_self newId now a b :
  Prisma.follow_pair a b (Follow.mk newId a b now) = true.
Proof. unfold Prisma.follow_pair. simpl. now rewrite !String.eqb_refl. Qed.

Lemma find_app_last {A} (f : A -> bool) (l : list A) (x : A) :
  existsb f l = false -> f x = true -> find f (l ++ [x]) = Some x.
Proof.
  intros Hl Hx. induction l as [|y l IH]; simpl in *.
  - now rewrite Hx.
  - destruct (f y); [discriminate|]. now apply IH.
Qed.

Lemma filter_negb_app_last {A} (f : A -> bool) (l : list A) (x : A) :
  existsb f l = false -> f x = true ->
  List.filter (fun y => negb (f y)) (l ++ [x]) = l.
Proof.
  intros Hl Hx. rewrite List.filter_app. simpl. rewrite Hx. simpl.
  rewrite filter_negb_none by assumption. apply app_nil_r.
Qed.

Lemma user_exists_find d id :
  Prisma.user_exists d id = true ->
  exists u, Prisma.user_findUnique (ById id) d = Some u.
Proof.
  unfold Prisma.user_exists, Prisma.user_findUnique. intros H.
  destruct (find _ (users d)) as [u|] eqn:E; [eauto|].
  apply find_none_existsb in E. congruence.
Qed.

(** C4: for distinct users A and B where A does not follow B, [followUser]
    adds exactly the row (A, B) to the follow table and answers
    [following: true]; [unfollowUser] right after removes exactly that row,
    answers [following: false], and the database is as it was before. *)
Theorem follow_then_unfollow (o : Oracle) (w : World) (A B : string) :
  A <> B ->
  Prisma.user_exists (db w) A = true ->
  Prisma.user_exists (db w) B = true ->
  Prisma.follow_findUnique A B (db w) = None ->
  cuid_fresh o w ->
  exists row w1 w2,
    run o (followUser A B) w
      = (inr (FollowResult.mk "User followed successfully" true), w1) /\
    follow_key row = (A, B) /\
    db w1 = set_follows (db w) (follows (db w) ++ [row]) /\
    Prisma.follow_findUnique A B (db w1) = Some row /\
    run o (unfollowUser A B) w1
      = (inr (FollowResult.mk "User unfollowed successfully" false), w2) /\
    Prisma.follow_findUnique A B (db w2) = None /\
    db w2 = db w.
Proof.
  intros Hne HA HB Hnone Hfresh.
  assert (Hpair : existsb (Prisma.follow_pair A B) (follows (db w)) = false)
    by (now apply find_none_existsb).
  assert (Hid : existsb (fun f => String.eqb (Follow.id f) (cuid o (S (S (tick w)))))
                        (follows (db w)) = false).
  { apply not_In_existsb. intros Hin. apply (Hfresh (S (S (tick w)))); [lia|].
    unfold ids_in_use. rewrite !in_app_iff. tauto. }
  destruct (user_exists_find _ _ HB) as [u Hu].
  set (row := Follow.mk (cuid o (S (S (tick w)))) A B (clock w)).
  pose proof (follow_pair_self (cuid o (S (S (tick w)))) (clock w) A B) as Hself.
  pose proof (find_app_last _ _ _ Hpair Hself) as Hfind.
  pose proof (filter_negb_app_last _ _ _ Hpair Hself) as Hdel.
  fold row in Hself, Hfind, Hdel.
  eexists row, _, _.
  unfold followUser.
  destruct (String.eqb A B) eqn:EAB; [apply String.eqb_eq in EAB; contradiction|].
  exec_step. rewrite Hu. exec_step. rewrite Hnone. exec_step.
  rewrite (follow_create_ok _ _ _ _ _ Hid Hpair HA HB). fold row. exec_step.
  split; [reflexivity|]. split; [reflexivity|]. split; [reflexivity|].
  cbn [db]. unfold Prisma.follow_findUnique at 1. cbn [follows set_follows].
  split; [exact Hfind|].
  unfold unfollowUser. exec_step.
  unfold Prisma.follow_findUnique at 1. cbn [follows set_follows]. rewrite Hfind.
  exec_step. unfold Prisma.follow_delete. cbn [follows set_follows]. rewrite Hfind, Hdel.
  exec_step.
  split; [reflexivity|]. cbn [db]. split.
  - unfold Prisma.follow_findUnique in *. cbn [follows set_follows]. exact Hnone.
  - destruct (db w); reflexivity.
Qed.

(** ** Likes *)

Lemma find_map_update {A} (key : A -> string) (f : A -> A) (id : string) (l : list A) :
  (forall x, key (f x) = key x) ->
  find (fun x => String.eqb (key x) id)
       (map (fun x => if String.eqb (key x) id then f x else x) l)
  = option_map f (find (fun x => String.eqb (key x) id) l).
Proof.
  intros Hkey. induction l as [|x l IH]; simpl; [reflexivity|].
  destruct (String.eqb (key x) id) eqn:E.
  - rewrite Hkey, E. reflexivity.
  - rewrite E. exact IH.
Qed.

Lemma aura_apply_id data now a : Aura.id (Prisma.aura_apply data now a) = Aura.id a.
Proof. destruct data; reflexivity. Qed.

Lemma aura_update_found now id data d a :
  Prisma.aura_findUnique id d = Some a ->
  exists d',
    Prisma.aura_update now id data d = inr (Prisma.aura_apply data now a, d') /\
    Prisma.aura_findUnique id d' = Some (Prisma.aura_apply data now a) /\
    users d' = users d /\ otps d' = otps d /\ images d' = images d /\
    follows d' = follows d.
Proof.
  unfold Prisma.aura_findUnique, Prisma.aura_update. intros Hfind. rewrite Hfind.
  eexists. split; [reflexivity|]. cbn [auras set_auras users otps images follows].
  rewrite (find_map_update Aura.id) by apply aura_apply_id.
  rewrite Hfind. repeat split; reflexivity.
Qed.

Lemma run_likeAura o w userId auraId a :
  Prisma.aura_findUnique auraId (db w) = Some a ->
  exists w1 a1,
    run o (likeAura userId auraId) w
      = (inr (LikeResult.mk "Aura liked successfully" true (Aura.likes a + 1)), w1) /\
    Prisma.aura_findUnique auraId (db w1) = Some a1 /\
    Aura.likes a1 = Aura.likes a + 1.
Proof.
  intros Hfind. unfold likeAura. exec_step. rewrite Hfind. exec_step.
  destruct (aura_update_found (clock w) auraId (LikesIncrement 1) _ _ Hfind)
    as (d' & Hupd & Hfind' & _).
  rewrite Hupd. exec_step. eexists _, _. split; [reflexivity|].
  cbn [db]. split; [exact Hfind'|]. reflexivity.
Qed.

Lemma run_unlikeAura o w userId auraId a :
  Prisma.aura_findUnique auraId (db w) = Some a ->
  exists w1 a1,
    run o (unlikeAura userId auraId) w
      = (inr (LikeResult.mk "Aura unliked successfully" false
                (Aura.likes a - (if 0 <? Aura.likes a then 1 else 0))), w1) /\
    Prisma.aura_findUnique auraId (db w1) = Some a1 /\
    Aura.likes a1 = Aura.likes a - (if 0 <? Aura.likes a then 1 else 0).
Proof.
  intros Hfind. unfold unlikeAura. exec_step. rewrite Hfind. exec_step.
  destruct (aura_update_found (clock w) auraId
              (LikesDecrement (if 0 <? Aura.likes a then 1 else 0)) _ _ Hfind)
    as (d' & Hupd & Hfind' & _).
  rewrite Hupd. exec_step. eexists _, _. split; [reflexivity|].
  cbn [db]. split; [exact Hfind'|]. reflexivity.
Qed.

(** C9: likes are a bare counter.  On an existing aura every [likeAura] adds
    exactly 1, whoever calls it; the same user liking twice adds 2; and
    [unlikeAura] succeeds for any user, liked before or not, taking 1 off a
    positive count. *)
Theorem likes_are_a_bare_counter (o : Oracle) (w : World) (auraId : string) (a : Aura.t) :
  Prisma.aura_findUnique auraId (db w) = Some a ->
  forall userId,
    (forall other, run o (likeAura other auraId) w = run o (likeAura userId auraId) w) /\
    (forall other, run o (unlikeAura other auraId) w = run o (unlikeAura userId auraId) w) /\
    (exists w1 a1 w2 a2,
        run o (likeAura userId auraId) w
          = (inr (LikeResult.mk "Aura liked successfully" true (Aura.likes a + 1)), w1) /\
        Prisma.aura_findUnique auraId (db w1) = Some a1 /\
        Aura.likes a1 = Aura.likes a + 1 /\
        run o (likeAura userId auraId) w1
          = (inr (LikeResult.mk "Aura liked successfully" true (Aura.likes a + 2)), w2) /\
        Prisma.aura_findUnique auraId (db w2) = Some a2 /\
        Aura.likes a2 = Aura.likes a + 2) /\
    (exists w3 a3,
        run o (unlikeAura userId auraId) w
          = (inr (LikeResult.mk "Aura unliked successfully" false
                    (if 0 <? Aura.likes a then Aura.likes a - 1 else Aura.likes a)), w3) /\
        Prisma.aura_findUnique auraId (db w3) = Some a3 /\
        Aura.likes a3 = if 0 <? Aura.likes a then Aura.likes a - 1 else Aura.likes a).
Proof.
  intros Hfind userId. split; [reflexivity|]. split; [reflexivity|]. split.
  - destruct (run_likeAura o w userId auraId a Hfind) as (w1 & a1 & Hrun1 & Hf1 & Hl1).
    destruct (run_likeAura o w1 userId auraId a1 Hf1) as (w2 & a2 & Hrun2 & Hf2 & Hl2).
    exists w1, a1, w2, a2. rewrite Hrun1, Hrun2, Hl1.
    replace (Aura.likes a + 1 + 1) with (Aura.likes a + 2) by lia.
    repeat split; try assumption. lia.
  - destruct (run_unlikeAura o w userId auraId a Hfind) as (w3 & a3 & Hrun & Hf & Hl).
    exists w3, a3. rewrite Hrun, Hl.
    destruct (0 <? Aura.likes a);
      replace (Aura.likes a - 0) with (Aura.likes a) by lia; repeat split; assumption.
Qed.

(** ** Key constraints *)

Lemma NoDup_map_snoc {A K} (g : A -> K) (l : list A) (x : A) :
  NoDup (map g l) -> ~ In (g x) (map g l) -> NoDup (map g (l ++ [x])).
Proof.
  intros Hnd Hfresh. rewrite map_app. simpl.
  apply NoDup_app; repeat split.
  - exact Hnd.
  - intros y Hy Hy'. apply list_elem_of_In in Hy, Hy'.
    destruct Hy' as [<-|[]]. contradiction.
  - apply NoDup_singleton.
Qed.

Lemma NoDup_map_filter {A K} (g : A -> K) (f : A -> bool) (l : list A) :
  NoDup (map g l) -> NoDup (map g (List.filter f l)).
Proof.
  induction l as [|x l IH]; simpl; [auto|].
  intros Hnd. apply NoDup_cons in Hnd as [Hx Hnd].
  destruct (f x); simpl; [|auto].
  apply NoDup_cons. split; [|auto].
  intros Hin. apply Hx. apply list_elem_of_In. apply list_elem_of_In in Hin.
  apply in_map_iff in Hin as (y & Hy & Hin). apply in_map_iff.
  exists y. split; [assumption|]. apply filter_In in Hin. tauto.
Qed.

Lemma map_map_update {A K} (g : A -> K) (c : A -> bool) (f : A -> A) (l : list A) :
  (forall x, g (f x) = g x) ->
  map g (map (fun x => if c x then f x else x) l) = map g l.
Proof.
  intros Hg. induction l as [|x l IH]; simpl; [reflexivity|].
  rewrite IH. destruct (c x); [rewrite Hg|]; reflexivity.
Qed.

Lemma follow_pair_key a b f :
  Prisma.follow_pair a b f = true <-> follow_key f = (a, b).
Proof.
  unfold Prisma.follow_pair, follow_key. rewrite andb_true_iff, !String.eqb_eq.
  split; [intros [-> ->]; reflexivity | intros [= -> ->]; auto].
Qed.

Lemma not_In_follow_key a b l :
  existsb (Prisma.follow_pair a b) l = false -> ~ In (a, b) (map follow_key l).
Proof.
  intros Hex Hin. apply in_map_iff in Hin as (f & Hkey & Hin).
  assert (existsb (Prisma.follow_pair a b) l = true); [|congruence].
  apply existsb_exists. exists f. split; [assumption|]. now apply follow_pair_key.
Qed.

Lemma existsb_false_not_In {A} (g : A -> string) (s : string) (l : list A) :
  existsb (fun x => String.eqb (g x) s) l = false -> ~ In s (map g l).
Proof.
  intros Hex Hin. apply existsb_In_map in Hin. congruence.
Qed.

Lemma consistent_empty : consistent empty_db.
Proof. repeat constructor. Qed.

Ltac split_consistent H :=
  destruct H as [[Hphone Hfollow Himage] [Huid Hoid Hiid Haid Hfid]].

Ltac prove_consistent :=
  constructor; constructor;
  cbn [users otps images auras follows set_users set_otps set_images set_auras set_follows];
  try assumption.

(** An insert goes through when every check of its keys passes. *)
Ltac pass_checks :=
  repeat match goal with
         | |- context [if ?c then _ else _] => destruct c eqn:?; try discriminate
         | |- context [match find ?f ?l with _ => _ end] =>
             destruct (find f l) eqn:?; try discriminate
         end;
  intros [= <- <-].

Ltac fresh_key :=
  apply NoDup_map_snoc;
  [assumption | first [now apply existsb_false_not_In | now apply not_In_follow_key]].

Lemma otp_create_consistent newId now phone code expiresAt d row d' :
  consistent d ->
  Prisma.otp_create newId now phone code expiresAt d = inr (row, d') -> consistent d'.
Proof.
  intros H. split_consistent H. unfold Prisma.otp_create. pass_checks.
  prove_consistent. fresh_key.
Qed.

Lemma otp_update_consistent id b d row d' :
  consistent d -> Prisma.otp_update id b d = inr (row, d') -> consistent d'.
Proof.
  intros H. split_consistent H. unfold Prisma.otp_update. pass_checks.
  prove_consistent. now rewrite (map_map_update OTP.id).
Qed.

Lemma otp_deleteMany_consistent wh d :
  consistent d -> consistent (snd (Prisma.otp_deleteMany wh d)).
Proof.
  intros H. split_consistent H. unfold Prisma.otp_deleteMany.
  prove_consistent. now apply NoDup_map_filter.
Qed.

Lemma user_create_consistent newId now data d row d' :
  consistent d -> Prisma.user_create newId now data d = inr (row, d') -> consistent d'.
Proof.
  intros H. split_consistent H. unfold Prisma.user_create, Prisma.user_exists.
  cbv zeta. pass_checks. prove_consistent; fresh_key.
Qed.

Lemma user_update_consistent now id url d row d' :
  consistent d -> Prisma.user_update now id url d = inr (row, d') -> consistent d'.
Proof.
  intros H. split_consistent H. unfold Prisma.user_update. pass_checks.
  prove_consistent.
  - now rewrite (map_map_update User.phoneNumber).
  - now rewrite (map_map_update User.id).
Qed.

Lemma follow_create_consistent newId now a b d row d' :
  consistent d -> Prisma.follow_create newId now a b d = inr (row, d') -> consistent d'.
Proof.
  intros H. split_consistent H. unfold Prisma.follow_create. pass_checks.
  prove_consistent; fresh_key.
Qed.

Lemma follow_delete_consistent a b d row d' :
  consistent d -> Prisma.follow_delete a b d = inr (row, d') -> consistent d'.
Proof.
  intros H. split_consistent H. unfold Prisma.follow_delete. pass_checks.
  prove_consistent; now apply NoDup_map_filter.
Qed.

Lemma aura_update_consistent now id data d row d' :
  consistent d -> Prisma.aura_update now id data d = inr (row, d') -> consistent d'.
Proof.
  intros H. split_consistent H. unfold Prisma.aura_update. pass_checks.
  prove_consistent.
  - rewrite (map_map_update Aura.imageId); [assumption|]. now destruct data.
  - rewrite (map_map_update Aura.id); [assumption|]. now destruct data.
Qed.

Lemma aura_create_consistent newId now data d row d' :
  consistent d -> Prisma.aura_create newId now data d = inr (row, d') -> consistent d'.
Proof.
  intros H. split_consistent H. unfold Prisma.aura_create. pass_checks.
  prove_consistent; fresh_key.
Qed.

Lemma image_create_consistent newId now data d row d' :
  consistent d -> Prisma.image_create newId now data d = inr (row, d') -> consistent d'.
Proof.
  intros H. split_consistent H. unfold Prisma.image_create, Prisma.image_exists.
  pass_checks. prove_consistent. fresh_key.
Qed.

Lemma image_delete_consistent id d row d' :
  consistent d -> Prisma.image_delete id d = inr (row, d') -> consistent d'.
Proof.
  intros H. split_consistent H. unfold Prisma.image_delete. pass_checks.
  prove_consistent; now apply NoDup_map_filter.
Qed.

Lemma db_exec o {R} (op : Op R) w :
  db (snd (exec o op w)) = snd (fst (perform o op w)).
Proof. unfold exec. destruct (perform o op w) as [[r d] c]. reflexivity. Qed.

Lemma write_consistent {R} (w : World) (r : exn + R * DB) :
  consistent (db w) ->
  (forall row d', r = inr (row, d') -> consistent d') ->
  consistent (snd (fst (write w r))).
Proof.
  intros Hw Hr. destruct r as [e|[row d']]; simpl; eauto.
Qed.

Lemma perform_consistent o {R} (op : Op R) w :
  consistent (db w) -> consistent (snd (fst (perform o op w))).
Proof.
  intros Hw.
  destruct op; cbn [perform]; try exact Hw;
    try (apply write_consistent; [exact Hw|intros row d' Heq]).
  - eapply otp_create_consistent; eauto.
  - eapply otp_update_consistent; eauto.
  - injection Heq as <- <-. now apply otp_deleteMany_consistent.
  - eapply user_create_consistent; eauto.
  - eapply user_update_consistent; eauto.
  - eapply follow_create_consistent; eauto.
  - eapply follow_delete_consistent; eauto.
  - eapply aura_update_consistent; eauto.
  - eapply aura_create_consistent; eauto.
  - eapply image_create_consistent; eauto.
  - eapply image_delete_consistent; eauto.
Qed.

Lemma exec_consistent o {R} (op : Op R) w :
  consistent (db w) -> consistent (db (snd (exec o op w))).
Proof. rewrite db_exec. apply perform_consistent. Qed.

Lemma resume_consistent o {A} (p : prog A) w :
  consistent (db w) -> consistent (db (snd (resume o p w))).
Proof.
  intros Hw. destruct p as [a|e|R op k]; simpl; try exact Hw.
  pose proof (exec_consistent o op w Hw) as H.
  destruct (exec o op w) as [r w']. exact H.
Qed.

Lemma reachable_consistent o w : reachable o w -> consistent (db w).
Proof.
  induction 1 as [now|A p w _ IH|dt w _ IH].
  - apply consistent_empty.
  - now apply resume_consistent.
  - exact IH.
Qed.

(** A handler run to its end, or several run together, stay within the
    reachable worlds. *)
Lemma run_reachable o {A} (p : prog A) w :
  reachable o w -> reachable o (snd (run o p w)).
Proof.
  revert w. induction p as [a|e|R op k IH]; intros w Hw; simpl; try exact Hw.
  pose proof (reachable_resume o (Do op k) w Hw) as Hstep. simpl in Hstep.
  destruct (exec o op w) as [r w']. simpl in Hstep. now apply IH.
Qed.

Lemma interleave_reachable o {A} sched (pool : list (prog A)) w :
  reachable o w -> reachable o (snd (interleave o sched pool w)).
Proof.
  revert pool w. induction sched as [|i sched IH]; intros pool w Hw; simpl; [exact Hw|].
  destruct (nth_error pool i) as [p|]; [|now apply IH].
  pose proof (reachable_resume o p w Hw) as Hstep.
  destruct (resume o p w) as [p' w']. now apply IH.
Qed.

(** C7: in every reachable state no two users share a phone number, no two
    follow rows share their (followerId, followingId) pair and no two auras
    belong to the same image; and it is the database that enforces this: an
    insert that would break one of the three is rejected, whatever the
    handler checked before. *)
Theorem uniqueness_by_schema_constraints (o : Oracle) (w : World) :
  reachable o w ->
  unique_keys (db w) /\
  (forall newId now data,
      In (UserCreateInput.phoneNumber data) (map User.phoneNumber (users (db w))) ->
      exists e, Prisma.user_create newId now data (db w) = inl e) /\
  (forall newId now a b,
      In (a, b) (map follow_key (follows (db w))) ->
      exists e, Prisma.follow_create newId now a b (db w) = inl e) /\
  (forall newId now data,
      In (AuraCreateInput.imageId data) (map Aura.imageId (auras (db w))) ->
      exists e, Prisma.aura_create newId now data (db w) = inl e).
Proof.
  intros Hreach. split; [apply reachable_consistent in Hreach; apply Hreach|].
  repeat split.
  - intros newId now data Hin. apply existsb_In_map in Hin.
    unfold Prisma.user_create. cbv zeta.
    destruct (Prisma.user_exists _ _); [eauto|]. rewrite Hin. eauto.
  - intros newId now a b Hin.
    assert (Hpair : existsb (Prisma.follow_pair a b) (follows (db w)) = true).
    { apply in_map_iff in Hin as (f & Hkey & Hin). apply existsb_exists.
      exists f. split; [assumption|]. now apply follow_pair_key. }
    unfold Prisma.follow_create.
    destruct (existsb (fun f => String.eqb (Follow.id f) newId) _); [eauto|].
    rewrite Hpair. eauto.
  - intros newId now data Hin. apply existsb_In_map in Hin.
    unfold Prisma.aura_create.
    destruct (existsb (fun a => String.eqb (Aura.id a) newId) _); [eauto|].
    rewrite Hin. eauto.
Qed.

(** ** The likes counter under overlapping requests *)

Lemma find_unique {A} (key : A -> string) (id : string) (l : list A) (a : A) :
  NoDup (map key l) ->
  find (fun x => String.eqb (key x) id) l = Some a ->
  forall x, In x l -> key x = id -> x = a.
Proof.
  induction l as [|y l IH]; simpl; [discriminate|].
  intros Hnd Hfind x Hin Hkey. apply NoDup_cons in Hnd as [Hy Hnd].
  destruct (String.eqb (key y) id) eqn:E.
  - injection Hfind as <-. destruct Hin as [<-|Hin]; [reflexivity|].
    exfalso. apply Hy. apply list_elem_of_In. apply in_map_iff.
    exists x. split; [|assumption]. apply String.eqb_eq in E. congruence.
  - destruct Hin as [<-|Hin].
    + apply String.eqb_neq in E. contradiction.
    + now apply IH.
Qed.

Lemma aura_update_nonnegative now id data d a row d' :
  NoDup (map Aura.id (auras d)) ->
  likes_nonnegative d ->
  Prisma.aura_findUnique id d = Some a ->
  0 <= Aura.likes (Prisma.aura_apply data now a) ->
  Prisma.aura_update now id data d = inr (row, d') ->
  likes_nonnegative d'.
Proof.
  unfold likes_nonnegative, Prisma.aura_findUnique, Prisma.aura_update.
  intros Hnd Hall Hfind Hpos. rewrite Hfind. intros [= <- <-].
  cbn [auras set_auras]. apply Forall_forall. intros x Hx.
  apply list_elem_of_In in Hx. apply in_map_iff in Hx as (y & <- & Hy).
  destruct (String.eqb (Aura.id y) id) eqn:E.
  - apply String.eqb_eq in E.
    now rewrite (find_unique Aura.id id _ a Hnd Hfind y Hy E).
  - rewrite Forall_forall in Hall. apply Hall. now apply list_elem_of_In.
Qed.

(** Served one after the other, [likeAura] and [unlikeAura] keep every count
    at 0 or above. *)
Lemma likes_nonnegative_one_at_a_time o w userId auraId :
  consistent (db w) ->
  likes_nonnegative (db w) ->
  likes_nonnegative (db (snd (run o (likeAura userId auraId) w))) /\
  likes_nonnegative (db (snd (run o (unlikeAura userId auraId) w))).
Proof.
  intros [_ [_ _ _ Hnd _]] Hall.
  assert (Ha : forall a, In a (auras (db w)) -> 0 <= Aura.likes a).
  { intros a Hin. unfold likes_nonnegative in Hall. rewrite Forall_forall in Hall.
    apply Hall. now apply list_elem_of_In. }
  split.
  - unfold likeAura. exec_step.
    destruct (Prisma.aura_findUnique auraId (db w)) as [a|] eqn:Hfind; [|exact Hall].
    exec_step.
    destruct (Prisma.aura_update _ _ _ _) as [e|[row d']] eqn:Hupd; exec_step; [exact Hall|].
    eapply aura_update_nonnegative; eauto. simpl.
    apply find_some in Hfind as [Hin _]. specialize (Ha a Hin). lia.
  - unfold unlikeAura. exec_step.
    destruct (Prisma.aura_findUnique auraId (db w)) as [a|] eqn:Hfind; [|exact Hall].
    exec_step.
    destruct (Prisma.aura_update _ _ _ _) as [e|[row d']] eqn:Hupd; exec_step; [exact Hall|].
    eapply aura_update_nonnegative; eauto. simpl.
    destruct (0 <? Aura.likes a) eqn:E.
    + apply Z.ltb_lt in E. lia.
    + apply find_some in Hfind as [Hin _]. specialize (Ha a Hin). lia.
Qed.

(** C8 (fails on the code): the handler decides how much to take off from the
    count it read before its second [await].  Two requests to unlike an aura
    with one like, each reading before the other writes, both take 1 off: the
    count ends at -1, in a reachable state, and the second answer reports
    [totalLikes: -1]. *)
Theorem unlike_race_goes_negative :
  reachable Sample.oracle Sample.liked_once /\
  map Aura.likes (auras (db Sample.liked_once)) = [1] /\
  reachable Sample.oracle (snd Sample.after_two_unlikes) /\
  map Aura.likes (auras (db (snd Sample.after_two_unlikes))) = [-1] /\
  fst Sample.after_two_unlikes
  = [Ret (LikeResult.mk "Aura unliked successfully" false 0);
     Ret (LikeResult.mk "Aura unliked successfully" false (-1))].
Proof.
  assert (Hliked : reachable Sample.oracle Sample.liked_once).
  { unfold Sample.liked_once, Sample.uploaded.
    apply run_reachable, run_reachable, reachable_start. }
  split; [exact Hliked|]. split; [vm_compute; reflexivity|].
  split; [now apply interleave_reachable|].
  split; vm_compute; reflexivity.
Qed.

(** ** OTP clean-up *)

Lemma matches_used x :
  OtpWhere.matches (OtpWhere.mk None None (Some true) None None) x = used x.
Proof. unfold OtpWhere.matches, used. simpl. now destruct (OTP.isUsed x). Qed.

Lemma matches_stale now x :
  OtpWhere.matches (OtpWhere.mk None None (Some false) None (Some (now - 30 * 60 * 1000))) x
  = stale now x.
Proof.
  unfold OtpWhere.matches, stale. simpl. destruct (OTP.isUsed x); simpl; [reflexivity|].
  destruct (Z.ltb_spec (OTP.createdAt x) (now - 1800000));
    destruct (Z.ltb_spec 1800000 (now - OTP.createdAt x)); lia || reflexivity.
Qed.

Lemma filter_kept now (l : list OTP.t) :
  List.filter (fun x => negb (stale now x)) (List.filter (fun x => negb (used x)) l)
  = List.filter (fun x => negb (used x || stale now x)) l.
Proof.
  induction l as [|x l IH]; simpl; [reflexivity|].
  destruct (used x); simpl; [exact IH|].
  destruct (stale now x); simpl; [exact IH|]. now rewrite IH.
Qed.

Lemma filter_stale_after_used now (l : list OTP.t) :
  List.filter (stale now) (List.filter (fun x => negb (used x)) l)
  = List.filter (stale now) l.
Proof.
  induction l as [|x l IH]; simpl; [reflexivity|].
  destruct (used x) eqn:E; simpl.
  - unfold stale at 2. unfold used in E. rewrite E. simpl. exact IH.
  - destruct (stale now x); simpl; now rewrite IH.
Qed.

Lemma deleteMany_used d :
  Prisma.otp_deleteMany (OtpWhere.mk None None (Some true) None None) d
  = (Z.of_nat (length (List.filter used (otps d))),
     set_otps d (List.filter (fun x => negb (used x)) (otps d))).
Proof.
  unfold Prisma.otp_deleteMany. f_equal; [do 2 f_equal | f_equal];
    apply filter_ext; intros x; now rewrite matches_used.
Qed.

Lemma deleteMany_stale now d :
  Prisma.otp_deleteMany
    (OtpWhere.mk None None (Some false) None (Some (now - 30 * 60 * 1000))) d
  = (Z.of_nat (length (List.filter (stale now) (otps d))),
     set_otps d (List.filter (fun x => negb (stale now x)) (otps d))).
Proof.
  unfold Prisma.otp_deleteMany. f_equal; [do 2 f_equal | f_equal];
    apply filter_ext; intros x; now rewrite matches_stale.
Qed.

Lemma kept_and_deleted now (l : list OTP.t) :
  Permutation l (List.filter (fun x => negb (used x || stale now x)) l ++
                 List.filter used l ++ List.filter (stale now) l).
Proof.
  induction l as [|x l IH]; simpl; [constructor|].
  destruct (used x) eqn:Eu; simpl.
  - unfold stale at 2. unfold used in Eu. rewrite Eu. simpl.
    rewrite <- Permutation_middle. now constructor.
  - destruct (stale now x) eqn:Es; simpl.
    + rewrite app_assoc. rewrite <- Permutation_middle. rewrite <- app_assoc.
      now constructor.
    + now constructor.
Qed.

(** C5: the clean-up deletes exactly the used rows and the unused rows created
    more than 30 minutes before the call; the other OTP rows stay, in order,
    and no other table changes; the counts it reports are the numbers of rows
    deleted under each of the two criteria.  This holds of [performCleanup]
    and of the scheduled [cleanupOtps]. *)
Theorem cleanup_deletes_exactly (o : Oracle) (w : World) :
  let deleted_used := List.filter used (otps (db w)) in
  let deleted_stale := List.filter (stale (clock w)) (otps (db w)) in
  let kept := List.filter (fun x => negb (used x || stale (clock w) x)) (otps (db w)) in
  let v := Z.of_nat (length deleted_used) in
  let e := Z.of_nat (length deleted_stale) in
  (exists w', run o performCleanup w = (inr (CleanupResult.mk v e (v + e)), w') /\
              db w' = set_otps (db w) kept) /\
  (exists w', run o cleanupOtps w = (inr (CleanupCompleted v e (v + e)), w') /\
              db w' = set_otps (db w) kept) /\
  Permutation (otps (db w)) (kept ++ deleted_used ++ deleted_stale).
Proof.
  cbv zeta. split; [|split].
  - unfold performCleanup. exec_step. rewrite deleteMany_used. exec_step.
    rewrite deleteMany_stale. exec_step.
    cbn [otps set_otps]. rewrite filter_kept, filter_stale_after_used.
    eexists. split; reflexivity.
  - unfold cleanupOtps. exec_step. rewrite deleteMany_used. exec_step.
    rewrite deleteMany_stale. exec_step.
    cbn [otps set_otps]. rewrite filter_kept, filter_stale_after_used.
    eexists. split; reflexivity.
  - apply kept_and_deleted.
Qed.

(** ** The retry loop of the image fetch *)




(** ** Sending and verifying a code *)

Lemma matches_valid phoneNumber code now x :
  OtpWhere.matches (verify_where phoneNumber code now) x = true
  <-> valid_otp phoneNumber code now x.
Proof.
  unfold OtpWhere.matches, verify_where, valid_otp. simpl.
  rewrite !andb_true_iff, !String.eqb_eq, Z.ltb_lt.
  destruct (OTP.isUsed x); simpl; intuition congruence.
Qed.


Lemma find_by_id_In {A} (key : A -> string) (l : list A) (x : A) :
  In x l -> exists y, find (fun z => String.eqb (key z) (key x)) l = Some y.
Proof.
  intros Hin. destruct (find _ l) as [y|] eqn:E; [eauto|].
  pose proof (find_none _ _ E x Hin) as H. simpl in H.
  now rewrite String.eqb_refl in H.
Qed.

Lemma otp_update_In d x :
  In x (otps d) ->
  exists row, Prisma.otp_update (OTP.id x) true d
              = inr (row, set_otps d (mark_used (OTP.id x) (otps d))).
Proof.
  intros Hin. unfold Prisma.otp_update.
  destruct (find_by_id_In OTP.id _ _ Hin) as [y Hy]. rewrite Hy. eauto.
Qed.

Lemma user_update_In now d u url :
  In u (users d) ->
  exists row d', Prisma.user_update now (User.id u) url d = inr (row, d') /\
                 otps d' = otps d.
Proof.
  intros Hin. unfold Prisma.user_update.
  destruct (find_by_id_In User.id _ _ Hin) as [y Hy]. rewrite Hy. eauto.
Qed.

(** [verifyOtp] when no row is valid: it throws, and nothing is written. *)
Lemma run_verifyOtp_rejected o w phoneNumber code :
  Prisma.otp_findFirst (verify_where phoneNumber code (clock w)) (db w) = None ->
  exists w', run o (verifyOtp phoneNumber code) w
             = (inl (Exn UnauthorizedException "Invalid or expired OTP"), w') /\
             db w' = db w.
Proof.
  intros Hnone. unfold verifyOtp. exec_step. fold (verify_where phoneNumber code (clock w)).
  rewrite Hnone. exec_step. eexists. split; reflexivity.
Qed.

(** [verifyOtp] when it finds a valid row [x]: it returns, and [x] is marked
    as used. *)
Lemma run_verifyOtp_accepted o w phoneNumber code x :
  Prisma.otp_findFirst (verify_where phoneNumber code (clock w)) (db w) = Some x ->
  exists res w', run o (verifyOtp phoneNumber code) w = (inr res, w') /\
                 otps (db w') = mark_used (OTP.id x) (otps (db w)) /\
                 clock w' = clock w.
Proof.
  intros Hfound. unfold verifyOtp. exec_step.
  fold (verify_where phoneNumber code (clock w)). rewrite Hfound. exec_step.
  assert (Hin : In x (otps (db w))) by (apply find_some in Hfound; tauto).
  destruct (otp_update_In _ _ Hin) as [row Hupd]. rewrite Hupd. exec_step.
  destruct (Prisma.user_findUnique _ _) as [u|] eqn:Hu; exec_step.
  - assert (Hu' : In u (users (set_otps (db w) (mark_used (OTP.id x) (otps (db w)))))).
    { unfold Prisma.user_findUnique in Hu. apply find_some in Hu. tauto. }
    destruct (user_update_In (clock w) _ u (dicebear phoneNumber) Hu')
      as (urow & d' & Hupd' & Hotps).
    destruct (User.profilePictureUrl u) as [url|]; [destruct (String.eqb url "")|];
      exec_step; try rewrite Hupd'; exec_step; eexists _, _;
      (split; [reflexivity|]); cbn [db clock]; try rewrite Hotps; split; reflexivity.
  - eexists _, _. split; [reflexivity|]. split; reflexivity.
Qed.








(** ** The upload pipeline *)

(** The analysis step: at most the one call to Gemini, nothing written, and
    any failure is a [BadRequestException]. *)
Lemma run_generateAuraFromBuffer cfg JSON_parse o imageBuffer mimeType w r w1 :
  run o (generateAuraFromBuffer cfg JSON_parse imageBuffer mimeType) w = (r, w1) ->
  db w1 = db w /\
  (forall e, r = inl e ->
             exn_class e = BadRequestException /\
             (log w1 = log w \/
              log w1 = log w ++ [ev (GeminiGenerateContent (base64 imageBuffer) mimeType)])) /\
  (forall ai, r = inr ai ->
              log w1 = log w ++ [ev (GeminiGenerateContent (base64 imageBuffer) mimeType)]).
Proof.
  unfold generateAuraFromBuffer, parse_response.
  destruct (genAI cfg); exec_step.
  - destruct (gemini_generate o _ _ _) as [e|text]; exec_step.
    + destruct (is_BadRequestException e) eqn:E; exec_step; intros [= <- <-];
        (split; [reflexivity|]); (split; [|discriminate]); intros ? [= <-]; cbn [log];
        (split; [|now right]); [|reflexivity].
      unfold is_BadRequestException in E. now destruct (exn_class e).
    + destruct (JSON_parse text) as [e|parsed]; exec_step.
      * intros [= <- <-]. split; [reflexivity|]. split; [|discriminate].
        intros ? [= <-]. split; [reflexivity|now right].
      * destruct (falsy (j_title parsed) || falsy (j_description parsed)
                  || falsy (j_mood parsed)); exec_step; intros [= <- <-];
          (split; [reflexivity|]).
        -- split; [|discriminate]. intros ? [= <-]. split; [reflexivity|now right].
        -- split; [discriminate|]. intros ? _. reflexivity.
  - intros [= <- <-]. split; [reflexivity|]. split; [|discriminate].
    intros ? [= <-]. split; [reflexivity|now left].
Qed.

(** The storage step: the one call to Cloudinary, nothing written, and any
    failure is a [BadRequestException]. *)
Lemma run_cloudinary_uploadImage cfg o buffer filename userId w r w2 :
  run o (cloudinary_uploadImage cfg buffer filename userId) w = (r, w2) ->
  db w2 = db w /\
  (exists file pid, log w2 = log w ++ [ev (CloudinaryUpload file pid)]) /\
  (forall e, r = inl e -> exn_class e = BadRequestException).
Proof.
  unfold cloudinary_uploadImage. exec_step.
  destruct (cloudinary_upload o _ _ _) as [e|res]; exec_step; intros [= <- <-];
    (split; [reflexivity|]); (split; [eexists _, _; reflexivity|]).
  - intros ? [= <-]. reflexivity.
  - discriminate.
Qed.

(** ** The leaderboard *)

Section StableSort.
Context {A : Type} (compare : A -> A -> Q).



(** Sortedness, for a comparator that decides a total preorder. *)
Section Sorted.
Variable before : A -> A -> Prop.
Hypothesis before_trans : forall x y z, before x y -> before y z -> before x z.
Hypothesis compare_le : forall x y, (compare x y <= 0)%Q -> before x y.
Hypothesis compare_gt : forall x y, (0 < compare x y)%Q -> before y x.


End Sorted.

(** Stability: the elements of a class that the comparator never puts one
    after the other keep their order. *)
Section Stable.
Variable P : A -> bool.
Hypothesis P_ties : forall x y, P x = true -> P y = true -> ~ (0 < compare x y)%Q.


End Stable.
End StableSort.

(** *** Rounding keeps the sign *)











(** *** Rounding stays near *)














(** A confidence of 0.9 ranks above one of 0.1, whatever the order the users
    are fetched in.  Confidences of 0.28 and 0.285 both round to 0.28: the
    two users tie and keep the order they were fetched in. *)
Example ranking_follows_confidence :
  map (fun r => option_map ub_id (Ranked.user r))
      (rankedUsers [Sample.scans "low" [Some (1 # 10)]; Sample.scans "high" [Some (9 # 10)]])
  = [Some "high"; Some "low"] /\
  map (fun r => option_map ub_id (Ranked.user r))
      (rankedUsers [Sample.scans "x" [Some (28 # 100)]; Sample.scans "y" [Some (285 # 1000)]])
  = [Some "x"; Some "y"] /\
  map (fun r => option_map ub_id (Ranked.user r))
      (rankedUsers [Sample.scans "y" [Some (285 # 1000)]; Sample.scans "x" [Some (28 # 100)]])
  = [Some "y"; Some "x"].
Proof. repeat split; vm_compute; reflexivity. Qed.

(** ** Concrete runs on the sample deployment *)

Lemma toString_inj a b : toString a = toString b -> a = b.
Proof.
  assert (Hnil : forall z, Z.to_int z <> Decimal.Pos Decimal.Nil /\
                           Z.to_int z <> Decimal.Neg Decimal.Nil).
  { intros [|p|p]; simpl; split; try discriminate;
      intros [= H]; now apply DecimalPos.Unsigned.to_uint_nonnil in H. }
  unfold toString. intros H. apply (f_equal NilZero.int_of_string) in H.
  destruct (Hnil a), (Hnil b). rewrite !NilZero.isi in H by assumption.
  injection H as H. apply (f_equal Z.of_int) in H. now rewrite !DecimalZ.of_to in H.
Qed.

(** The sample generator hands out [c0], [c1], [c2], ...: an identifier with
    a number below [tick w] is never handed out again. *)
Lemma sample_cuid_fresh (w : World) :
  (forall id, In id (ids_in_use (db w)) ->
              id = "test-user-123" \/
              exists k, (k < tick w)%nat /\ id = String "c" (toString (Z.of_nat k))) ->
  cuid_fresh Sample.oracle w.
Proof.
  intros Hids n Hn Hin. destruct (Hids _ Hin) as [H|(k & Hk & H)]; simpl in H.
  - discriminate.
  - injection H as H. apply toString_inj in H. lia.
Qed.

Lemma two_users_fresh : cuid_fresh Sample.oracle Sample.two_users.
Proof.
  apply sample_cuid_fresh.
  change (ids_in_use (db Sample.two_users)) with ["c1"; "c4"].
  change (tick Sample.two_users) with 6%nat.
  intros id [<-|[<-|[]]]; right; [exists 1%nat | exists 4%nat]; split; (lia || reflexivity).
Qed.

Lemma start_fresh : cuid_fresh Sample.oracle Sample.start.
Proof. intros n _ []. Qed.

(** Alice follows Bob, then unfollows him. *)
Lemma follow_then_unfollow_witness :
  exists row w1 w2,
    run Sample.oracle (followUser "c1" "c4") Sample.two_users
      = (inr (FollowResult.mk "User followed successfully" true), w1) /\
    follow_key row = ("c1", "c4") /\
    db w1 = set_follows (db Sample.two_users) (follows (db Sample.two_users) ++ [row]) /\
    Prisma.follow_findUnique "c1" "c4" (db w1) = Some row /\
    run Sample.oracle (unfollowUser "c1" "c4") w1
      = (inr (FollowResult.mk "User unfollowed successfully" false), w2) /\
    Prisma.follow_findUnique "c1" "c4" (db w2) = None /\
    db w2 = db Sample.two_users.
Proof.
  apply (follow_then_unfollow Sample.oracle Sample.two_users "c1" "c4").
  - discriminate.
  - vm_compute. reflexivity.
  - vm_compute. reflexivity.
  - vm_compute. reflexivity.
  - exact two_users_fresh.
Defined.


(** Alice and Bob follow each other and have one image and one aura each: the
    keys are pairwise distinct, and a second user with Alice's phone number,
    a second row for Alice following Bob, and a second aura for Alice's image
    are each rejected. *)
Lemma uniqueness_by_schema_constraints_witness :
  reachable Sample.oracle Sample.busy /\
  map User.phoneNumber (users (db Sample.busy)) = ["+15550001"; "+15550002"] /\
  map follow_key (follows (db Sample.busy)) = [("c1", "c4"); ("c4", "c1")] /\
  map Aura.imageId (auras (db Sample.busy)) = ["c15"; "c20"] /\
  unique_keys (db Sample.busy) /\
  (exists e, Prisma.user_create "c99" 1700000000000
               (UserCreateInput.mk None "Eve" "Moriarty" "+15550001" 0 true None None)
               (db Sample.busy) = inl e) /\
  (exists e, Prisma.follow_create "c99" 1700000000000 "c1" "c4" (db Sample.busy) = inl e) /\
  (exists e, Prisma.aura_create "c99" 1700000000000
               (AuraCreateInput.mk "Second aura" "" None [] None [] "c15" "c1")
               (db Sample.busy) = inl e).
Proof.
  assert (Hreach : reachable Sample.oracle Sample.busy).
  { unfold Sample.busy, Sample.two_users. repeat apply run_reachable. apply reachable_start. }
  assert (Hphones : map User.phoneNumber (users (db Sample.busy)) = ["+15550001"; "+15550002"])
    by (vm_compute; reflexivity).
  assert (Hpairs : map follow_key (follows (db Sample.busy)) = [("c1", "c4"); ("c4", "c1")])
    by (vm_compute; reflexivity).
  assert (Himages : map Aura.imageId (auras (db Sample.busy)) = ["c15"; "c20"])
    by (vm_compute; reflexivity).
  destruct (uniqueness_by_schema_constraints Sample.oracle Sample.busy Hreach)
    as (Hkeys & Huser & Hfollow & Haura).
  split; [exact Hreach|]. split; [exact Hphones|]. split; [exact Hpairs|].
  split; [exact Himages|]. split; [exact Hkeys|]. split; [|split].
  - apply Huser. rewrite Hphones. simpl. auto.
  - apply Hfollow. rewrite Hpairs. simpl. auto.
  - apply Haura. rewrite Himages. simpl. auto.
Defined.

(** Alice likes the uploaded aura twice. *)
Lemma likes_are_a_bare_counter_witness :
  exists a,
    Prisma.aura_findUnique "c6" (db Sample.uploaded) = Some a /\
    exists w1 a1 w2 a2,
      run Sample.oracle (likeAura "c1" "c6") Sample.uploaded
        = (inr (LikeResult.mk "Aura liked successfully" true (Aura.likes a + 1)), w1) /\
      Prisma.aura_findUnique "c6" (db w1) = Some a1 /\
      Aura.likes a1 = Aura.likes a + 1 /\
      run Sample.oracle (likeAura "c1" "c6") w1
        = (inr (LikeResult.mk "Aura liked successfully" true (Aura.likes a + 2)), w2) /\
      Prisma.aura_findUnique "c6" (db w2) = Some a2 /\
      Aura.likes a2 = Aura.likes a + 2.
Proof.
  eexists. split; [vm_compute; reflexivity|].
  refine (proj1 (proj2 (proj2 (likes_are_a_bare_counter
                                 Sample.oracle Sample.uploaded "c6" _ _ "c1")))).
  vm_compute. reflexivity.
Defined.


(** * Further properties of the handlers *)

(** ** Registration *)

(** X1: [register] refuses a phone number that a user already has: it throws
    [ConflictException] right after the look-up, before any upload, and
    writes nothing. *)
Theorem register_refuses_known_phone
        (cfg : Config) (o : Oracle) (w : World)
        (dto : RegisterUserDto.t) (profilePicture : option File) (u : User.t) :
  Prisma.user_findUnique (ByPhoneNumber (RegisterUserDto.phoneNumber dto)) (db w) = Some u ->
  run o (register cfg dto profilePicture) w
  = (inl (Exn ConflictException "User already exists"),
     mkWorld (db w) (clock w) (S (tick w))
             (log w ++ [ev (UserFindUnique
                              (ByPhoneNumber (RegisterUserDto.phoneNumber dto)))])).
Proof.
  intros Hfound. unfold register. exec_step. rewrite Hfound. reflexivity.
Qed.

(** A known phone number: Alice registers again. *)
Lemma register_refuses_known_phone_witness :
  exists w',
    run Sample.oracle (register Sample.cfg Sample.alice None) Sample.two_users
    = (inl (Exn ConflictException "User already exists"), w') /\
    db w' = db Sample.two_users.
Proof.
  eexists. split.
  - eapply (register_refuses_known_phone Sample.cfg Sample.oracle Sample.two_users
              Sample.alice None).
    vm_compute. reflexivity.
  - reflexivity.
Defined.

Lemma dicebear_nonempty phoneNumber : dicebear phoneNumber <> "".
Proof. unfold dicebear. discriminate. Qed.

Lemma user_create_fresh newId now data d :
  ~ In newId (map User.id (users d)) ->
  UserCreateInput.id data = None ->
  Prisma.user_findUnique (ByPhoneNumber (UserCreateInput.phoneNumber data)) d = None ->
  Prisma.user_create newId now data d
  = inr (User.mk newId (UserCreateInput.firstName data) (UserCreateInput.lastName data)
                 (UserCreateInput.phoneNumber data) (UserCreateInput.birthday data)
                 (UserCreateInput.isVerified data)
                 (UserCreateInput.profilePictureUrl data)
                 (UserCreateInput.profilePublicId data) now now,
         set_users d
           (users d ++
            [User.mk newId (UserCreateInput.firstName data) (UserCreateInput.lastName data)
                     (UserCreateInput.phoneNumber data) (UserCreateInput.birthday data)
                     (UserCreateInput.isVerified data)
                     (UserCreateInput.profilePictureUrl data)
                     (UserCreateInput.profilePublicId data) now now])).
Proof.
  intros Hid Hauto Hphone. unfold Prisma.user_create, Prisma.user_exists. cbv zeta.
  rewrite Hauto. simpl default.
  rewrite (not_In_existsb User.id newId _ Hid).
  unfold Prisma.user_findUnique in Hphone. apply find_none_existsb in Hphone.
  rewrite Hphone. reflexivity.
Qed.

Lemma cuid_fresh_user o w n :
  cuid_fresh o w -> (tick w <= n)%nat -> ~ In (cuid o n) (map User.id (users (db w))).
Proof.
  intros Hfresh Hn Hin. apply (Hfresh n Hn). unfold ids_in_use.
  rewrite !in_app_iff. tauto.
Qed.

(** X2: for a phone number nobody has, [register] creates exactly one user,
    verified, and returns a token for it.  The profile picture never makes
    it fail: with no picture, or when the upload throws, the user gets the
    DiceBear avatar of the phone number and no public id. *)
Theorem register_creates_verified_user
        (cfg : Config) (o : Oracle) (w : World)
        (dto : RegisterUserDto.t) (profilePicture : option File) :
  Prisma.user_findUnique (ByPhoneNumber (RegisterUserDto.phoneNumber dto)) (db w) = None ->
  cuid_fresh o w ->
  exists row res w',
    run o (register cfg dto profilePicture) w = (inr res, w') /\
    db w' = set_users (db w) (users (db w) ++ [row]) /\
    User.phoneNumber row = RegisterUserDto.phoneNumber dto /\
    User.firstName row = RegisterUserDto.firstName dto /\
    User.lastName row = RegisterUserDto.lastName dto /\
    User.birthday row = RegisterUserDto.birthday dto /\
    User.isVerified row = true /\
    (exists url, User.profilePictureUrl row = Some url /\ url <> "") /\
    RegisterResult.accessToken res = jwt_sign o (User.id row) (User.phoneNumber row) /\
    RegisteredUser.id (RegisterResult.user res) = User.id row /\
    RegisteredUser.profilePictureUrl (RegisterResult.user res) = User.profilePictureUrl row /\
    (profilePicture = None ->
     User.profilePictureUrl row = Some (dicebear (RegisterUserDto.phoneNumber dto)) /\
     User.profilePublicId row = None) /\
    (forall file,
        profilePicture = Some file ->
        (exists e, fst (run o (cloudinary_uploadProfilePicture cfg file)
                            (mkWorld (db w) (clock w) (S (tick w))
                               (log w ++ [ev (UserFindUnique
                                  (ByPhoneNumber (RegisterUserDto.phoneNumber dto)))])))
                   = inl e) ->
        User.profilePictureUrl row = Some (dicebear (RegisterUserDto.phoneNumber dto)) /\
        User.profilePublicId row = None).
Proof.
  intros Hnew Hfresh.
  assert (Hcreate : forall n now url pid,
             (tick w <= n)%nat ->
             Prisma.user_create (cuid o n) now
               (UserCreateInput.mk None (RegisterUserDto.firstName dto)
                  (RegisterUserDto.lastName dto) (RegisterUserDto.phoneNumber dto)
                  (RegisterUserDto.birthday dto) true (Some url) pid) (db w)
             = inr (User.mk (cuid o n) (RegisterUserDto.firstName dto)
                      (RegisterUserDto.lastName dto) (RegisterUserDto.phoneNumber dto)
                      (RegisterUserDto.birthday dto) true (Some url) pid now now,
                    set_users (db w)
                      (users (db w) ++
                       [User.mk (cuid o n) (RegisterUserDto.firstName dto)
                          (RegisterUserDto.lastName dto) (RegisterUserDto.phoneNumber dto)
                          (RegisterUserDto.birthday dto) true (Some url) pid now now]))).
  { intros n now url pid Hn.
    apply (user_create_fresh (cuid o n) now
             (UserCreateInput.mk None _ _ _ _ true (Some url) pid));
      [now apply cuid_fresh_user | reflexivity | exact Hnew]. }
  unfold register. exec_step. rewrite Hnew.
  destruct profilePicture as [file|].
  - unfold cloudinary_uploadProfilePicture. exec_step.
    destruct (cloudinary_upload o _ _ _) as [e|uploadResult] eqn:Hup; exec_step.
    + cbn [fst snd falsy]. rewrite Hcreate by lia. exec_step.
      eexists _, _, _. split; [reflexivity|]. split; [reflexivity|].
      cbn. repeat (split; [reflexivity|]).
      split; [eexists; split; [reflexivity|apply dicebear_nonempty]|].
      repeat (split; [reflexivity|]).
      split; [discriminate|]. intros ? _ _. split; reflexivity.
    + cbn [fst snd]. rewrite Hcreate by lia. exec_step.
      eexists _, _, _. split; [reflexivity|]. split; [reflexivity|].
      cbn -[falsy]. repeat (split; [reflexivity|]).
      split.
      { eexists. split; [reflexivity|]. unfold falsy.
        destruct (String.eqb (secure_url uploadResult) "") eqn:E.
        - apply dicebear_nonempty.
        - cbn. now apply String.eqb_neq. }
      repeat (split; [reflexivity|]).
      split; [discriminate|]. intros f [= <-] [e He]. exfalso. revert He.
      unfold cloudinary_uploadProfilePicture. exec_step. rewrite Hup. exec_step.
      discriminate.
  - exec_step. cbn [fst snd falsy]. rewrite Hcreate by lia. exec_step.
    eexists _, _, _. split; [reflexivity|]. split; [reflexivity|].
    cbn. repeat (split; [reflexivity|]).
    split; [eexists; split; [reflexivity|apply dicebear_nonempty]|].
    repeat (split; [reflexivity|]).
    split; [intros _; split; reflexivity|]. discriminate.
Qed.

(** Alice registers in the empty database, without a picture. *)
Lemma register_creates_verified_user_witness :
  exists row res w',
    run Sample.oracle (register Sample.cfg Sample.alice None) Sample.start = (inr res, w') /\
    db w' = set_users (db Sample.start) (users (db Sample.start) ++ [row]) /\
    User.phoneNumber row = "+15550001".
Proof.
  destruct (register_creates_verified_user Sample.cfg Sample.oracle Sample.start
              Sample.alice None eq_refl start_fresh)
    as (row & res & w' & Hrun & Hdb & Hphone & _).
  exists row, res, w'. auto.
Defined.

(** ** Verifying a code: the user side *)

(** X3: when [verifyOtp] accepts a code it never creates a user.  If nobody has
    the phone number it answers [NewUser], with no token, and the users table
    is unchanged.  If a user has it, it answers [ExistingUser] with a token
    for that user; the users table is unchanged, except that a user without a
    profile picture gets the DiceBear avatar of the phone number.  No other
    table but the OTPs changes. *)
Theorem verifyOtp_user_side (o : Oracle) (w : World) (phoneNumber code : string) (x : OTP.t) :
  Prisma.otp_findFirst (verify_where phoneNumber code (clock w)) (db w) = Some x ->
  exists res w',
    run o (verifyOtp phoneNumber code) w = (inr res, w') /\
    images (db w') = images (db w) /\
    auras (db w') = auras (db w) /\
    follows (db w') = follows (db w) /\
    match Prisma.user_findUnique (ByPhoneNumber phoneNumber) (db w) with
    | None =>
        res = NewUser "OTP verified. Please complete registration." phoneNumber /\
        users (db w') = users (db w)
    | Some u =>
        let picture := if falsy (User.profilePictureUrl u) then dicebear phoneNumber
                       else default "" (User.profilePictureUrl u) in
        res = ExistingUser (jwt_sign o (User.id u) (User.phoneNumber u))
                (VerifiedUser.mk (User.id u) (User.firstName u) (User.lastName u)
                   (User.phoneNumber u) (User.birthday u) (User.isVerified u) picture) /\
        users (db w')
        = if falsy (User.profilePictureUrl u)
          then map (fun v => if String.eqb (User.id v) (User.id u)
                             then Prisma.user_set_picture (dicebear phoneNumber) (clock w) v
                             else v) (users (db w))
          else users (db w)
    end.
Proof.
  intros Hfound. unfold verifyOtp. exec_step.
  fold (verify_where phoneNumber code (clock w)). rewrite Hfound. exec_step.
  assert (Hin : In x (otps (db w))) by (apply find_some in Hfound; tauto).
  destruct (otp_update_In _ _ Hin) as [row Hupd]. rewrite Hupd. exec_step.
  change (Prisma.user_findUnique (ByPhoneNumber phoneNumber)
            (set_otps (db w) (mark_used (OTP.id x) (otps (db w)))))
    with (Prisma.user_findUnique (ByPhoneNumber phoneNumber) (db w)).
  destruct (Prisma.user_findUnique (ByPhoneNumber phoneNumber) (db w)) as [u|] eqn:Hu;
    exec_step.
  - assert (Hu' : In u (users (db w))).
    { unfold Prisma.user_findUnique in Hu. apply find_some in Hu. tauto. }
    assert (Hupdate : forall d, users d = users (db w) ->
               Prisma.user_update (clock w) (User.id u) (dicebear phoneNumber) d
               = inr (Prisma.user_set_picture (dicebear phoneNumber) (clock w)
                        (default u (find (fun v => String.eqb (User.id v) (User.id u))
                                         (users (db w)))),
                      set_users d
                        (map (fun v => if String.eqb (User.id v) (User.id u)
                                       then Prisma.user_set_picture (dicebear phoneNumber)
                                                                    (clock w) v
                                       else v) (users (db w))))).
    { intros d Hd. unfold Prisma.user_update. rewrite Hd.
      destruct (find_by_id_In User.id _ _ Hu') as [y Hy]. rewrite Hy. reflexivity. }
    destruct (User.profilePictureUrl u) as [url|] eqn:Hpic;
      [destruct (String.eqb url "") eqn:Hurl|]; cbn [falsy]; try rewrite Hurl;
      exec_step; try (rewrite Hupdate by reflexivity; exec_step);
      eexists _, _; (split; [reflexivity|]); cbn; repeat (split; try reflexivity).
  - eexists _, _. split; [reflexivity|]. cbn. repeat (split; try reflexivity).
Qed.

(** A code is verified for a phone number nobody has registered. *)
Lemma verifyOtp_user_side_witness :
  exists x,
    Prisma.otp_findFirst (verify_where "+15550001" "550000" (clock Sample.two_otps))
                         (db Sample.two_otps) = Some x /\
    exists res w',
      run Sample.oracle (verifyOtp "+15550001" "550000") Sample.two_otps = (inr res, w') /\
      res = NewUser "OTP verified. Please complete registration." "+15550001" /\
      users (db w') = users (db Sample.two_otps).
Proof.
  destruct (Prisma.otp_findFirst (verify_where "+15550001" "550000" (clock Sample.two_otps))
                                 (db Sample.two_otps)) as [x|] eqn:Hfind;
    [|vm_compute in Hfind; discriminate Hfind].
  exists x. split; [reflexivity|].
  destruct (verifyOtp_user_side Sample.oracle Sample.two_otps "+15550001" "550000" x Hfind)
    as (res & w' & Hrun & _ & _ & _ & Huser).
  exists res, w'. split; [exact Hrun|].
  change (Prisma.user_findUnique (ByPhoneNumber "+15550001") (db Sample.two_otps))
    with (@None User.t) in Huser.
  exact Huser.
Defined.

(** ** Follow and unfollow: the refusals *)

(** X4: [followUser] refuses to follow oneself without touching the database
    at all; it refuses an unknown user with [NotFoundException] and a pair
    that already follows with [ConflictException]; [unfollowUser] refuses a
    pair that does not follow with [NotFoundException].  No refusal writes
    anything. *)
Theorem follow_refusals (o : Oracle) (w : World) (A B : string) :
  run o (followUser A A) w
  = (inl (Exn BadRequestException "You cannot follow yourself"), w) /\
  (A <> B ->
   Prisma.user_findUnique (ById B) (db w) = None ->
   exists w', run o (followUser A B) w = (inl (Exn NotFoundException "User not found"), w') /\
              db w' = db w) /\
  (A <> B ->
   Prisma.user_findUnique (ById B) (db w) <> None ->
   Prisma.follow_findUnique A B (db w) <> None ->
   exists w', run o (followUser A B) w
              = (inl (Exn ConflictException "Already following this user"), w') /\
              db w' = db w) /\
  (Prisma.follow_findUnique A B (db w) = None ->
   exists w', run o (unfollowUser A B) w
              = (inl (Exn NotFoundException "You are not following this user"), w') /\
              db w' = db w).
Proof.
  split; [|split; [|split]].
  - unfold followUser. now rewrite String.eqb_refl.
  - intros Hne Hnone. unfold followUser.
    destruct (String.eqb A B) eqn:E; [apply String.eqb_eq in E; contradiction|].
    exec_step. rewrite Hnone. eexists. split; reflexivity.
  - intros Hne Hsome Hfollows. unfold followUser.
    destruct (String.eqb A B) eqn:E; [apply String.eqb_eq in E; contradiction|].
    exec_step. destruct (Prisma.user_findUnique (ById B) (db w)); [|contradiction].
    exec_step. destruct (Prisma.follow_findUnique A B (db w)); [|contradiction].
    eexists. split; reflexivity.
  - intros Hnone. unfold unfollowUser. exec_step. rewrite Hnone.
    eexists. split; reflexivity.
Qed.

(** ** Likes and shares *)

Lemma aura_update_exact now id data d a :
  Prisma.aura_findUnique id d = Some a ->
  Prisma.aura_update now id data d
  = inr (Prisma.aura_apply data now a,
         set_auras d (map (fun b => if String.eqb (Aura.id b) id
                                    then Prisma.aura_apply data now b else b) (auras d))).
Proof.
  unfold Prisma.aura_findUnique, Prisma.aura_update. intros ->. reflexivity.
Qed.

Lemma aura_found_after_update now id data d a :
  Prisma.aura_findUnique id d = Some a ->
  Prisma.aura_findUnique id
    (set_auras d (map (fun b => if String.eqb (Aura.id b) id
                                then Prisma.aura_apply data now b else b) (auras d)))
  = Some (Prisma.aura_apply data now a).
Proof.
  unfold Prisma.aura_findUnique. intros Hfind. cbn [auras set_auras].
  rewrite (find_map_update Aura.id) by apply aura_apply_id. now rewrite Hfind.
Qed.

(** X5: on an aura whose count is not negative, [likeAura] followed by
    [unlikeAura] brings the likes back to what they were and leaves the shares
    alone. *)
Theorem like_then_unlike_restores (o : Oracle) (w : World)
        (userId auraId : string) (a : Aura.t) :
  Prisma.aura_findUnique auraId (db w) = Some a ->
  0 <= Aura.likes a ->
  exists w1 w2 a2,
    run o (likeAura userId auraId) w
      = (inr (LikeResult.mk "Aura liked successfully" true (Aura.likes a + 1)), w1) /\
    run o (unlikeAura userId auraId) w1
      = (inr (LikeResult.mk "Aura unliked successfully" false (Aura.likes a)), w2) /\
    Prisma.aura_findUnique auraId (db w2) = Some a2 /\
    Aura.likes a2 = Aura.likes a /\
    Aura.shares a2 = Aura.shares a /\
    Aura.imageId a2 = Aura.imageId a.
Proof.
  intros Hfind Hpos.
  pose proof (aura_found_after_update (clock w) auraId (LikesIncrement 1) _ _ Hfind) as Hf1.
  set (d1 := set_auras (db w) _) in Hf1.
  assert (E : (0 <? Aura.likes (Prisma.aura_apply (LikesIncrement 1) (clock w) a)) = true).
  { cbn. apply Z.ltb_lt. lia. }
  pose proof (aura_found_after_update (clock w) auraId (LikesDecrement 1) _ _ Hf1) as Hf2.
  set (d2 := set_auras d1 _) in Hf2.
  assert (Hrun1 : run o (likeAura userId auraId) w
                  = (inr (LikeResult.mk "Aura liked successfully" true (Aura.likes a + 1)),
                     mkWorld d1 (clock w) (S (S (tick w)))
                       ((log w ++ [ev (AuraFindUnique auraId)]) ++
                        [ev (AuraUpdate auraId (LikesIncrement 1))]))).
  { unfold likeAura. exec_step. rewrite Hfind. exec_step.
    rewrite (aura_update_exact _ _ _ _ _ Hfind). exec_step. reflexivity. }
  rewrite Hrun1.
  exists (mkWorld d1 (clock w) (S (S (tick w)))
            ((log w ++ [ev (AuraFindUnique auraId)]) ++
             [ev (AuraUpdate auraId (LikesIncrement 1))])).
  unfold unlikeAura. exec_step. rewrite Hf1. exec_step. rewrite E.
  rewrite (aura_update_exact _ _ _ _ _ Hf1). exec_step. fold d2.
  eexists _, _. split; [reflexivity|]. split.
  - cbn [Aura.likes Prisma.aura_apply Prisma.aura_with].
    replace (Aura.likes a + 1 - 1) with (Aura.likes a) by lia. reflexivity.
  - cbn [db]. split; [exact Hf2|]. cbn. repeat split. lia.
Qed.

(** The uploaded aura is liked, then unliked. *)
Lemma like_then_unlike_restores_witness :
  exists a,
    Prisma.aura_findUnique "c6" (db Sample.uploaded) = Some a /\
    0 <= Aura.likes a /\
    exists w1 w2 a2,
      run Sample.oracle (likeAura "c1" "c6") Sample.uploaded
        = (inr (LikeResult.mk "Aura liked successfully" true (Aura.likes a + 1)), w1) /\
      run Sample.oracle (unlikeAura "c1" "c6") w1
        = (inr (LikeResult.mk "Aura unliked successfully" false (Aura.likes a)), w2) /\
      Prisma.aura_findUnique "c6" (db w2) = Some a2 /\
      Aura.likes a2 = Aura.likes a.
Proof.
  destruct (Prisma.aura_findUnique "c6" (db Sample.uploaded)) as [a|] eqn:Hfind;
    [|vm_compute in Hfind; discriminate Hfind].
  assert (Hlikes : Aura.likes a = 0).
  { vm_compute in Hfind. injection Hfind as <-. reflexivity. }
  exists a. split; [reflexivity|]. split; [lia|].
  destruct (like_then_unlike_restores Sample.oracle Sample.uploaded "c1" "c6" a Hfind)
    as (w1 & w2 & a2 & H1 & H2 & H3 & H4 & _); [lia|].
  exists w1, w2, a2. auto.
Defined.

(** X6: on an aura that does not exist, [likeAura], [unlikeAura] and
    [shareAura] throw [NotFoundException] after their look-up and write
    nothing. *)
Theorem missing_aura_is_not_found (o : Oracle) (w : World) (userId auraId : string) :
  Prisma.aura_findUnique auraId (db w) = None ->
  let w' := mkWorld (db w) (clock w) (S (tick w)) (log w ++ [ev (AuraFindUnique auraId)]) in
  run o (likeAura userId auraId) w = (inl (Exn NotFoundException "Aura not found"), w') /\
  run o (unlikeAura userId auraId) w = (inl (Exn NotFoundException "Aura not found"), w') /\
  run o (shareAura userId auraId) w = (inl (Exn NotFoundException "Aura not found"), w').
Proof.
  intros Hnone. cbv zeta. unfold likeAura, unlikeAura, shareAura.
  repeat split; exec_step; rewrite Hnone; reflexivity.
Qed.

(** Nobody has uploaded anything yet. *)
Lemma missing_aura_is_not_found_witness :
  exists w',
    run Sample.oracle (likeAura "c1" "c6") Sample.two_users
    = (inl (Exn NotFoundException "Aura not found"), w') /\
    db w' = db Sample.two_users.
Proof.
  eexists. split.
  - apply (missing_aura_is_not_found Sample.oracle Sample.two_users "c1" "c6").
    vm_compute. reflexivity.
  - reflexivity.
Defined.

(** X7: [shareAura] adds exactly 1 to the shares of the aura and returns the
    new count; its likes, and every other aura, stay as they are. *)
Theorem shareAura_counts_one (o : Oracle) (w : World) (userId auraId : string) (a : Aura.t) :
  Prisma.aura_findUnique auraId (db w) = Some a ->
  exists w' a',
    run o (shareAura userId auraId) w
      = (inr (ShareResult.mk "Aura shared successfully" (Aura.shares a + 1)), w') /\
    Prisma.aura_findUnique auraId (db w') = Some a' /\
    Aura.shares a' = Aura.shares a + 1 /\
    Aura.likes a' = Aura.likes a /\
    (forall b, In b (auras (db w)) -> Aura.id b <> auraId -> In b (auras (db w'))) /\
    length (auras (db w')) = length (auras (db w)) /\
    users (db w') = users (db w) /\ images (db w') = images (db w) /\
    otps (db w') = otps (db w) /\ follows (db w') = follows (db w).
Proof.
  intros Hfind. unfold shareAura. exec_step. rewrite Hfind. exec_step.
  rewrite (aura_update_exact _ _ _ _ _ Hfind). exec_step.
  eexists _, _. split; [reflexivity|]. cbn [db].
  split; [exact (aura_found_after_update _ _ _ _ _ Hfind)|].
  cbn. repeat split.
  - intros b Hin Hid. apply in_map_iff. exists b. split; [|assumption].
    apply String.eqb_neq in Hid. now rewrite Hid.
  - now rewrite length_map.
Qed.

(** The uploaded aura is shared once. *)
Lemma shareAura_counts_one_witness :
  exists a,
    Prisma.aura_findUnique "c6" (db Sample.uploaded) = Some a /\
    exists w' a',
      run Sample.oracle (shareAura "c1" "c6") Sample.uploaded
        = (inr (ShareResult.mk "Aura shared successfully" (Aura.shares a + 1)), w') /\
      Prisma.aura_findUnique "c6" (db w') = Some a' /\
      Aura.shares a' = Aura.shares a + 1.
Proof.
  destruct (Prisma.aura_findUnique "c6" (db Sample.uploaded)) as [a|] eqn:Hfind;
    [|vm_compute in Hfind; discriminate Hfind].
  exists a. split; [reflexivity|].
  destruct (shareAura_counts_one Sample.oracle Sample.uploaded "c1" "c6" a Hfind)
    as (w' & a' & H1 & H2 & H3 & _).
  exists w', a'. auto.
Defined.

(** ** Deleting an image *)

(** X8: [deleteImage] only deletes an image of the user who asks: when no
    image with that id belongs to the user (there is none, or it is somebody
    else's), it throws [NotFoundException] after the look-up; nothing is sent
    to Cloudinary and nothing is deleted. *)
Theorem deleteImage_needs_the_owner (o : Oracle) (w : World) (imageId userId : string) :
  (forall i, In i (images (db w)) -> Image.id i = imageId -> Image.userId i <> userId) ->
  run o (deleteImage imageId userId) w
  = (inl (Exn NotFoundException "Image not found"),
     mkWorld (db w) (clock w) (S (tick w)) (log w ++ [ev (ImageFindFirst imageId userId)])).
Proof.
  intros Hnot. unfold deleteImage. exec_step.
  destruct (Prisma.image_findFirst imageId userId (db w)) as [i|] eqn:Hfind; [|reflexivity].
  exfalso. unfold Prisma.image_findFirst in Hfind. apply find_some in Hfind as [Hin Hm].
  apply andb_true_iff in Hm as [Hid Hu]. apply String.eqb_eq in Hid, Hu.
  now apply (Hnot i Hin Hid).
Qed.

(** Alice asks to delete the image of the test user. *)
Lemma deleteImage_needs_the_owner_witness :
  exists w',
    run Sample.oracle (deleteImage "c5" "c1") Sample.uploaded
    = (inl (Exn NotFoundException "Image not found"), w') /\
    db w' = db Sample.uploaded.
Proof.
  eexists. split.
  - apply (deleteImage_needs_the_owner Sample.oracle Sample.uploaded "c5" "c1").
    change (images (db Sample.uploaded))
      with [Image.mk "c5"
              "https://res.cloudinary.com/demo/aura-api/users/test-user-123/1700000000000_me.png"
              None "aura-api/users/test-user-123/1700000000000_me.png" "me.png" 4 "image/png"
              (Some 640) (Some 480) true "completed" None None None
              1700000000000 1700000000000 "test-user-123"].
    intros i [<-|[]] _. discriminate.
  - reflexivity.
Defined.

(** X9: for the owner, [deleteImage] removes the image and, with it, its aura;
    every other row of every table stays.  It does so whether or not
    Cloudinary accepts the deletion of the file. *)
Theorem deleteImage_removes_image_and_aura
        (o : Oracle) (w : World) (imageId userId : string) (i : Image.t) :
  Prisma.image_findFirst imageId userId (db w) = Some i ->
  exists w',
    run o (deleteImage imageId userId) w = (inr tt, w') /\
    log w' = log w ++ [ev (ImageFindFirst imageId userId);
                       ev (CloudinaryDestroy (Image.publicId i));
                       ev (ImageDelete imageId)] /\
    db w' = mkDB (users (db w)) (otps (db w))
                 (List.filter (fun j => negb (String.eqb (Image.id j) imageId)) (images (db w)))
                 (List.filter (fun a => negb (String.eqb (Aura.imageId a) imageId))
                              (auras (db w)))
                 (follows (db w)).
Proof.
  intros Hfind. unfold deleteImage, cloudinary_deleteImage. exec_step. rewrite Hfind.
  assert (Hdel : exists j, find (fun j => String.eqb (Image.id j) imageId) (images (db w))
                           = Some j).
  { unfold Prisma.image_findFirst in Hfind. apply find_some in Hfind as [Hin Hm].
    apply andb_true_iff in Hm as [Hid _].
    destruct (find _ (images (db w))) as [j|] eqn:E; [eauto|].
    pose proof (find_none _ _ E i Hin) as H. simpl in H. congruence. }
  destruct Hdel as [j Hj].
  exec_step.
  destruct (cloudinary_destroy o _ _) as [e|[]]; exec_step;
    unfold Prisma.image_delete; cbn [images]; rewrite Hj; exec_step;
    eexists; (split; [reflexivity|]); cbn [log db]; rewrite <- !app_assoc;
    split; reflexivity.
Qed.

(** The test user deletes the uploaded image. *)
Lemma deleteImage_removes_image_and_aura_witness :
  exists w',
    run Sample.oracle (deleteImage "c5" "test-user-123") Sample.uploaded = (inr tt, w') /\
    images (db w') = [] /\ auras (db w') = [].
Proof.
  destruct (Prisma.image_findFirst "c5" "test-user-123" (db Sample.uploaded)) as [i|] eqn:Hfind;
    [|vm_compute in Hfind; discriminate Hfind].
  destruct (deleteImage_removes_image_and_aura Sample.oracle Sample.uploaded
              "c5" "test-user-123" i Hfind) as (w' & Hrun & _ & Hdb).
  exists w'. split; [exact Hrun|]. rewrite Hdb. split; vm_compute; reflexivity.
Defined.

(** ** Foreign keys *)

Lemma user_exists_In d id :
  Prisma.user_exists d id = true <-> In id (map User.id (users d)).
Proof. unfold Prisma.user_exists. apply existsb_In_map. Qed.

Lemma image_exists_In d id :
  Prisma.image_exists d id = true <-> In id (map Image.id (images d)).
Proof. unfold Prisma.image_exists. apply existsb_In_map. Qed.

Lemma referential_empty : referential empty_db.
Proof. constructor; simpl; intros; contradiction. Qed.

(** The foreign keys survive a change of the tables that keeps the
    identifiers of the users and of the images, and whose rows point where
    rows pointed before. *)
Lemma referential_preserved (d d' : DB) :
  referential d ->
  (forall id, In id (map User.id (users d)) -> In id (map User.id (users d'))) ->
  (forall i, In i (images d') ->
             In i (images d) \/ Prisma.user_exists d (Image.userId i) = true) ->
  (forall a, In a (auras d') ->
             In (Aura.imageId a) (map Image.id (images d')) /\
             ((exists a0, In a0 (auras d) /\ Aura.userId a0 = Aura.userId a) \/
              Prisma.user_exists d (Aura.userId a) = true)) ->
  (forall f, In f (follows d') ->
             In f (follows d) \/
             Prisma.user_exists d (Follow.followerId f) = true /\
             Prisma.user_exists d (Follow.followingId f) = true) ->
  (forall x u, In x (otps d') -> OTP.userId x = Some u ->
               exists x0, In x0 (otps d) /\ OTP.userId x0 = Some u) ->
  referential d'.
Proof.
  intros [Hi Hai Hau Hf Ho] Hu Hi' Ha' Hf' Ho'.
  assert (Hmono : forall id, Prisma.user_exists d id = true ->
                             Prisma.user_exists d' id = true).
  { intros id H. apply user_exists_In. apply Hu. now apply user_exists_In. }
  constructor.
  - intros i Hin. apply Hmono. destruct (Hi' i Hin) as [H|H]; auto.
  - intros a Hin. apply image_exists_In. now apply Ha'.
  - intros a Hin. apply Hmono. destruct (Ha' a Hin) as [_ [(a0 & Hin0 & <-)|H]]; auto.
  - intros f Hin. destruct (Hf' f Hin) as [H|[H1 H2]]; [|auto].
    destruct (Hf f H). auto.
  - intros x u Hin Hx. apply Hmono. destruct (Ho' x u Hin Hx) as (x0 & Hin0 & Hx0). eauto.
Qed.

Lemma In_map_update {A} (c : A -> bool) (f : A -> A) (l : list A) (y : A) :
  In y (map (fun x => if c x then f x else x) l) ->
  In y l \/ exists x, In x l /\ y = f x.
Proof.
  intros Hin. apply in_map_iff in Hin as (x & <- & Hin).
  destruct (c x); eauto.
Qed.

Ltac same_tables :=
  cbn [users otps images auras follows set_users set_otps set_images set_auras set_follows];
  auto.

Lemma perform_referential o {R} (op : Op R) w :
  referential (db w) -> referential (snd (fst (perform o op w))).
Proof.
  intros Hw.
  destruct op; cbn [perform read external]; try exact Hw;
    unfold write;
    try match goal with
        | |- context [match ?r with inl _ => _ | inr _ => _ end] =>
            destruct r as [e|[row d']] eqn:Hop; cbn [fst snd]; try exact Hw
        end.
  - (* OtpCreate *)
    revert Hop. unfold Prisma.otp_create. pass_checks.
    apply (referential_preserved (db w)); same_tables.
    + intros a Hin. split; [apply image_exists_In; now apply Hw|]. left. eauto.
    + intros x u Hin Hx. apply in_app_iff in Hin as [Hin|[<-|[]]]; [eauto|discriminate].
  - (* OtpUpdate *)
    revert Hop. unfold Prisma.otp_update. pass_checks.
    apply (referential_preserved (db w)); same_tables.
    + intros a Hin. split; [apply image_exists_In; now apply Hw|]. left. eauto.
    + intros x u Hin Hx. apply In_map_update in Hin as [Hin|(x0 & Hin & ->)]; eauto.
  - (* OtpDeleteMany *)
    unfold Prisma.otp_deleteMany. cbn [fst snd].
    apply (referential_preserved (db w)); same_tables.
    + intros a Hin. split; [apply image_exists_In; now apply Hw|]. left. eauto.
    + intros x u Hin Hx. apply filter_In in Hin as [Hin _]. eauto.
  - (* UserCreate *)
    revert Hop. unfold Prisma.user_create. cbv zeta. pass_checks.
    apply (referential_preserved (db w)); same_tables.
    + intros k Hin. rewrite map_app, in_app_iff. now left.
    + intros a Hin. split; [apply image_exists_In; now apply Hw|]. left. eauto.
    + eauto.
  - (* UserUpdate *)
    revert Hop. unfold Prisma.user_update. pass_checks.
    apply (referential_preserved (db w)); same_tables.
    + intros k Hin. now rewrite (map_map_update User.id).
    + intros a Hin. split; [apply image_exists_In; now apply Hw|]. left. eauto.
    + eauto.
  - (* FollowCreate *)
    revert Hop. unfold Prisma.follow_create. pass_checks.
    apply (referential_preserved (db w)); same_tables.
    + intros a Hin. split; [apply image_exists_In; now apply Hw|]. left. eauto.
    + intros f Hin. apply in_app_iff in Hin as [Hin|[<-|[]]]; [now left|right].
      cbn [Follow.followerId Follow.followingId].
      split; [destruct (Prisma.user_exists (db w) followerId)
             |destruct (Prisma.user_exists (db w) followingId)]; auto; discriminate.
    + eauto.
  - (* FollowDelete *)
    revert Hop. unfold Prisma.follow_delete. pass_checks.
    apply (referential_preserved (db w)); same_tables.
    + intros a Hin. split; [apply image_exists_In; now apply Hw|]. left. eauto.
    + intros f Hin. apply filter_In in Hin as [Hin _]. now left.
    + eauto.
  - (* AuraUpdate *)
    revert Hop. unfold Prisma.aura_update. pass_checks.
    apply (referential_preserved (db w)); same_tables.
    + intros a Hin. apply In_map_update in Hin as [Hin|(a0 & Hin & ->)].
      * split; [apply image_exists_In; now apply Hw|]. left. eauto.
      * split; [|left; exists a0; split; [assumption|now destruct data]].
        replace (Aura.imageId (Prisma.aura_apply data (clock w) a0))
          with (Aura.imageId a0) by now destruct data.
        apply image_exists_In. now apply Hw.
    + eauto.
  - (* AuraCreate *)
    revert Hop. unfold Prisma.aura_create. pass_checks.
    apply (referential_preserved (db w)); same_tables.
    + intros a Hin. apply in_app_iff in Hin as [Hin|[<-|[]]].
      * split; [apply image_exists_In; now apply Hw|]. left. eauto.
      * cbn [Aura.imageId Aura.userId]. split.
        -- apply image_exists_In.
           destruct (Prisma.image_exists (db w) (AuraCreateInput.imageId data));
             [reflexivity|discriminate].
        -- right. destruct (Prisma.user_exists (db w) (AuraCreateInput.userId data));
             [reflexivity|discriminate].
    + eauto.
  - (* ImageCreate *)
    revert Hop. unfold Prisma.image_create. pass_checks.
    apply (referential_preserved (db w)); same_tables.
    + intros i Hin. apply in_app_iff in Hin as [Hin|[<-|[]]]; [now left|right].
      cbn [Image.userId].
      destruct (Prisma.user_exists (db w) (ImageCreateInput.userId data));
        [reflexivity|discriminate].
    + intros a Hin. split; [|left; eauto].
      rewrite map_app, in_app_iff. left. apply image_exists_In. now apply Hw.
    + eauto.
  - (* ImageDelete: the aura of the image goes with it *)
    revert Hop. unfold Prisma.image_delete. pass_checks.
    apply (referential_preserved (db w)); same_tables.
    + intros i Hin. apply filter_In in Hin as [Hin _]. now left.
    + intros a Hin. apply filter_In in Hin as [Hin Hne]. split; [|left; eauto].
      pose proof (aura_image _ Hw a Hin) as Hex. apply image_exists_In in Hex.
      apply in_map_iff in Hex as (i & Hid & Hi). apply in_map_iff. exists i.
      split; [assumption|]. apply filter_In. split; [assumption|].
      now rewrite Hid.
    + eauto.
Qed.

Lemma reachable_referential o w : reachable o w -> referential (db w).
Proof.
  induction 1 as [now|A p w _ IH|dt w _ IH].
  - apply referential_empty.
  - destruct p as [a|e|R op k]; simpl; try exact IH.
    pose proof (perform_referential o op w IH) as H. rewrite <- db_exec in H.
    destruct (exec o op w) as [r w']. exact H.
  - exact IH.
Qed.

(** X10: in every state the service can reach, whatever requests overlap, no
    row is an orphan: each image belongs to a user, each aura to an image and
    a user, each follow row joins two users.  In particular the aura of an
    image is deleted together with the image, and a handler run from such a
    state ends in such a state. *)
Theorem no_row_is_orphaned (o : Oracle) (w : World) :
  reachable o w ->
  referential (db w) /\
  (forall a, In a (auras (db w)) ->
             exists i u, In i (images (db w)) /\ Image.id i = Aura.imageId a /\
                         In u (users (db w)) /\ User.id u = Aura.userId a) /\
  (forall i, In i (images (db w)) ->
             exists u, In u (users (db w)) /\ User.id u = Image.userId i) /\
  (forall f, In f (follows (db w)) ->
             exists u v, In u (users (db w)) /\ User.id u = Follow.followerId f /\
                         In v (users (db w)) /\ User.id v = Follow.followingId f) /\
  (forall A (p : prog A), referential (db (snd (run o p w)))).
Proof.
  intros Hreach. pose proof (reachable_referential o w Hreach) as Href.
  assert (Huser : forall id, Prisma.user_exists (db w) id = true ->
                             exists u, In u (users (db w)) /\ User.id u = id).
  { intros id H. apply user_exists_In, in_map_iff in H as (u & Hid & Hin). eauto. }
  split; [exact Href|]. split; [|split; [|split]].
  - intros a Hin.
    pose proof (aura_image _ Href a Hin) as Hi. apply image_exists_In, in_map_iff in Hi
      as (i & Hid & Hi).
    destruct (Huser _ (aura_user _ Href a Hin)) as (u & Hu & Huid).
    exists i, u. auto.
  - intros i Hin. apply Huser. now apply Href.
  - intros f Hin. destruct (follow_users _ Href f Hin) as [H1 H2].
    destruct (Huser _ H1) as (u & Hu & Huid). destruct (Huser _ H2) as (v & Hv & Hvid).
    exists u, v. auto.
  - intros A p. apply reachable_referential with (o := o). now apply run_reachable.
Qed.

(** After the upload of the sample deployment. *)
Lemma no_row_is_orphaned_witness :
  referential (db Sample.uploaded).
Proof.
  apply (no_row_is_orphaned Sample.oracle Sample.uploaded).
  unfold Sample.uploaded. apply run_reachable, reachable_start.
Defined.

(** ** Uploading: validation and failures after the analysis *)

Lemma array_includes_In xs x : array_includes xs x = true <-> In x xs.
Proof.
  unfold array_includes. rewrite existsb_exists. split.
  - intros (y & Hin & Heq). apply String.eqb_eq in Heq. now subst.
  - intros Hin. exists x. split; [assumption|apply String.eqb_refl].
Qed.

(** X11: [uploadImage] accepts a file exactly when there is one, its MIME
    type is in the configured list and its size is at most the configured
    maximum (a file of exactly the maximum size passes).  Any other file is
    refused with a [BadRequestException] before anything is done: no call to
    Gemini or Cloudinary, no access to the database. *)
Theorem uploadImage_validates_before_anything
        (cfg : Config) (JSON_parse : string -> exn + GeminiJson)
        (o : Oracle) (w : World) (file : option File) (userId : string) :
  (validate cfg file = None <->
   exists f, file = Some f /\
             In (mimetype f) (upload_allowedMimeTypes cfg) /\
             size f <= upload_maxFileSize cfg) /\
  (forall e, validate cfg file = Some e ->
             exn_class e = BadRequestException /\
             run o (uploadImage cfg JSON_parse file userId) w = (inl e, w)).
Proof.
  split.
  - unfold validate. destruct file as [f|].
    + destruct (array_includes (upload_allowedMimeTypes cfg) (mimetype f)) eqn:Emime;
        cbn [negb].
      * apply array_includes_In in Emime.
        destruct (Z.ltb_spec (upload_maxFileSize cfg) (size f)).
        -- split; [discriminate|]. intros (f' & [= <-] & _ & Hsize). lia.
        -- split; [|reflexivity]. intros _. exists f. repeat split; [assumption|lia].
      * split; [discriminate|]. intros (f' & [= <-] & Hin & _).
        apply array_includes_In in Hin. congruence.
    + split; [discriminate|]. intros (f & Hf & _). discriminate.
  - intros e He. split.
    + unfold validate in He. destruct file as [f|]; [|now injection He as <-].
      destruct (negb _); [now injection He as <-|].
      destruct (_ <? _); [now injection He as <-|discriminate].
    + unfold uploadImage. rewrite He. reflexivity.
Qed.

(** When the analysis returns, it has made its one call and changed nothing
    else. *)
Lemma run_generateAuraFromBuffer_returns cfg JSON_parse o imageBuffer mimeType w ai :
  fst (run o (generateAuraFromBuffer cfg JSON_parse imageBuffer mimeType) w) = inr ai ->
  run o (generateAuraFromBuffer cfg JSON_parse imageBuffer mimeType) w
  = (inr ai, mkWorld (db w) (clock w) (S (tick w))
                     (log w ++ [ev (GeminiGenerateContent (base64 imageBuffer) mimeType)])).
Proof.
  unfold generateAuraFromBuffer, parse_response.
  destruct (genAI cfg); exec_step; [|discriminate].
  destruct (gemini_generate o _ _ _) as [e|text]; exec_step.
  - destruct (is_BadRequestException e); exec_step; discriminate.
  - destruct (JSON_parse text) as [e|parsed]; exec_step; [discriminate|].
    destruct (falsy (j_title parsed) || falsy (j_description parsed)
              || falsy (j_mood parsed)); exec_step; [discriminate|].
    now intros [= <-].
Qed.

Lemma upload_message_is_not_ai :
  (includes "Failed to upload image" "Gemini" || includes "Failed to upload image" "AI")
  = false.
Proof. vm_compute. reflexivity. Qed.

(** X12: when the analysis succeeds and Cloudinary refuses the upload,
    [uploadImage] throws 'Failed to process image: Failed to upload image'
    whatever Cloudinary's reason was, and the database is unchanged: no image
    row and no aura row are written. *)
Theorem uploadImage_stores_nothing_when_cloudinary_fails
        (cfg : Config) (JSON_parse : string -> exn + GeminiJson)
        (o : Oracle) (w : World) (file : File) (userId : string) (ai : AiAura.t) (e : exn) :
  let data := ("data:image/jpeg;base64," ++ base64 (buffer file))%string in
  let publicId := (cloudinary_folder cfg ++ "/users/" ++ userId ++ "/" ++
                   toString (clock w) ++ "_" ++ clean_filename (originalname file))%string in
  validate cfg (Some file) = None ->
  fst (run o (generateAuraFromBuffer cfg JSON_parse (buffer file) (mimetype file)) w)
  = inr ai ->
  cloudinary_upload o (S (S (tick w))) data publicId = inl e ->
  exists w',
    run o (uploadImage cfg JSON_parse (Some file) userId) w
    = (inl (Exn BadRequestException "Failed to process image: Failed to upload image"), w') /\
    db w' = db w /\
    log w' = log w ++ [ev (GeminiGenerateContent (base64 (buffer file)) (mimetype file));
                       ev (CloudinaryUpload data publicId)].
Proof.
  intros data publicId Hvalid Hgemini Hcloud. unfold uploadImage. rewrite Hvalid.
  rewrite run_try_catch. unfold upload_pipeline. rewrite run_mbind.
  rewrite (run_generateAuraFromBuffer_returns _ _ _ _ _ _ _ Hgemini).
  rewrite run_mbind. unfold cloudinary_uploadImage. rewrite run_try_catch.
  exec_step. fold data. fold publicId. rewrite Hcloud. exec_step.
  cbn [exn_message Exn]. rewrite upload_message_is_not_ai. exec_step.
  eexists. split; [reflexivity|]. cbn [db log]. rewrite <- app_assoc.
  split; reflexivity.
Qed.

(** The sample upload while Cloudinary is down. *)
Lemma uploadImage_stores_nothing_when_cloudinary_fails_witness :
  exists w',
    run Outage.cloudinary (uploadImage Sample.cfg Sample.JSON_parse (Some Sample.file) "c1")
        Sample.two_users
    = (inl (Exn BadRequestException "Failed to process image: Failed to upload image"), w') /\
    db w' = db Sample.two_users.
Proof.
  destruct (uploadImage_stores_nothing_when_cloudinary_fails
              Sample.cfg Sample.JSON_parse Outage.cloudinary Sample.two_users Sample.file "c1"
              (AiAura.mk "Snack Goblin Energy" "Crumbs everywhere. No regrets. Ten out of ten."
                         "Cheeky" ["snacks"; "chaos"] (85 # 100))
              (Exn PlainError "connect ECONNREFUSED"))
    as (w' & Hrun & Hdb & _).
  - vm_compute. reflexivity.
  - vm_compute. reflexivity.
  - reflexivity.
  - exists w'. split; assumption.
Defined.

(** X13: [uploadImage] for a user that does not exist analyses the file and
    uploads it to Cloudinary before the database refuses the image row; it
    then throws a [BadRequestException] that carries the message of the
    database's error, the database is unchanged, and the uploaded file is not
    removed from Cloudinary again. *)
Theorem uploadImage_unknown_user_leaves_the_file
        (cfg : Config) (JSON_parse : string -> exn + GeminiJson)
        (o : Oracle) (w : World) (file : File) (userId : string)
        (ai : AiAura.t) (up : UploadApiResponse) :
  let data := ("data:image/jpeg;base64," ++ base64 (buffer file))%string in
  let publicId := (cloudinary_folder cfg ++ "/users/" ++ userId ++ "/" ++
                   toString (clock w) ++ "_" ++ clean_filename (originalname file))%string in
  validate cfg (Some file) = None ->
  Prisma.user_exists (db w) userId = false ->
  fst (run o (generateAuraFromBuffer cfg JSON_parse (buffer file) (mimetype file)) w)
  = inr ai ->
  cloudinary_upload o (S (S (tick w))) data publicId = inr up ->
  exists w' row error,
    Prisma.image_create (cuid o (S (S (S (tick w))))) (clock w) row (db w) = inl error /\
    ImageCreateInput.publicId row = public_id up /\
    ImageCreateInput.userId row = userId /\
    run o (uploadImage cfg JSON_parse (Some file) userId) w
    = (inl (Exn BadRequestException
                ((if includes (exn_message error) "Gemini" || includes (exn_message error) "AI"
                  then "AI aura analysis failed: " else "Failed to process image: ")
                 ++ exn_message error)), w') /\
    db w' = db w /\
    log w' = log w ++ [ev (GeminiGenerateContent (base64 (buffer file)) (mimetype file));
                       ev (CloudinaryUpload data publicId);
                       ev (ImageCreate row)].
Proof.
  intros data publicId Hvalid Huser Hgemini Hcloud. unfold uploadImage. rewrite Hvalid.
  rewrite run_try_catch. unfold upload_pipeline. rewrite run_mbind.
  rewrite (run_generateAuraFromBuffer_returns _ _ _ _ _ _ _ Hgemini).
  rewrite run_mbind. unfold cloudinary_uploadImage. rewrite run_try_catch.
  exec_step. fold data. fold publicId. rewrite Hcloud. exec_step.
  match goal with
  | |- context [Prisma.image_create ?id ?now ?row ?d] =>
      assert (Hrefused : exists error, Prisma.image_create id now row d = inl error);
      [|destruct Hrefused as [error Hrefused]; rewrite Hrefused]
  end.
  - unfold Prisma.image_create. destruct (Prisma.image_exists _ _); [eauto|].
    cbn [ImageCreateInput.userId]. rewrite Huser. cbn [negb]. eauto.
  - exec_step. eexists _, _, error. split; [exact Hrefused|].
    split; [reflexivity|]. split; [reflexivity|].
    assert (Hrun : forall w1,
               @run o UploadedImage.t
                    (if includes (exn_message error) "Gemini"
                        || includes (exn_message error) "AI"
                      then Throw (Exn BadRequestException
                                      ("AI aura analysis failed: " ++ exn_message error))
                      else Throw (Exn BadRequestException
                                      ("Failed to process image: " ++ exn_message error))) w1
               = (inl (Exn BadRequestException
                           ((if includes (exn_message error) "Gemini"
                                || includes (exn_message error) "AI"
                             then "AI aura analysis failed: "
                             else "Failed to process image: ") ++ exn_message error)),
                  w1 : World)).
    { intros w1. destruct (includes _ _ || includes _ _); reflexivity. }
    rewrite Hrun. split; [reflexivity|]. cbn [db log]. rewrite <- !app_assoc.
    split; reflexivity.
Qed.

(** Somebody who never registered uploads the sample file. *)
Lemma uploadImage_unknown_user_leaves_the_file_witness :
  exists w' e,
    run Sample.oracle (uploadImage Sample.cfg Sample.JSON_parse (Some Sample.file) "nobody")
        Sample.start
    = (inl e, w') /\
    exn_class e = BadRequestException /\
    db w' = db Sample.start /\
    existsb (fun x => match projT2 x with CloudinaryUpload _ _ => true | _ => false end)
            (log w') = true /\
    existsb (fun x => match projT2 x with CloudinaryDestroy _ => true | _ => false end)
            (log w') = false.
Proof.
  destruct (uploadImage_unknown_user_leaves_the_file
              Sample.cfg Sample.JSON_parse Sample.oracle Sample.start Sample.file "nobody"
              (AiAura.mk "Snack Goblin Energy" "Crumbs everywhere. No regrets. Ten out of ten."
                         "Cheeky" ["snacks"; "chaos"] (85 # 100))
              {| secure_url :=
                   "https://res.cloudinary.com/demo/aura-api/users/nobody/1700000000000_me.png";
                 public_id := "aura-api/users/nobody/1700000000000_me.png";
                 up_width := 640; up_height := 480; format := "png"; bytes := 4 |})
    as (w' & row & error & _ & _ & _ & Hrun & Hdb & Hlog).
  - vm_compute. reflexivity.
  - reflexivity.
  - vm_compute. reflexivity.
  - reflexivity.
  - eexists w', _. split; [exact Hrun|]. split; [reflexivity|]. split; [exact Hdb|].
    rewrite Hlog. split; reflexivity.
Defined.

(** ** A code from issue to clean-up *)




Lemma find_filter_implied {A} (p q : A -> bool) (l : list A) :
  (forall x, In x l -> p x = true -> q x = true) ->
  find p (List.filter q l) = find p l.
Proof.
  induction l as [|x l IH]; intros H; simpl; [reflexivity|].
  destruct (q x) eqn:Eq; simpl.
  - destruct (p x); [reflexivity|]. apply IH. intros y Hy. apply H. now right.
  - destruct (p x) eqn:Ep.
    + rewrite (H x) in Eq by (auto; now left). discriminate.
    + apply IH. intros y Hy. apply H. now right.
Qed.

Lemma run_performCleanup o w :
  run o performCleanup w
  = (inr (CleanupResult.mk
            (Z.of_nat (length (List.filter used (otps (db w)))))
            (Z.of_nat (length (List.filter (stale (clock w)) (otps (db w)))))
            (Z.of_nat (length (List.filter used (otps (db w)))) +
             Z.of_nat (length (List.filter (stale (clock w)) (otps (db w)))))),
     mkWorld (set_otps (db w)
                (List.filter (fun x => negb (used x || stale (clock w) x)) (otps (db w))))
             (clock w) (S (S (S (tick w))))
             (log w ++ [ev (OtpDeleteMany (OtpWhere.mk None None (Some true) None None));
                        ev (OtpDeleteMany
                              (OtpWhere.mk None None (Some false) None
                                           (Some (clock w - 30 * 60 * 1000))))])).
Proof.
  unfold performCleanup. exec_step. rewrite deleteMany_used. exec_step.
  rewrite deleteMany_stale. exec_step.
  cbn [otps set_otps]. rewrite filter_kept, filter_stale_after_used.
  rewrite <- app_assoc. destruct (db w); reflexivity.
Qed.

(** X15: when every code expires at most 30 minutes after it was created (the
    codes of [sendOtp] expire after 10), the clean-up deletes no row that
    [verifyOtp] would still accept: for every phone number and code,
    [verifyOtp] finds the same row after the clean-up as before it, and it
    accepts after the clean-up exactly what it accepted before. *)
Theorem cleanup_spares_acceptable_codes (o : Oracle) (w : World) :
  (forall x, In x (otps (db w)) -> OTP.expiresAt x <= OTP.createdAt x + 30 * 60 * 1000) ->
  let w' := snd (run o performCleanup w) in
  forall phoneNumber code,
    Prisma.otp_findFirst (verify_where phoneNumber code (clock w')) (db w')
    = Prisma.otp_findFirst (verify_where phoneNumber code (clock w)) (db w) /\
    ((exists res w2, run o (verifyOtp phoneNumber code) w' = (inr res, w2))
     <-> (exists res w2, run o (verifyOtp phoneNumber code) w = (inr res, w2))).
Proof.
  intros Hexp w' phoneNumber code. subst w'. rewrite run_performCleanup. cbn [snd db clock].
  assert (Hfind : Prisma.otp_findFirst (verify_where phoneNumber code (clock w))
                    (set_otps (db w)
                       (List.filter (fun x => negb (used x || stale (clock w) x))
                                    (otps (db w))))
                  = Prisma.otp_findFirst (verify_where phoneNumber code (clock w)) (db w)).
  { unfold Prisma.otp_findFirst. cbn [otps set_otps]. apply find_filter_implied.
    intros x Hin Hm. apply matches_valid in Hm as (_ & _ & Hunused & Hlive).
    unfold used, stale. rewrite Hunused. cbn.
    pose proof (Hexp x Hin).
    destruct (Z.ltb_spec (30 * 60 * 1000) (clock w - OTP.createdAt x)); [lia|reflexivity]. }
  split; [exact Hfind|].
  set (w' := mkWorld _ _ _ _).
  assert (Hfind' : Prisma.otp_findFirst (verify_where phoneNumber code (clock w')) (db w')
                   = Prisma.otp_findFirst (verify_where phoneNumber code (clock w)) (db w))
    by exact Hfind.
  clearbody w'.
  destruct (Prisma.otp_findFirst (verify_where phoneNumber code (clock w)) (db w))
    as [x|] eqn:Hw.
  - destruct (run_verifyOtp_accepted o _ _ _ _ Hfind') as (res' & w2' & H' & _).
    destruct (run_verifyOtp_accepted o _ _ _ _ Hw) as (res & w2 & H & _).
    split; eauto.
  - destruct (run_verifyOtp_rejected o _ _ _ Hfind') as (w2' & H' & _).
    destruct (run_verifyOtp_rejected o _ _ _ Hw) as (w2 & H & _).
    split; intros (res & w3 & Hrun); congruence.
Qed.

(** The two codes of the sample deployment, 5 minutes after they were
    issued. *)
Lemma cleanup_spares_acceptable_codes_witness :
  let w := later 300000 Sample.two_otps in
  exists res w2,
    run Sample.oracle (verifyOtp "+15550001" "550000")
        (snd (run Sample.oracle performCleanup w)) = (inr res, w2).
Proof.
  intros w.
  assert (Hexp : forall x, In x (otps (db w)) ->
                           OTP.expiresAt x <= OTP.createdAt x + 30 * 60 * 1000).
  { change (otps (db w))
      with [OTP.mk "c2" "+15550001" "550000" 1700000600000 false 1700000000000 None;
            OTP.mk "c5" "+15550001" "550000" 1700000600000 false 1700000000000 None].
    intros x [<-|[<-|[]]]; cbn; lia. }
  apply (cleanup_spares_acceptable_codes Sample.oracle w Hexp "+15550001" "550000").
  eexists _, _. vm_compute. reflexivity.
Defined.

Lemma filter_none {A} (f : A -> bool) (l : list A) :
  (forall x, In x l -> f x = false) -> List.filter f l = [].
Proof.
  induction l as [|x l IH]; intros H; simpl; [reflexivity|].
  rewrite (H x) by now left. apply IH. intros y Hy. apply H. now right.
Qed.

Lemma filter_all {A} (f : A -> bool) (l : list A) :
  (forall x, In x l -> f x = true) -> List.filter f l = l.
Proof.
  induction l as [|x l IH]; intros H; simpl; [reflexivity|].
  rewrite (H x) by now left. f_equal. apply IH. intros y Hy. apply H. now right.
Qed.

(** X16: a clean-up leaves nothing for a second clean-up at the same time: the
    second one reports 0 rows under both criteria and changes no table. *)
Theorem second_cleanup_deletes_nothing (o : Oracle) (w : World) :
  let w1 := snd (run o performCleanup w) in
  exists w2,
    run o performCleanup w1 = (inr (CleanupResult.mk 0 0 0), w2) /\
    db w2 = db w1.
Proof.
  cbv zeta. rewrite !run_performCleanup. cbn [snd db clock otps set_otps].
  set (kept := List.filter (fun x => negb (used x || stale (clock w) x)) (otps (db w))).
  assert (Hkept : forall x, In x kept -> used x = false /\ stale (clock w) x = false).
  { intros x Hin. apply filter_In in Hin as [_ H]. apply negb_true_iff in H.
    now apply orb_false_iff in H. }
  assert (Hu : List.filter used kept = []).
  { apply filter_none. intros x Hin. now apply Hkept. }
  assert (Hs : List.filter (stale (clock w)) kept = []).
  { apply filter_none. intros x Hin. now apply Hkept. }
  assert (Hk : List.filter (fun x => negb (used x || stale (clock w) x)) kept = kept).
  { apply filter_all. intros x Hin. destruct (Hkept x Hin) as [-> ->]. reflexivity. }
  rewrite Hu, Hs, Hk. eexists. split; reflexivity.
Qed.

(** ** The code of [sendOtp] *)

Ltac digit_cases k :=
  unfold digit; destruct k as [|p|p]; try reflexivity;
  repeat (destruct p as [p|p|]; try reflexivity).

Lemma revapp_digit k rest acc :
  Decimal.revapp (digit k rest) acc = Decimal.revapp rest (digit k acc).
Proof. digit_cases k. Qed.

Lemma length_digit k rest :
  String.length (NilEmpty.string_of_uint (digit k rest))
  = S (String.length (NilEmpty.string_of_uint rest)).
Proof. digit_cases k. Qed.

Lemma digit_range k :
  0 <= k <= 9 ->
  k = 0 \/ k = 1 \/ k = 2 \/ k = 3 \/ k = 4 \/ k = 5 \/ k = 6 \/ k = 7 \/ k = 8 \/ k = 9.
Proof. lia. Qed.

Lemma of_lu_digit k acc :
  0 <= k <= 9 ->
  DecimalPos.Unsigned.of_lu (digit k acc)
  = (Z.to_N k + 10 * DecimalPos.Unsigned.of_lu acc)%N.
Proof.
  intros H. apply digit_range in H.
  repeat (destruct H as [->|H]); try subst k; reflexivity.
Qed.

Lemma unorm_digit k rest : 1 <= k <= 9 -> Decimal.unorm (digit k rest) = digit k rest.
Proof.
  intros H. assert (H' : 0 <= k <= 9) by lia. apply digit_range in H'.
  destruct H' as [->|H']; [lia|].
  repeat (destruct H' as [->|H']); try subst k; reflexivity.
Qed.

(** A number from 100000 to 999999 is written with its six digits. *)
Lemma to_int_six_digits n :
  100000 <= n <= 999999 -> Z.to_int n = Decimal.Pos (six_digits n).
Proof.
  intros Hn.
  assert (Hval : Z.of_int (Decimal.Pos (six_digits n)) = n).
  { cbn [Z.of_int]. unfold Z.of_uint. rewrite DecimalPos.Unsigned.of_uint_alt.
    unfold six_digits, Decimal.rev. rewrite !revapp_digit. cbn [Decimal.revapp].
    assert (Hd : forall x, 0 <= x mod 10 <= 9)
      by (intros x; pose proof (Z.mod_pos_bound x 10); lia).
    rewrite !of_lu_digit by apply Hd.
    cbn [DecimalPos.Unsigned.of_lu]. Z.div_mod_to_equations. lia. }
  rewrite <- Hval at 1. rewrite DecimalZ.to_of. cbn [Decimal.norm]. f_equal.
  unfold six_digits at 1. rewrite unorm_digit; [reflexivity|].
  Z.div_mod_to_equations. lia.
Qed.

Lemma toString_six_digits n :
  100000 <= n <= 999999 -> String.length (toString n) = 6%nat.
Proof.
  intros Hn. unfold toString. rewrite (to_int_six_digits n Hn).
  cbn [NilZero.string_of_int]. unfold NilZero.string_of_uint.
  assert (Hne : six_digits n <> Decimal.Nil).
  { unfold six_digits. generalize (n / 10 / 10 / 10 / 10 / 10 mod 10). intros k.
    generalize (digit (n / 10 / 10 / 10 / 10 mod 10)
                  (digit (n / 10 / 10 / 10 mod 10)
                     (digit (n / 10 / 10 mod 10)
                        (digit (n / 10 mod 10) (digit (n mod 10) Decimal.Nil))))).
    intros r. unfold digit; destruct k as [|p|p]; try discriminate;
      repeat (destruct p as [p|p|]; try discriminate). }
  destruct (six_digits n) eqn:E; [contradiction|..]; rewrite <- E;
    unfold six_digits; rewrite !length_digit; reflexivity.
Qed.

Lemma otp_code_range (r : Q) :
  (0 <= r)%Q -> (r < 1)%Q ->
  100000 <= Math_floor (100000 + r * 900000) <= 999999.
Proof.
  intros H0 H1. unfold Math_floor.
  pose proof (Qfloor_le (100000 + r * 900000)) as Hle.
  pose proof (Qlt_floor (100000 + r * 900000)) as Hlt.
  split.
  - assert (H : (inject_Z 100000 < inject_Z (Qfloor (100000 + r * 900000) + 1))%Q).
    { eapply Qle_lt_trans; [|exact Hlt]. change (inject_Z 100000) with (100000 # 1)%Q. lra. }
    rewrite <- Zlt_Qlt in H. lia.
  - assert (H : (inject_Z (Qfloor (100000 + r * 900000)) < inject_Z 1000000)%Q).
    { eapply Qle_lt_trans; [exact Hle|]. change (inject_Z 1000000) with (1000000 # 1)%Q. lra. }
    rewrite <- Zlt_Qlt in H. lia.
Qed.

Lemma run_sendOtp_new_row o cfg w phoneNumber x :
  In x (otps (db (snd (run o (sendOtp cfg phoneNumber) w)))) ->
  ~ In x (otps (db w)) ->
  x = OTP.mk (cuid o (S (S (tick w)))) phoneNumber
             (toString (Math_floor (100000 + random o (tick w) * 900000)))
             (clock w + 10 * 60 * 1000) false (clock w) None.
Proof.
  unfold sendOtp. exec_step. unfold Prisma.otp_create.
  destruct (existsb _ (otps (db w))); exec_step; [tauto|].
  assert (Hnew : forall l y, In x (l ++ [y]) -> ~ In x l -> x = y).
  { intros l y Hin Hnot. apply in_app_iff in Hin as [H|[<-|[]]]; [tauto|reflexivity]. }
  destruct (twilioClient cfg); exec_step; [|apply Hnew].
  destruct (twilio_send o _ _ _ _) as [e|[]]; exec_step; [|apply Hnew].
  destruct (String.eqb (nodeEnv cfg) "production"); exec_step; apply Hnew.
Qed.

Lemma run_sendOtp_answer o cfg w phoneNumber res w' :
  run o (sendOtp cfg phoneNumber) w = (inr res, w') ->
  SendOtpResult.code res
  = if String.eqb (nodeEnv cfg) "development"
    then Some (toString (Math_floor (100000 + random o (tick w) * 900000)))
    else None.
Proof.
  unfold sendOtp. exec_step. unfold Prisma.otp_create.
  destruct (existsb _ (otps (db w))); exec_step; [discriminate|].
  destruct (twilioClient cfg); exec_step; [|now intros [= <- _]].
  destruct (twilio_send o _ _ _ _) as [e|[]]; exec_step; [|now intros [= <- _]].
  destruct (String.eqb (nodeEnv cfg) "production"); exec_step;
    [discriminate|now intros [= <- _]].
Qed.

(** X17: when [Math.random()] answers in [0, 1), the code [sendOtp] stores is
    the decimal numeral of a number from 100000 to 999999: six characters, no
    leading zero.  The row it writes carries that code for the phone number
    asked, unused; and the code in the answer, in development, is the code of
    the row. *)
Theorem sendOtp_code_has_six_digits
        (cfg : Config) (o : Oracle) (w : World) (phoneNumber : string) :
  (0 <= random o (tick w))%Q -> (random o (tick w) < 1)%Q ->
  exists n,
    100000 <= n <= 999999 /\
    String.length (toString n) = 6%nat /\
    Z.to_int n = Decimal.Pos (six_digits n) /\
    (forall x,
        In x (otps (db (snd (run o (sendOtp cfg phoneNumber) w)))) ->
        ~ In x (otps (db w)) ->
        OTP.code x = toString n /\ OTP.phoneNumber x = phoneNumber /\ OTP.isUsed x = false) /\
    (forall res w' c,
        run o (sendOtp cfg phoneNumber) w = (inr res, w') ->
        SendOtpResult.code res = Some c -> c = toString n).
Proof.
  intros H0 H1. exists (Math_floor (100000 + random o (tick w) * 900000)).
  pose proof (otp_code_range _ H0 H1) as Hn.
  split; [exact Hn|]. split; [now apply toString_six_digits|].
  split; [now apply to_int_six_digits|]. split.
  - intros x Hin Hnew. rewrite (run_sendOtp_new_row _ _ _ _ _ Hin Hnew). repeat split.
  - intros res w' c Hrun Hc. rewrite (run_sendOtp_answer _ _ _ _ _ _ Hrun) in Hc.
    destruct (String.eqb (nodeEnv cfg) "development"); congruence.
Qed.

(** The sample deployment draws 0.5: the code is 550000. *)
Lemma sendOtp_code_has_six_digits_witness :
  exists n,
    100000 <= n <= 999999 /\
    String.length (toString n) = 6%nat /\
    forall x,
      In x (otps (db (snd (run Sample.oracle (sendOtp Sample.cfg "+15550001") Sample.start)))) ->
      OTP.code x = toString n.
Proof.
  destruct (sendOtp_code_has_six_digits Sample.cfg Sample.oracle Sample.start "+15550001")
    as (n & Hn & Hlen & _ & Hrow & _).
  - unfold Qle. simpl. lia.
  - unfold Qlt. simpl. lia.
  - exists n. split; [exact Hn|]. split; [exact Hlen|].
    intros x Hin. apply Hrow; [exact Hin|]. intros [].
Defined.

(** ** Refusals on the sample deployment *)

(** Alice tries to follow somebody who never registered. *)
Lemma follow_refusals_witness :
  exists w',
    run Sample.oracle (followUser "c1" "nobody") Sample.two_users
    = (inl (Exn NotFoundException "User not found"), w') /\
    db w' = db Sample.two_users.
Proof.
  destruct (follow_refusals Sample.oracle Sample.two_users "c1" "nobody") as (_ & H & _).
  apply H.
  - discriminate.
  - vm_compute. reflexivity.
Defined.

(** Alice uploads a PDF. *)
Lemma uploadImage_validates_before_anything_witness :
  exists e,
    run Sample.oracle
        (uploadImage Sample.cfg Sample.JSON_parse
           (Some {| buffer := [Byte.x25; Byte.x50; Byte.x44; Byte.x46];
                    originalname := "me.pdf"; mimetype := "application/pdf"; size := 4 |})
           "c1")
        Sample.two_users
    = (inl e, Sample.two_users) /\
    exn_class e = BadRequestException.
Proof.
  destruct (uploadImage_validates_before_anything
              Sample.cfg Sample.JSON_parse Sample.oracle Sample.two_users
              (Some {| buffer := [Byte.x25; Byte.x50; Byte.x44; Byte.x46];
                       originalname := "me.pdf"; mimetype := "application/pdf"; size := 4 |})
              "c1") as [_ H].
  destruct (H (Exn BadRequestException "Invalid file type. Only JPEG, PNG, WebP are allowed"))
    as [Hclass Hrun].
  - vm_compute. reflexivity.
  - eexists. split; [exact Hrun|exact Hclass].
Defined.

(** ** Two verifications of one code at the same time *)

Lemma mark_used_twice id l : mark_used id (mark_used id l) = mark_used id l.
Proof.
  unfold mark_used. rewrite map_map. apply map_ext. intros x.
  destruct (String.eqb (OTP.id x) id) eqn:E; [|now rewrite E].
  cbn [Prisma.otp_set_isUsed OTP.id]. now rewrite E.
Qed.

Lemma otp_update_marked d x :
  In x (otps d) ->
  exists row, Prisma.otp_update (OTP.id x) true
                (set_otps d (mark_used (OTP.id x) (otps d)))
              = inr (row, set_otps d (mark_used (OTP.id x) (otps d))).
Proof.
  intros Hin. unfold Prisma.otp_update. cbn [otps set_otps].
  fold (mark_used (OTP.id x) (mark_used (OTP.id x) (otps d))). rewrite mark_used_twice.
  assert (Hin' : In (OTP.id x) (map OTP.id (mark_used (OTP.id x) (otps d)))).
  { unfold mark_used. rewrite (map_map_update OTP.id) by reflexivity.
    now apply in_map. }
  destruct (find (fun o => String.eqb (OTP.id o) (OTP.id x))
                 (mark_used (OTP.id x) (otps d))) as [y|] eqn:E.
  - exists (Prisma.otp_set_isUsed true y). reflexivity.
  - apply find_none_existsb in E. apply existsb_In_map in Hin'. congruence.
Qed.

(** One turn of the event loop: the request the schedule names runs up to
    its next operation. *)
Ltac pool_step :=
  cbn [interleave nth_error firstn skipn app]; unfold resume; exec_step.

(** X18: [verifyOtp] looks the row up and marks it in two separate awaited
    calls, and the update does not ask that the row is still unused.  So when
    a second request for the same phone number and code looks the row up
    before the first has marked it, both requests are accepted on the one
    row, which ends up marked once. *)
Theorem overlapping_verifyOtp_accept_one_row_twice
        (o : Oracle) (w : World) (phoneNumber code : string) (x : OTP.t) :
  Prisma.otp_findFirst (verify_where phoneNumber code (clock w)) (db w) = Some x ->
  Prisma.user_findUnique (ByPhoneNumber phoneNumber) (db w) = None ->
  exists w',
    interleave o [0; 0; 1; 1; 0; 0; 1; 1]%nat
               [verifyOtp phoneNumber code; verifyOtp phoneNumber code] w
    = ([Ret (NewUser "OTP verified. Please complete registration." phoneNumber);
        Ret (NewUser "OTP verified. Please complete registration." phoneNumber)], w') /\
    otps (db w') = mark_used (OTP.id x) (otps (db w)).
Proof.
  intros Hfound Huser.
  assert (Hin : In x (otps (db w))) by (apply find_some in Hfound; tauto).
  destruct (otp_update_In _ _ Hin) as [row1 Hupd1].
  destruct (otp_update_marked _ _ Hin) as [row2 Hupd2].
  assert (Huser' : Prisma.user_findUnique (ByPhoneNumber phoneNumber)
                     (set_otps (db w) (mark_used (OTP.id x) (otps (db w)))) = None)
    by exact Huser.
  unfold verify_where in Hfound. unfold verifyOtp.
  pool_step. rewrite !Hfound.
  pool_step. rewrite Hupd1.
  pool_step. rewrite Huser'.
  pool_step. rewrite Hupd2.
  pool_step. rewrite Huser'.
  pool_step. eexists. split; reflexivity.
Qed.

(** The one code of the sample deployment, verified twice at once. *)
Lemma overlapping_verifyOtp_accept_one_row_twice_witness :
  exists res1 res2 w',
    interleave Sample.oracle [0; 0; 1; 1; 0; 0; 1; 1]%nat
               [verifyOtp "+15550001" "550000"; verifyOtp "+15550001" "550000"]
               Sample.one_otp
    = ([Ret res1; Ret res2], w') /\
    map OTP.isUsed (otps (db w')) = [true].
Proof.
  destruct (Prisma.otp_findFirst
              (verify_where "+15550001" "550000" (clock Sample.one_otp))
              (db Sample.one_otp)) as [x|] eqn:Hfound;
    [|vm_compute in Hfound; discriminate Hfound].
  destruct (overlapping_verifyOtp_accept_one_row_twice
              Sample.oracle Sample.one_otp "+15550001" "550000" x Hfound)
    as (w' & Hrun & Hotps).
  - vm_compute. reflexivity.
  - eexists _, _, w'. split; [exact Hrun|]. rewrite Hotps.
    vm_compute in Hfound. injection Hfound as <-. vm_compute. reflexivity.
Defined.

(** ** The upload pipeline, step by step *)

(** When the analysis throws, it has made at most its one call, and made it
    whenever a Gemini client is configured. *)
Lemma run_generateAuraFromBuffer_throws cfg JSON_parse o imageBuffer mimeType w e w1 :
  run o (generateAuraFromBuffer cfg JSON_parse imageBuffer mimeType) w = (inl e, w1) ->
  exn_class e = BadRequestException /\
  db w1 = db w /\
  (genAI cfg = false /\ log w1 = log w \/
   genAI cfg = true /\
   log w1 = log w ++ [ev (GeminiGenerateContent (base64 imageBuffer) mimeType)]).
Proof.
  intros Hrun.
  destruct (run_generateAuraFromBuffer _ _ _ _ _ _ _ _ Hrun) as (Hdb & Hfail & _).
  destruct (Hfail e eq_refl) as [Hclass _]. split; [exact Hclass|]. split; [exact Hdb|].
  revert Hrun. unfold generateAuraFromBuffer, parse_response.
  destruct (genAI cfg); exec_step.
  - intros Hrun. right. split; [reflexivity|]. revert Hrun.
    destruct (gemini_generate o _ _ _) as [e0|text]; exec_step.
    + destruct (is_BadRequestException e0); exec_step; now intros [= _ <-].
    + destruct (JSON_parse text) as [e0|parsed]; exec_step; [now intros [= _ <-]|].
      destruct (falsy (j_title parsed) || falsy (j_description parsed)
                || falsy (j_mood parsed)); exec_step; [now intros [= _ <-]|discriminate].
  - intros [= _ <-]. now left.
Qed.

(** What the image row and the aura row are created from. *)
Lemma image_create_fresh newId now data d :
  Prisma.image_exists d newId = false ->
  Prisma.user_exists d (ImageCreateInput.userId data) = true ->
  exists image,
    Prisma.image_create newId now data d = inr (image, set_images d (images d ++ [image])) /\
    Image.id image = newId.
Proof.
  intros Hid Huser. unfold Prisma.image_create. rewrite Hid, Huser. cbn [negb].
  eexists. split; reflexivity.
Qed.

Lemma aura_create_fresh newId now data d :
  ~ In newId (map Aura.id (auras d)) ->
  ~ In (AuraCreateInput.imageId data) (map Aura.imageId (auras d)) ->
  Prisma.image_exists d (AuraCreateInput.imageId data) = true ->
  Prisma.user_exists d (AuraCreateInput.userId data) = true ->
  exists aura, Prisma.aura_create newId now data d = inr (aura, set_auras d (auras d ++ [aura])).
Proof.
  intros Hid Himage Hexists Huser. unfold Prisma.aura_create.
  rewrite (not_In_existsb Aura.id _ _ Hid), (not_In_existsb Aura.imageId _ _ Himage),
    Hexists, Huser. cbn [negb]. eexists. reflexivity.
Qed.

(** The conjuncts of C1 that only look at how a run ended. *)
Ltac upload_ended n :=
  (split; [first [reflexivity | symmetry; apply app_nil_r
                 | cbn [log]; rewrite <- ?app_assoc; reflexivity]|]);
  (split; [now exists n|]);
  (split; [first [discriminate | now intros ? ? [= <- <-]]|]).

(** C1: for a file that passes validation, [uploadImage] makes its four
    awaited steps in this order: Gemini analysis of the file's buffer,
    Cloudinary upload, creation of the image row, creation of the aura row.
    Each step is made as soon as the one before it has succeeded, none is
    made after a step that failed, and the call returns exactly when all four
    succeeded; they all succeed when the analysis and the upload do, the user
    exists and the generated identifiers are not in use.  Whatever fails, it
    throws a [BadRequestException].  When the Gemini analysis throws, nothing
    is uploaded to Cloudinary and the database is unchanged. *)
Theorem uploadImage_analyses_before_storing
        (cfg : Config) (JSON_parse : string -> exn + GeminiJson)
        (o : Oracle) (w : World) (file : File) (userId : string) :
  validate cfg (Some file) = None ->
  exists r w' seg,
    run o (uploadImage cfg JSON_parse (Some file) userId) w = (r, w') /\
    log w' = log w ++ seg /\
    (exists n, map step_of seg = firstn n pipeline_steps) /\
    (forall first rest,
        seg = first :: rest ->
        first = ev (GeminiGenerateContent (base64 (buffer file)) (mimetype file))) /\
    (forall res,
        r = inr res ->
        map step_of seg = pipeline_steps /\
        exists image aura,
          Aura.imageId aura = Image.id image /\
          db w' = mkDB (users (db w)) (otps (db w)) (images (db w) ++ [image])
                       (auras (db w) ++ [aura]) (follows (db w))) /\
    (forall e, r = inl e -> exn_class e = BadRequestException) /\
    (forall e w1,
        run o (generateAuraFromBuffer cfg JSON_parse (buffer file) (mimetype file)) w
          = (inl e, w1) ->
        (exists e', r = inl e' /\ exn_class e' = BadRequestException) /\
        (map step_of seg = [] \/ map step_of seg = [StepGemini]) /\
        db w' = db w) /\
    (* the first step is made whenever a Gemini client is configured *)
    (genAI cfg = true ->
     exists rest,
       seg = ev (GeminiGenerateContent (base64 (buffer file)) (mimetype file)) :: rest) /\
    (* each further step is made once the one before it has succeeded *)
    (forall ai,
        fst (run o (generateAuraFromBuffer cfg JSON_parse (buffer file) (mimetype file)) w)
        = inr ai ->
        let data := ("data:image/jpeg;base64," ++ base64 (buffer file))%string in
        let publicId := (cloudinary_folder cfg ++ "/users/" ++ userId ++ "/" ++
                         toString (clock w) ++ "_" ++
                         clean_filename (originalname file))%string in
        exists rest,
          seg = ev (GeminiGenerateContent (base64 (buffer file)) (mimetype file))
                :: ev (CloudinaryUpload data publicId) :: rest /\
          (forall e, cloudinary_upload o (S (S (tick w))) data publicId = inl e ->
                     rest = [] /\ exists e', r = inl e') /\
          forall up,
            cloudinary_upload o (S (S (tick w))) data publicId = inr up ->
            let imageData :=
              ImageCreateInput.mk (secure_url up) (public_id up) (originalname file)
                (size file) (mimetype file) (Some (up_width up)) (Some (up_height up))
                true "completed" userId in
            exists rest',
              rest = ev (ImageCreate imageData) :: rest' /\
              (forall e,
                  Prisma.image_create (cuid o (S (S (S (tick w))))) (clock w) imageData (db w)
                  = inl e ->
                  rest' = [] /\ exists e', r = inl e') /\
              forall image d1,
                Prisma.image_create (cuid o (S (S (S (tick w))))) (clock w) imageData (db w)
                = inr (image, d1) ->
                let auraData :=
                  AuraCreateInput.mk (AiAura.title ai) (AiAura.description ai)
                    (Some (AiAura.mood ai)) (AiAura.keywords ai)
                    (Some (AiAura.confidence ai)) [] (Image.id image) userId in
                rest' = [ev (AuraCreate auraData)] /\
                (forall e,
                    Prisma.aura_create (cuid o (S (S (S (S (tick w)))))) (clock w) auraData d1
                    = inl e ->
                    exists e', r = inl e') /\
                forall aura d2,
                  Prisma.aura_create (cuid o (S (S (S (S (tick w)))))) (clock w) auraData d1
                  = inr (aura, d2) ->
                  db w' = d2 /\
                  r = inr (UploadedImage.mk (Image.id image) (Image.originalUrl image)
                             (Image.publicId image) (Image.fileName image)
                             (Image.fileSize image) (Image.mimeType image)
                             (default 0 (Image.width image)) (default 0 (Image.height image))
                             (UploadedAura.mk (Aura.id aura) (Aura.title aura)
                                (Aura.description aura) (Aura.mood aura) (Aura.colors aura)
                                (Aura.keywords aura) (Aura.confidence aura)
                                (Aura.likes aura) (Aura.shares aura)))) /\
    (* all four are made, and the call returns, in the ordinary case *)
    (forall ai up,
        fst (run o (generateAuraFromBuffer cfg JSON_parse (buffer file) (mimetype file)) w)
        = inr ai ->
        cloudinary_upload o (S (S (tick w)))
          ("data:image/jpeg;base64," ++ base64 (buffer file))
          (cloudinary_folder cfg ++ "/users/" ++ userId ++ "/" ++
           toString (clock w) ++ "_" ++ clean_filename (originalname file))
        = inr up ->
        Prisma.user_exists (db w) userId = true ->
        referential (db w) ->
        cuid_fresh o w ->
        exists res, r = inr res /\
                    UploadedImage.publicId res = public_id up /\
                    UploadedAura.title (UploadedImage.aura res) = AiAura.title ai).
Proof.
  intros Hvalid. unfold uploadImage. rewrite Hvalid. cbv zeta.
  rewrite run_try_catch. unfold upload_pipeline. rewrite run_mbind.
  destruct (run o (generateAuraFromBuffer cfg JSON_parse (buffer file) (mimetype file)) w)
    as [[e|ai] w1] eqn:Hgemini.
  - (* the analysis throws *)
    destruct (run_generateAuraFromBuffer_throws _ _ _ _ _ _ _ _ Hgemini)
      as (Hclass & Hdb & [[Hoff Hlog]|[Hon Hlog]]);
      (assert (Hthrow : forall w0,
                  exists e',
                    @run o UploadedImage.t
                         (if includes (exn_message e) "Gemini" || includes (exn_message e) "AI"
                          then Throw (Exn BadRequestException
                                          ("AI aura analysis failed: " ++ exn_message e))
                          else Throw (Exn BadRequestException
                                          ("Failed to process image: " ++ exn_message e))) w0
                    = (inl e', w0) /\ exn_class e' = BadRequestException)
         by (intros w0; destruct (includes _ _ || includes _ _); eexists; split; reflexivity));
      destruct (Hthrow w1) as (e' & Hrun & Hclass'); rewrite Hrun;
      eexists _, w1, _; (split; [reflexivity|]); rewrite Hlog.
    + upload_ended 0%nat. split; [discriminate|]. split; [now intros ? [= <-]|].
      split; [intros ? ? _; split; [eauto|]; split; [now left|exact Hdb]|].
      split; [congruence|]. split; discriminate.
    + upload_ended 1%nat. split; [discriminate|]. split; [now intros ? [= <-]|].
      split; [intros ? ? _; split; [eauto|]; split; [now right|exact Hdb]|].
      split; [intros _; eexists; reflexivity|]. split; discriminate.
  - (* the analysis returns *)
    assert (Hai : fst (run o (generateAuraFromBuffer cfg JSON_parse (buffer file)
                                                     (mimetype file)) w) = inr ai)
      by now rewrite Hgemini.
    pose proof (run_generateAuraFromBuffer_returns _ _ _ _ _ _ _ Hai) as Hw1.
    rewrite Hgemini in Hw1. injection Hw1 as ->. clear Hai.
    rewrite run_mbind. unfold cloudinary_uploadImage. rewrite run_try_catch. exec_step.
    destruct (cloudinary_upload o _ _ _) as [e|up] eqn:Hcloud; exec_step.
    + (* the upload throws *)
      cbn [exn_message Exn]. rewrite upload_message_is_not_ai. exec_step.
      eexists _, _, _. split; [reflexivity|]. upload_ended 2%nat.
      split; [discriminate|]. split; [now intros ? [= <-]|]. split; [discriminate|].
      split; [intros _; eexists; reflexivity|]. split.
      * intros ? [= <-]. eexists. split; [reflexivity|]. split; [|discriminate].
        intros ? _. split; [reflexivity|eauto].
      * intros ? ? [= <-]. discriminate.
    + (* the upload returns *)
      cbn [CloudinaryUploadResult.originalUrl CloudinaryUploadResult.publicId
           CloudinaryUploadResult.width CloudinaryUploadResult.height].
      destruct (Prisma.image_create _ _ _ _) as [e|[image d1]] eqn:Himage; exec_step.
      * (* the image row is refused *)
        assert (Hthrow : forall w0,
                   exists e',
                     @run o UploadedImage.t
                          (if includes (exn_message e) "Gemini"
                              || includes (exn_message e) "AI"
                           then Throw (Exn BadRequestException
                                           ("AI aura analysis failed: " ++ exn_message e))
                           else Throw (Exn BadRequestException
                                           ("Failed to process image: " ++ exn_message e))) w0
                     = (inl e', w0) /\ exn_class e' = BadRequestException)
          by (intros w0; destruct (includes _ _ || includes _ _); eexists; split; reflexivity).
        match goal with |- context [run o _ ?w0] => destruct (Hthrow w0) as (e' & Hrun & He') end.
        rewrite Hrun. eexists _, _, _. split; [reflexivity|]. upload_ended 3%nat.
        split; [discriminate|]. split; [now intros ? [= <-]|]. split; [discriminate|].
        split; [intros _; eexists; reflexivity|]. split.
        -- intros ? [= <-]. eexists. split; [reflexivity|]. split; [discriminate|].
           intros ? [= <-]. eexists. split; [reflexivity|].
           split; [|intros ? ? Hok; congruence].
           intros ? _. split; [reflexivity|eauto].
        -- intros ? ? [= <-] [= <-] Huser Href Hfresh. exfalso.
           assert (Hid : Prisma.image_exists (db w) (cuid o (S (S (S (tick w))))) = false).
           { unfold Prisma.image_exists. apply not_In_existsb. intros Hin.
             apply (Hfresh (S (S (S (tick w))))); [lia|].
             unfold ids_in_use. rewrite !in_app_iff. tauto. }
           match type of Himage with
           | Prisma.image_create ?id ?now ?data ?d = _ =>
               destruct (image_create_fresh id now data d Hid Huser) as (i & Hi & _)
           end.
           congruence.
      * (* the image row is written *)
        destruct (Prisma.aura_create _ _ _ _) as [e|[aura d2]] eqn:Haura; exec_step.
        -- (* the aura row is refused *)
           assert (Hthrow : forall w0,
                      exists e',
                        @run o UploadedImage.t
                             (if includes (exn_message e) "Gemini"
                                 || includes (exn_message e) "AI"
                              then Throw (Exn BadRequestException
                                              ("AI aura analysis failed: " ++ exn_message e))
                              else Throw (Exn BadRequestException
                                              ("Failed to process image: " ++ exn_message e)))
                             w0
                        = (inl e', w0) /\ exn_class e' = BadRequestException)
             by (intros w0; destruct (includes _ _ || includes _ _);
                 eexists; split; reflexivity).
           match goal with
           | |- context [run o _ ?w0] => destruct (Hthrow w0) as (e' & Hrun & He')
           end.
           rewrite Hrun. eexists _, _, _. split; [reflexivity|]. upload_ended 4%nat.
           split; [discriminate|]. split; [now intros ? [= <-]|]. split; [discriminate|].
           split; [intros _; eexists; reflexivity|]. split.
           ++ intros ? [= <-]. eexists. split; [reflexivity|]. split; [discriminate|].
              intros ? [= <-]. eexists. split; [reflexivity|].
              split; [intros ? Hko; congruence|].
              intros ? ? Hok. rewrite Himage in Hok. injection Hok as <- <-.
              split; [reflexivity|]. split; [eauto|].
              intros ? ? Hok. congruence.
           ++ intros ? ? [= <-] [= <-] Huser Href Hfresh. exfalso.
              assert (Hid : Prisma.image_exists (db w) (cuid o (S (S (S (tick w))))) = false).
              { unfold Prisma.image_exists. apply not_In_existsb. intros Hin.
                apply (Hfresh (S (S (S (tick w))))); [lia|].
                unfold ids_in_use. rewrite !in_app_iff. tauto. }
              match type of Himage with
              | Prisma.image_create ?id ?now ?data ?d = _ =>
                  destruct (image_create_fresh id now data d Hid Huser) as (i & Hi & Hiid)
              end.
              rewrite Hi in Himage. injection Himage as <- <-.
              match type of Haura with
              | Prisma.aura_create ?id ?now ?data ?d = _ =>
                  destruct (aura_create_fresh id now data d) as (a & Ha)
              end.
              ** cbn [auras set_images]. intros Hin.
                 apply (Hfresh (S (S (S (S (tick w)))))); [lia|].
                 unfold ids_in_use. rewrite !in_app_iff. tauto.
              ** cbn [auras set_images AuraCreateInput.imageId]. rewrite Hiid. intros Hin.
                 apply in_map_iff in Hin as (a0 & Ha0 & Hin).
                 pose proof (aura_image _ Href a0 Hin) as Hex. rewrite Ha0 in Hex.
                 congruence.
              ** cbn [AuraCreateInput.imageId]. rewrite Hiid. apply image_exists_In.
                 cbn [images set_images]. rewrite map_app, in_app_iff. right.
                 cbn. now left.
              ** exact Huser.
              ** cbn [db] in Haura. congruence.
        -- (* the aura row is written *)
           eexists _, _, _. split; [reflexivity|]. upload_ended 4%nat.
           split.
           { intros ? _. split; [reflexivity|]. exists image, aura.
             revert Himage Haura. unfold Prisma.image_create, Prisma.aura_create.
             repeat match goal with
                    | |- context [if ?c then _ else _] => destruct c; try discriminate
                    end.
             intros [= <- <-] [= <- <-]. split; reflexivity. }
           split; [discriminate|]. split; [discriminate|].
           split; [intros _; eexists; reflexivity|]. split.
           ++ intros ? [= <-]. eexists. split; [reflexivity|]. split; [discriminate|].
              intros ? [= <-]. eexists. split; [reflexivity|].
              split; [intros ? Hko; congruence|].
              intros ? ? Hok. rewrite Himage in Hok. injection Hok as <- <-.
              split; [reflexivity|]. split; [intros ? Hko; congruence|].
              intros ? ? Hok. rewrite Haura in Hok. injection Hok as <- <-.
              split; reflexivity.
           ++ intros ? ? [= <-] [= <-] _ _ _. eexists. split; [reflexivity|].
              revert Himage Haura. unfold Prisma.image_create, Prisma.aura_create.
              repeat match goal with
                     | |- context [if ?c then _ else _] => destruct c; try discriminate
                     end.
              intros [= <- <-] [= <- <-]. split; reflexivity.
Qed.

(** Alice uploads the sample file: the four steps are made and the call
    returns, with one image row and one aura row written. *)
Lemma uploadImage_analyses_before_storing_witness :
  validate Sample.cfg (Some Sample.file) = None /\
  exists res w' seg,
    run Sample.oracle (uploadImage Sample.cfg Sample.JSON_parse (Some Sample.file) "c1")
        Sample.two_users = (inr res, w') /\
    log w' = log Sample.two_users ++ seg /\
    map step_of seg = pipeline_steps /\
    length (images (db w')) = S (length (images (db Sample.two_users))) /\
    length (auras (db w')) = S (length (auras (db Sample.two_users))).
Proof.
  split; [reflexivity|].
  destruct (uploadImage_analyses_before_storing
              Sample.cfg Sample.JSON_parse Sample.oracle Sample.two_users Sample.file "c1"
              eq_refl)
    as (r & w' & seg & Hrun & Hlog & _ & _ & Hret & _ & _ & _ & _ & Hall).
  destruct (Hall (AiAura.mk "Snack Goblin Energy"
                            "Crumbs everywhere. No regrets. Ten out of ten."
                            "Cheeky" ["snacks"; "chaos"] (85 # 100))
                 {| secure_url :=
                      "https://res.cloudinary.com/demo/aura-api/users/c1/1700000000000_me.png";
                    public_id := "aura-api/users/c1/1700000000000_me.png";
                    up_width := 640; up_height := 480; format := "png"; bytes := 4 |})
    as (res & -> & _).
  - vm_compute. reflexivity.
  - vm_compute. reflexivity.
  - vm_compute. reflexivity.
  - apply reachable_referential with (o := Sample.oracle).
    unfold Sample.two_users. repeat apply run_reachable. apply reachable_start.
  - exact two_users_fresh.
  - destruct (Hret res eq_refl) as (Hsteps & image & aura & _ & Hdb).
    exists res, w', seg. split; [exact Hrun|]. split; [exact Hlog|]. split; [exact Hsteps|].
    rewrite Hdb. cbn [images auras]. rewrite !length_app. simpl. split; lia.
Defined.
